(** * Persona-driven document intelligence: relevance scoring, section
      extraction and ranking

    A shallow embedding of the Python modules [config], [language_detector],
    [document_extractor], [relevance_analyzer] and [persona_processor], with
    the properties of the extraction, scoring, refinement and ranking
    pipeline.

    Conventions of the embedding:
    - a Python [str] is a list of Unicode code points ([str]);
    - a Python [float] is a rational ([Q]); the only float operations of the
      code are sums, one division, products by constants, comparisons and a
      final clamp;
    - the dicts built with dict literals for sections, subsections and
      output entries are records of optional fields, [None] being a key
      that is absent; a subscript on a missing key raises, [.get] takes a
      default; the dicts of the configuration are association lists in
      insertion order;
    - the statistical language detectors, the sentence tokenizer, the
      sentence-embedding model, the wall clock, the directory listing and
      the PDF reader are collaborators from outside the repository: they
      are parameters of the development, and every property is proved for
      all of them. *)

From Stdlib Require Import List Bool Arith ZArith NArith QArith Qminmax Qround.
From Stdlib Require Import String Ascii DecimalString Lia Permutation Sorted.
Import ListNotations.

Set Implicit Arguments.

(** ** Python strings *)

Definition str := list N.

(** [len(s)] *)
Definition len (s : str) : nat := List.length s.

(** An ASCII literal as a [str]. *)
Definition u (s : string) : str := map N_of_ascii (list_ascii_of_string s).

Fixpoint str_eqb (a b : str) : bool :=
  match a, b with
  | [], [] => true
  | x :: a', y :: b' => N.eqb x y && str_eqb a' b'
  | _, _ => false
  end.

(** [str.isspace] on one code point: the characters Python treats as
    whitespace, which are also the ones [str.strip] removes and the regular
    expression class [\s] matches on [str] patterns. *)
Definition isspace (c : N) : bool :=
  ((9 <=? c) && (c <=? 13) || (28 <=? c) && (c <=? 32) || (c =? 133) || (c =? 160)
   || (c =? 5760) || (8192 <=? c) && (c <=? 8202) || (c =? 8232) || (c =? 8233)
   || (c =? 8239) || (c =? 8287) || (c =? 12288))%N.

Fixpoint lstrip (s : str) : str :=
  match s with
  | c :: s' => if isspace c then lstrip s' else s
  | [] => []
  end.

Definition rstrip (s : str) : str := rev (lstrip (rev s)).

(** [s.strip()] *)
Definition strip (s : str) : str := rstrip (lstrip s).

(** [str.lower] on one code point, for the alphabets the configuration
    tables use: Basic Latin, Latin-1 Supplement and the letter Y with
    diaeresis; Devanagari has no case.  Every other code point is kept,
    also the cased letters of other alphabets and the signs (the Kelvin
    sign, the capital sharp s, ...) that [str.lower] changes: on a text
    that holds one, [lower] is not [str.lower].  The properties below are
    either about texts of Basic Latin, or hold whatever [lower] does to
    the text. *)
Definition lower_char (c : N) : N :=
  (if (65 <=? c) && (c <=? 90) then c + 32
   else if (192 <=? c) && (c <=? 222) && negb (c =? 215) then c + 32
   else if c =? 376 then 255
   else c)%N.

(** [s.lower()] *)
Definition lower (s : str) : str := map lower_char s.

Fixpoint startswith (p s : str) : bool :=
  match p, s with
  | [], _ => true
  | x :: p', y :: s' => N.eqb x y && startswith p' s'
  | _ :: _, [] => false
  end.

(** [sub in s]: substring test. *)
Fixpoint contains (sub s : str) : bool :=
  startswith sub s ||
  match s with
  | [] => false
  | _ :: s' => contains sub s'
  end.

(** [sep.join(parts)] *)
Fixpoint join (sep : str) (parts : list str) : str :=
  match parts with
  | [] => []
  | [p] => p
  | p :: rest => p ++ sep ++ join sep rest
  end.

(** [x in xs] for a list of strings. *)
Definition str_in (x : str) (xs : list str) : bool := existsb (str_eqb x) xs.

(** ** Python dicts

    Insertion-ordered: assigning to a key that is present keeps its
    position, a new key goes to the end. *)

Section Dict.
Variable K V : Type.
Variable eqb : K -> K -> bool.

Definition dict := list (K * V).

Fixpoint dict_get (d : dict) (k : K) : option V :=
  match d with
  | [] => None
  | (k', v) :: d' => if eqb k k' then Some v else dict_get d' k
  end.

(** [d.get(k, default)] *)
Definition dict_get_default (d : dict) (k : K) (default : V) : V :=
  match dict_get d k with
  | Some v => v
  | None => default
  end.

(** [d[k] = v] *)
Fixpoint dict_set (d : dict) (k : K) (v : V) : dict :=
  match d with
  | [] => [(k, v)]
  | (k', v') :: d' => if eqb k k' then (k', v) :: d' else (k', v') :: dict_set d' k v
  end.

(** [d.update(other)] *)
Definition dict_update (d other : dict) : dict :=
  fold_left (fun acc kv => dict_set acc (fst kv) (snd kv)) other d.

Definition dict_keys (d : dict) : list K := map fst d.
Definition dict_values (d : dict) : list V := map snd d.
End Dict.

Arguments dict_get {K V} eqb d k.
Arguments dict_get_default {K V} eqb d k default.
Arguments dict_set {K V} eqb d k v.
Arguments dict_update {K V} eqb d other.
Arguments dict_keys {K V} d.
Arguments dict_values {K V} d.

(** ** config.py *)

Record PersonaProfile := {
  p_keywords : dict str (dict str Z);
  p_sections : list str;
  p_focus_areas : list str;
  p_content_weights : dict str Q
}.

Record JobProfile := {
  j_keywords : dict str (dict str Z);
  j_focus : str;
  j_content_weights : dict str Q
}.

(** A language pattern of the configuration is a character class repeated
    one or more times, [[...]+]. *)
Inductive class_item :=
| Range (lo hi : N)
| Chr (c : N)
| Whitespace.

Definition char_class := list class_item.

Section Tables.
Local Open Scope N_scope.

Definition researcher_keywords_en : dict str Z :=
[
 (u "methodology", 10%Z); (u "hypothesis", 9%Z); (u "experiment", 9%Z);
 (u "analysis", 8%Z); (u "findings", 8%Z); (u "conclusion", 8%Z);
 (u "literature review", 10%Z); (u "data", 7%Z); (u "statistics", 8%Z);
 (u "results", 8%Z); (u "discussion", 8%Z); (u "research question", 9%Z);
 (u "sampling", 7%Z); (u "variables", 7%Z); (u "correlation", 8%Z);
 (u "significance", 8%Z); (u "peer review", 9%Z); (u "citation", 7%Z);
 (u "references", 7%Z); (u "abstract", 8%Z); (u "background", 7%Z);
 (u "objectives", 8%Z); (u "limitations", 7%Z); (u "future work", 7%Z)].

Definition researcher_keywords_es : dict str Z :=
[
 (u "metodolog" ++ [237] ++ u "a", 10%Z); (u "hip" ++ [243] ++ u "tesis", 9%Z);
 (u "experimento", 9%Z); (u "an" ++ [225] ++ u "lisis", 8%Z); (u "hallazgos", 8%Z);
 (u "conclusi" ++ [243] ++ u "n", 8%Z);
 (u "revisi" ++ [243] ++ u "n literaria", 10%Z); (u "datos", 7%Z);
 (u "estad" ++ [237] ++ u "sticas", 8%Z); (u "resultados", 8%Z);
 (u "discusi" ++ [243] ++ u "n", 8%Z);
 (u "pregunta investigaci" ++ [243] ++ u "n", 9%Z); (u "muestreo", 7%Z);
 (u "variables", 7%Z); (u "correlaci" ++ [243] ++ u "n", 8%Z);
 (u "significancia", 8%Z); (u "revisi" ++ [243] ++ u "n pares", 9%Z);
 (u "cita", 7%Z); (u "referencias", 7%Z); (u "resumen", 8%Z);
 (u "antecedentes", 7%Z); (u "objetivos", 8%Z); (u "limitaciones", 7%Z);
 (u "trabajo futuro", 7%Z)].

Definition student_keywords_en : dict str Z :=
[
 (u "concept", 9%Z); (u "definition", 9%Z); (u "example", 8%Z);
 (u "explanation", 8%Z); (u "theory", 8%Z); (u "principle", 8%Z); (u "formula", 8%Z);
 (u "step-by-step", 9%Z); (u "tutorial", 9%Z); (u "practice", 8%Z);
 (u "exercise", 8%Z); (u "summary", 8%Z); (u "key points", 9%Z);
 (u "learning objectives", 9%Z); (u "overview", 7%Z); (u "introduction", 7%Z);
 (u "basics", 8%Z); (u "fundamentals", 8%Z); (u "guide", 8%Z); (u "how to", 8%Z);
 (u "tips", 7%Z); (u "common mistakes", 8%Z); (u "review", 7%Z)].

Definition analyst_keywords_en : dict str Z :=
[
 (u "trend", 9%Z); (u "pattern", 9%Z); (u "insight", 9%Z); (u "analysis", 8%Z);
 (u "comparison", 8%Z); (u "benchmark", 8%Z); (u "metric", 8%Z); (u "kpi", 9%Z);
 (u "performance", 8%Z); (u "evaluation", 8%Z); (u "assessment", 8%Z);
 (u "recommendation", 9%Z); (u "forecast", 9%Z); (u "projection", 8%Z);
 (u "market", 8%Z); (u "industry", 7%Z); (u "competitive", 8%Z); (u "strategy", 8%Z);
 (u "optimization", 8%Z); (u "efficiency", 7%Z); (u "roi", 9%Z); (u "growth", 8%Z);
 (u "opportunity", 8%Z); (u "risk", 8%Z)].


Definition PERSONA_KNOWLEDGE : dict str PersonaProfile :=
[
 (u "researcher",
  {| p_keywords := [(u "en", researcher_keywords_en); (u "es", researcher_keywords_es)];
     p_sections := [u "introduction"; u "methodology"; u "results"; u "discussion";
                  u "conclusion"; u "abstract"; u "literature review"];
     p_focus_areas := [u "research design"; u "data analysis"; u "statistical methods";
                  u "findings interpretation"];
     p_content_weights :=
       [(u "technical_depth", (9 # 10)%Q); (u "methodology_focus", (8 # 10)%Q);
        (u "data_analysis", (9 # 10)%Q); (u "conceptual_framework", (7 # 10)%Q)] |});
 (u "student",
  {| p_keywords := [(u "en", student_keywords_en)];
     p_sections := [u "introduction"; u "overview"; u "examples"; u "summary";
                  u "key concepts"; u "practice problems"];
     p_focus_areas := [u "fundamental concepts"; u "practical examples";
                  u "step-by-step explanations"];
     p_content_weights :=
       [(u "clarity", (9 # 10)%Q); (u "examples", (8 # 10)%Q);
        (u "step_by_step", (8 # 10)%Q); (u "basics_focus", (9 # 10)%Q)] |});
 (u "analyst",
  {| p_keywords := [(u "en", analyst_keywords_en)];
     p_sections := [u "executive summary"; u "analysis"; u "findings";
                  u "recommendations"; u "conclusions"];
     p_focus_areas := [u "data interpretation"; u "trend analysis"; u "business insights"];
     p_content_weights :=
       [(u "data_driven", (9 # 10)%Q); (u "insights", (9 # 10)%Q);
        (u "actionable", (8 # 10)%Q); (u "strategic", (8 # 10)%Q)] |})
].

Definition literature_review_keywords_en : dict str Z :=
[
 (u "literature", 10%Z); (u "review", 9%Z); (u "research", 8%Z); (u "study", 8%Z);
 (u "paper", 7%Z); (u "publication", 7%Z); (u "methodology", 8%Z);
 (u "findings", 8%Z); (u "conclusion", 8%Z); (u "citation", 7%Z);
 (u "references", 7%Z); (u "background", 7%Z); (u "existing work", 8%Z);
 (u "previous research", 8%Z); (u "gap", 8%Z); (u "contribution", 7%Z)].

Definition exam_preparation_keywords_en : dict str Z :=
[
 (u "concept", 9%Z); (u "definition", 9%Z); (u "formula", 8%Z); (u "example", 8%Z);
 (u "practice", 8%Z); (u "key points", 9%Z); (u "summary", 8%Z); (u "review", 8%Z);
 (u "important", 8%Z); (u "essential", 8%Z); (u "core", 8%Z); (u "fundamental", 8%Z);
 (u "test", 7%Z); (u "exam", 7%Z); (u "question", 7%Z); (u "answer", 7%Z)].


Definition JOB_PATTERNS : dict str JobProfile :=
[
 (u "literature_review",
  {| j_keywords := [(u "en", literature_review_keywords_en)];
     j_focus := u "comprehensive overview of existing research";
     j_content_weights :=
       [(u "comprehensive", (9 # 10)%Q); (u "analytical", (8 # 10)%Q);
        (u "synthesis", (8 # 10)%Q); (u "critical", (7 # 10)%Q)] |});
 (u "exam_preparation",
  {| j_keywords := [(u "en", exam_preparation_keywords_en)];
     j_focus := u "essential concepts and examples for testing";
     j_content_weights :=
       [(u "essential", (9 # 10)%Q); (u "clear", (8 # 10)%Q);
        (u "memorable", (7 # 10)%Q); (u "practical", (8 # 10)%Q)] |})
].

Definition LANGUAGE_PATTERNS : dict str char_class :=
[
 (u "en",
  [Range 97 122; Range 65 90; Whitespace]);
 (u "es",
  [Range 97 122; Range 65 90; Chr 225; Chr 233; Chr 237; Chr 243; Chr 250; Chr 241;
   Chr 252; Chr 193; Chr 201; Chr 205; Chr 211; Chr 218; Chr 209; Chr 220; Whitespace]);
 (u "fr",
  [Range 97 122; Range 65 90; Chr 224; Chr 226; Chr 228; Chr 233; Chr 232; Chr 234;
   Chr 235; Chr 239; Chr 238; Chr 244; Chr 246; Chr 249; Chr 251; Chr 252; Chr 255;
   Chr 231; Chr 192; Chr 194; Chr 196; Chr 201; Chr 200; Chr 202; Chr 203; Chr 207;
   Chr 206; Chr 212; Chr 214; Chr 217; Chr 219; Chr 220; Chr 376; Chr 199; Whitespace]);
 (u "de",
  [Range 97 122; Range 65 90; Chr 228; Chr 246; Chr 252; Chr 223; Chr 196; Chr 214;
   Chr 220; Whitespace]);
 (u "hi",
  [Range 2304 2431; Whitespace]);
 (u "it",
  [Range 97 122; Range 65 90; Chr 224; Chr 232; Chr 233; Chr 236; Chr 237; Chr 238;
   Chr 242; Chr 243; Chr 249; Chr 192; Chr 200; Chr 201; Chr 204; Chr 205; Chr 206;
   Chr 210; Chr 211; Chr 217; Whitespace]);
 (u "pt",
  [Range 97 122; Range 65 90; Chr 224; Chr 225; Chr 226; Chr 227; Chr 231; Chr 233;
   Chr 234; Chr 237; Chr 243; Chr 244; Chr 245; Chr 250; Chr 192; Chr 193; Chr 194;
   Chr 195; Chr 199; Chr 201; Chr 202; Chr 205; Chr 211; Chr 212; Chr 213; Chr 218;
   Whitespace])
].

Definition SECTION_KEYWORDS : dict str (list str) :=
[
 (u "en",
  [u "introduction"; u "methodology"; u "results"; u "discussion"; u "conclusion"]);
 (u "es",
  [u "introducci" ++ [243] ++ u "n"; u "metodolog" ++ [237] ++ u "a"; u "resultados";
   u "discusi" ++ [243] ++ u "n"; u "conclusi" ++ [243] ++ u "n"]);
 (u "fr",
  [u "introduction"; u "m" ++ [233] ++ u "thodologie"; u "r" ++ [233] ++ u "sultats";
   u "discussion"; u "conclusion"]);
 (u "de",
  [u "einf" ++ [252] ++ u "hrung"; u "methodik"; u "ergebnisse"; u "diskussion";
   u "schlussfolgerung"]);
 (u "hi",
  [[2346; 2352; 2367; 2330; 2351]; [2346; 2342; 2381; 2343; 2340; 2367];
   [2346; 2352; 2367; 2339; 2366; 2350]; [2330; 2352; 2381; 2330; 2366];
   [2344; 2367; 2359; 2381; 2325; 2352; 2381; 2359]])
].

Definition TECHNICAL_TERMS : dict str (list str) :=
[
 (u "en",
  [u "analysis"; u "method"; u "process"; u "system"; u "data"; u "result"]);
 (u "es",
  [u "an" ++ [225] ++ u "lisis"; u "m" ++ [233] ++ u "todo"; u "proceso";
   u "sistema"; u "datos"; u "resultado"]);
 (u "fr",
  [u "analyse"; u "m" ++ [233] ++ u "thode"; u "processus";
   u "syst" ++ [232] ++ u "me"; u "donn" ++ [233] ++ u "es";
   u "r" ++ [233] ++ u "sultat"]);
 (u "de",
  [u "analyse"; u "methode"; u "prozess"; u "system"; u "daten"; u "ergebnis"]);
 (u "hi",
  [[2357; 2367; 2358; 2381; 2354; 2375; 2359; 2339]; [2357; 2367; 2343; 2367];
   [2346; 2381; 2352; 2325; 2381; 2352; 2367; 2351; 2366];
   [2360; 2367; 2360; 2381; 2335; 2350]; [2337; 2375; 2335; 2366];
   [2346; 2352; 2367; 2339; 2366; 2350]])
].

End Tables.

(** ** Exceptions *)

Inductive exn :=
| KeyError (key : string)
| FileNotFoundError (message : str)
| OSError (message : str).

Inductive res (A : Type) :=
| Ok (a : A)
| Raise (e : exn).

Arguments Ok {A} a.
Arguments Raise {A} e.

Definition bind {A B : Type} (m : res A) (f : A -> res B) : res B :=
  match m with
  | Ok a => f a
  | Raise e => Raise e
  end.

Notation "x <- m ;; k" := (bind m (fun x => k))
  (at level 61, m at next level, right associativity).

(** [d[key]] on a field that may be absent. *)
Definition subscript {A : Type} (key : string) (field : option A) : res A :=
  match field with
  | Some v => Ok v
  | None => Raise (KeyError key)
  end.

(** [d.get(key, default)] on a field that may be absent. *)
Definition get {A : Type} (field : option A) (default : A) : A :=
  match field with
  | Some v => v
  | None => default
  end.

Fixpoint mapM {A B : Type} (f : A -> res B) (l : list A) : res (list B) :=
  match l with
  | [] => Ok []
  | x :: l' => y <- f x ;; ys <- mapM f l' ;; Ok (y :: ys)
  end.

(** ** The data of the pipeline *)

(** A text block of the extractor: the dict
    [{'text', 'font_size', 'is_bold', 'font_name', 'bbox', 'language'}].
    The language is read with [.get('language', 'en')]. *)
Module TextBlock.
Record t := {
  text : str;
  font_size : Q;
  is_bold : bool;
  font_name : str;
  bbox : Q * Q * Q * Q;
  language : option str
}.

(** [block['bbox'][1]] *)
Definition bbox_1 (block : t) : Q :=
  match bbox block with (_, y0, _, _) => y0 end.
End TextBlock.

Module Page.
Record t := {
  page_number : nat;
  text_blocks : list TextBlock.t;
  headings : list TextBlock.t;
  body_text : list TextBlock.t;
  languages : list str
}.
End Page.

Module Content.
Record metadata_t := {
  filename : option str;
  total_pages : option nat;
  detected_languages : option (list str)
}.

Record t := {
  pages : list Page.t;
  metadata : option metadata_t
}.
End Content.

(** The dicts of sections, of subsections and of the entries of the result.
    Their keys come from a fixed vocabulary, each with one type of value, so
    a dict is a record of optional fields: [None] is a key that is absent. *)
Module Entry.
Record t := {
  document : option str;
  page : option nat;
  section_title : option str;
  content : option str;
  relevance_score : option Q;
  font_size : option Q;
  is_bold : option bool;
  language : option str;
  refined_text : option str;
  persona_focus : option (list str);
  job_alignment : option str;
  importance_rank : option nat;
  selection_reasoning : option str;
  content_preview : option str
}.
End Entry.

(** [str(n)] for a non-negative integer. *)
Definition str_of_nat (n : nat) : str := u (NilZero.string_of_uint (Nat.to_uint n)).

(** [round(x)] to the nearest integer, ties to even. *)
Definition round_half_even (x : Q) : Z :=
  let f := Qfloor x in
  match Qcompare (x - inject_Z f) (1 # 2) with
  | Lt => f
  | Gt => (f + 1)%Z
  | Eq => if Z.even f then f else (f + 1)%Z
  end.

(** [round(x, 2)] *)
Definition round2 (x : Q) : Q := inject_Z (round_half_even (x * 100)) / 100.

(** ** Collaborators from outside the repository

    What an [AdvancedPersonaIntelligence] object and the modules it imports
    hold at run time. *)

Record Runtime := {
  (** [langdetect.detect]; [None] when the import failed
      ([LANGDETECT_AVAILABLE = False]).  The function answers [None] when
      the call raises. *)
  langdetect : option (str -> option str);
  (** The language of [langid.classify], with the same conventions. *)
  langid : option (str -> option str);
  (** [nltk.tokenize.sent_tokenize], whose models [main.py] installs.  It
      is taken to answer every call: the [LookupError] it raises when its
      models are missing is not part of the embedding, so no property
      below says that a run ends without any exception, only which
      exceptions the code of the repository raises itself. *)
  sent_tokenize : str -> list str;
  (** [self.sentence_model]; [None] when no model could be loaded.  The
      function gives the cosine similarity of the embeddings of its two
      arguments, and [None] when encoding or the similarity raises. *)
  sentence_model : option (str -> str -> option Q);
  (** [time.time() - self.start_time] at the successive readings of the clock. *)
  elapsed : nat -> Q;
  (** The text of a float inside an f-string. *)
  float_str : Q -> str;
  (** [os.path.exists(path)] *)
  path_exists : str -> bool;
  (** [os.listdir(path)]: the names it returns, or the text [str(e)] of the
      [OSError] it raises, as it does on a path that is not a directory
      ([NotADirectoryError]) or that may not be read ([PermissionError]). *)
  listdir : str -> list str + str;
  (** [DocumentExtractor.extract_document_content_multilingual(pdf_path)],
      which reads the file with PyMuPDF. *)
  extract_document_content_multilingual : str -> Content.t
}.

(** ** language_detector.py *)

(** The detection strategies, in the order [detect_language] tries them. *)
Inductive strategy := Langdetect | Langid | PatternBased.

Definition in_class (cls : char_class) (c : N) : bool :=
  existsb (fun item =>
             match item with
             | Range lo hi => (lo <=? c) && (c <=? hi)
             | Chr x => c =? x
             | Whitespace => isspace c
             end)%N cls.

(** [len(re.findall(pattern, s))] for a pattern [[cls]+]: the matches are the
    maximal runs of characters of the class.  [inside] tells whether the
    previous character belongs to a run. *)
Fixpoint count_runs (cls : char_class) (inside : bool) (s : str) : nat :=
  match s with
  | [] => 0
  | c :: s' =>
      if in_class cls c
      then (if inside then 0 else 1) + count_runs cls true s'
      else count_runs cls false s'
  end.

Definition findall_count (cls : char_class) (s : str) : nat := count_runs cls false s.

Definition Qlt_bool (x y : Q) : bool := negb (Qle_bool y x).

(** [max(d, key=d.get)] on a non-empty dict: the first key whose value is
    maximal. *)
Fixpoint max_by_value (best : str * Q) (d : dict str Q) : str :=
  match d with
  | [] => fst best
  | kv :: d' => max_by_value (if Qlt_bool (snd best) (snd kv) then kv else best) d'
  end.

Definition _pattern_based_detection (text : str) : str :=
  let text_lower := lower text in
  let lang_scores :=
    fold_left
      (fun (lang_scores : dict str Q) (entry : str * char_class) =>
         let (lang, pattern) := entry in
         let matches := findall_count pattern text_lower in
         if 0 <? matches
         then dict_set str_eqb lang_scores lang
                (inject_Z (Z.of_nat matches) / inject_Z (Z.of_nat (len text_lower)))
         else lang_scores)
      LANGUAGE_PATTERNS [] in
  match lang_scores with
  | first :: rest => max_by_value first rest
  | [] => u "en"
  end.

(** [not text or len(text.strip()) < 10], for an argument that may be [None]. *)
Definition too_short (n : nat) (text : option str) : bool :=
  match text with
  | None => true
  | Some t => match t with [] => true | _ => len (strip t) <? n end
  end.

Section LanguageDetector.
Variable rt : Runtime.

(** [detect_language], with the list of the strategies it invoked. *)
Definition detect_language_log (text : option str) : list strategy * str :=
  match text with
  | None => ([], u "en")
  | Some t =>
      if too_short 10 text then ([], u "en")
      else
        let first_try :=
          match langdetect rt with
          | Some detect => ([Langdetect], detect t)
          | None => ([], None)
          end in
        match first_try with
        | (log1, Some lang) => (log1, lang)
        | (log1, None) =>
            let second_try :=
              match langid rt with
              | Some classify => ([Langid], classify t)
              | None => ([], None)
              end in
            match second_try with
            | (log2, Some lang) => (log1 ++ log2, lang)
            | (log2, None) =>
                (log1 ++ log2 ++ [PatternBased], _pattern_based_detection t)
            end
        end
  end.

Definition detect_language (text : option str) : str := snd (detect_language_log text).
End LanguageDetector.

(** ** Sorting

    [sorted(l, key=key, reverse=True)] and [l.sort(key=key, reverse=True)].
    Python's sort is stable, also under [reverse=True]: its result is the
    entries in descending order of key, entries of equal key in the order
    they have in [l].  That list is unique; [sorted_desc] builds it by
    insertion from the right, an entry going before the first one whose key
    is not greater than its own. *)

Section Sorting.
Variable A : Type.
Variable key : A -> Q.

Fixpoint insert_desc (x : A) (l : list A) : list A :=
  match l with
  | [] => [x]
  | y :: l' => if Qlt_bool (key x) (key y) then y :: insert_desc x l' else x :: l
  end.

Definition sorted_desc (l : list A) : list A := fold_right insert_desc [] l.
End Sorting.

(** ** relevance_analyzer.py *)

Definition keywords_of (table : dict str (dict str Z)) (language : str) : dict str Z :=
  dict_get_default str_eqb table language (dict_get_default str_eqb table (u "en") []).

Definition get_keywords_for_language (persona job language : str) : dict str Z :=
  let persona_keywords :=
    match dict_get str_eqb PERSONA_KNOWLEDGE persona with
    | Some profile => p_keywords profile
    | None => []
    end in
  let job_keywords :=
    match dict_get str_eqb JOB_PATTERNS job with
    | Some profile => j_keywords profile
    | None => []
    end in
  let persona_lang_keywords := keywords_of persona_keywords language in
  let job_lang_keywords := keywords_of job_keywords language in
  let combined_keywords := [] in
  let combined_keywords := dict_update str_eqb combined_keywords persona_lang_keywords in
  let combined_keywords := dict_update str_eqb combined_keywords job_lang_keywords in
  combined_keywords.

Definition sum_Z (l : list Z) : Z := fold_left Z.add l 0%Z.

(** [sum(keywords.values()) if keywords else 1] *)
Definition max_keyword_score (keywords : dict str Z) : Z :=
  match keywords with
  | [] => 1%Z
  | _ => sum_Z (dict_values keywords)
  end.

(** Component 1: the weights of the keywords found in the text, over the
    weights of the whole table, on a scale of 40.  The divisor is never 0
    on the tables of the configuration (lemma [max_keyword_score_positive]),
    so the division raises no [ZeroDivisionError]. *)
Definition keyword_component (keywords : dict str Z) (text_lower : str) : Q :=
  let keyword_score :=
    fold_left (fun acc kw => if contains (fst kw) text_lower then (acc + snd kw)%Z else acc)
              keywords 0%Z in
  (inject_Z keyword_score / inject_Z (max_keyword_score keywords)) * 40.

Definition _calculate_structure_score (text_lower language : str) : Z :=
  let lang_sections :=
    dict_get_default str_eqb SECTION_KEYWORDS language
                     (dict_get_default str_eqb SECTION_KEYWORDS (u "en") []) in
  let structure_score :=
    fold_left (fun acc section => if contains section text_lower then (acc + 5)%Z else acc)
              lang_sections 0%Z in
  Z.min structure_score 20.

Section RelevanceAnalyzer.
Variable rt : Runtime.

Definition _calculate_quality_score (text language persona : str) : Z :=
  let quality_score := 0%Z in
  let quality_score :=
    if (50 <=? len text) && (len text <=? 500) then (quality_score + 5)%Z
    else if (20 <=? len text) && (len text <=? 1000) then (quality_score + 3)%Z
    else quality_score in
  let sentences := sent_tokenize rt text in
  let quality_score :=
    if (1 <=? List.length sentences) && (List.length sentences <=? 5)
    then (quality_score + 3)%Z else quality_score in
  let quality_score :=
    if str_in persona [u "researcher"; u "developer"; u "analyst"]
    then
      let lang_terms :=
        dict_get_default str_eqb TECHNICAL_TERMS language
                         (dict_get_default str_eqb TECHNICAL_TERMS (u "en") []) in
      if existsb (fun term => contains term (lower text)) lang_terms
      then (quality_score + 2)%Z else quality_score
    else quality_score in
  quality_score.

(** Component 2: [similarity * 30] when a sentence model is loaded and the
    encoding succeeds, nothing otherwise. *)
Definition similarity_component (text persona job : str) (keywords : dict str Z) : Q :=
  match sentence_model rt with
  | Some model =>
      let reference_text :=
        persona ++ u " " ++ job ++ u " " ++ join (u " ") (dict_keys keywords) in
      match model text reference_text with
      | Some similarity => similarity * 30
      | None => 0
      end
  | None => 0
  end.

Definition calculate_semantic_relevance_multilingual
           (text : option str) (persona job : str) : Q :=
  match text with
  | None => 0
  | Some t =>
      if too_short 10 text then 0
      else
        let detected_lang := detect_language rt text in
        let text_lower := lower t in
        let relevance_score := 0 in
        let keywords := get_keywords_for_language persona job detected_lang in
        let relevance_score := relevance_score + keyword_component keywords text_lower in
        let relevance_score := relevance_score + similarity_component t persona job keywords in
        let structure_score := _calculate_structure_score text_lower detected_lang in
        let relevance_score := relevance_score + inject_Z structure_score in
        let quality_score := _calculate_quality_score t detected_lang persona in
        let relevance_score := relevance_score + inject_Z quality_score in
        Qmin 100 (Qmax 0 relevance_score)
  end.

Definition refine_content_for_persona (content persona job : str) : str :=
  let sentences := sent_tokenize rt content in
  let scored_sentences :=
    map (fun sentence =>
           (sentence, calculate_semantic_relevance_multilingual (Some sentence) persona job))
        sentences in
  let scored_sentences := sorted_desc snd scored_sentences in
  let max_sentences := if str_in persona [u "researcher"; u "analyst"] then 4%nat else 3%nat in
  let selected_sentences :=
    map fst (filter (fun s => Qlt_bool 20 (snd s)) (firstn max_sentences scored_sentences)) in
  match selected_sentences with
  | [] => firstn 300 content
  | _ => join (u " ") selected_sentences
  end.
End RelevanceAnalyzer.

(** ** document_extractor.py *)

Definition _find_associated_content
           (heading : TextBlock.t) (body_text : list TextBlock.t)
           (all_pages : list Page.t) (current_page : nat) : str :=
  let heading_bbox_1 := TextBlock.bbox_1 heading in
  let associated_content :=
    map TextBlock.text
        (filter (fun text_block => Qlt_bool heading_bbox_1 (TextBlock.bbox_1 text_block))
                body_text) in
  let associated_content :=
    match associated_content, nth_error all_pages current_page with
    | [], Some next_page => map TextBlock.text (Page.body_text next_page)
    | _, _ => associated_content
    end in
  join (u " ") (firstn 3 associated_content).

(** ** relevance_analyzer.py: the reasoning attached to a selected entry *)

Section SelectionReasoning.
Variable rt : Runtime.

Definition generate_selection_reasoning (section : Entry.t) (persona job : str) : str :=
  let title := get (Entry.section_title section) [] in
  let relevance_score := get (Entry.relevance_score section) 0 in
  (* the default is the integer 0, a stored score is a float *)
  let score_text :=
    match Entry.relevance_score section with
    | Some score => float_str rt score
    | None => u "0"
    end in
  let content := get (Entry.content section) [] in
  let language := get (Entry.language section) (u "en") in
  let keywords := get_keywords_for_language persona job language in
  let reasons : list str := [] in
  let title_lower := lower title in
  let content_lower := lower content in
  let matched_keywords :=
    dict_keys
      (filter (fun kw => contains (fst kw) title_lower || contains (fst kw) content_lower)
              keywords) in
  let reasons :=
    match matched_keywords with
    | [] => reasons
    | _ => reasons ++ [u "Contains relevant keywords: "
                         ++ join (u ", ") (firstn 3 matched_keywords)]
    end in
  let lang_reasons : dict str str :=
    [(u "en", u "Content in English with relevance score " ++ score_text);
     (u "es", u "Contenido en espa" ++ [241%N] ++ u "ol con puntuaci" ++ [243%N]
                ++ u "n de relevancia " ++ score_text);
     (u "fr", u "Contenu en fran" ++ [231%N] ++ u "ais avec score de pertinence "
                ++ score_text);
     (u "de", u "Inhalt auf Deutsch mit Relevanzbewertung " ++ score_text);
     (u "hi", [2361%N; 2367%N; 2306%N; 2342%N; 2368%N] ++ u " "
                ++ [2350%N; 2375%N; 2306%N] ++ u " "
                ++ [2360%N; 2366%N; 2350%N; 2327%N; 2381%N; 2352%N; 2368%N] ++ u " "
                ++ [2332%N; 2367%N; 2360%N; 2325%N; 2368%N] ++ u " "
                ++ [2346%N; 2381%N; 2352%N; 2366%N; 2360%N; 2306%N; 2327%N; 2367%N;
                    2325%N; 2340%N; 2366%N] ++ u " "
                ++ [2360%N; 2381%N; 2325%N; 2379%N; 2352%N] ++ u " " ++ score_text
                ++ u " " ++ [2361%N; 2376%N])] in
  let reasons :=
    reasons ++ [dict_get_default str_eqb lang_reasons language
                  (dict_get_default str_eqb lang_reasons (u "en") [])] in
  let reasons :=
    if 100 <? len content
    then reasons ++ [u "Contains substantial content for detailed analysis"]
    else reasons in
  let reasons :=
    if Qlt_bool 50 relevance_score
    then reasons ++ [u "High relevance score (" ++ score_text
                       ++ u ") indicates strong semantic alignment"]
    else if Qlt_bool 30 relevance_score
    then reasons ++ [u "Moderate relevance score (" ++ score_text
                       ++ u ") shows good content value"]
    else reasons in
  join (u "; ") reasons.
End SelectionReasoning.

(** ** persona_processor.py *)

(** The result of a run: the dict that is written out as JSON.  The two
    fields read from the wall clock, [processing_timestamp] and
    [processing_time_seconds], are left out. *)
Module Result.
Record metadata_t := {
  input_documents : list str;
  persona : str;
  job_to_be_done : str;
  total_sections_found : nat;
  total_subsections_found : nat;
  error : option str;
  algorithm_version : str;
  detected_languages : option (list str);
  multilingual_support : option bool
}.

Record t := {
  metadata : metadata_t;
  extracted_sections : list Entry.t;
  subsection_analysis : list Entry.t
}.
End Result.

(** [s.endswith(suffix)] *)
Definition endswith (suffix s : str) : bool := startswith (rev suffix) (rev s).

(** [os.path.join(a, b)] *)
Definition path_join (a b : str) : str :=
  if startswith (u "/") b then b
  else match a with
       | [] => b
       | _ => if endswith (u "/") a then a ++ b else a ++ u "/" ++ b
       end.

(** [s.update(other)] on sets of strings. *)
Definition set_update (s other : list str) : list str :=
  fold_left (fun acc x => if str_in x acc then acc else acc ++ [x]) other s.

(** [str(e)] *)
Definition exn_str (e : exn) : str :=
  match e with
  | KeyError key => u "'" ++ u key ++ u "'"
  | FileNotFoundError message => message
  | OSError message => message
  end.

Definition _get_persona_focus_areas (persona : str) : list str :=
  match dict_get str_eqb PERSONA_KNOWLEDGE persona with
  | Some profile => p_focus_areas profile
  | None => []
  end.

Definition _get_job_alignment (job : str) : str :=
  match dict_get str_eqb JOB_PATTERNS job with
  | Some profile => j_focus profile
  | None => u "General content"
  end.

(** The key of the two sorts of the ranking, [x['relevance_score']]. *)
Definition relevance_key (x : Entry.t) : res Q :=
  subscript "relevance_score" (Entry.relevance_score x).

(** [sorted(entries, key=lambda x: x['relevance_score'], reverse=True)]: the
    keys of all the entries are computed first, then the entries are sorted
    on them. *)
Definition sorted_by_relevance (entries : list Entry.t) : res (list Entry.t) :=
  keys <- mapM relevance_key entries ;;
  Ok (map snd (sorted_desc fst (combine keys entries))).

Definition within (lo hi n : nat) : bool := (lo <=? n) && (n <=? hi).

Definition rank_and_filter_results_advanced (sections subsections : list Entry.t)
  : res (list Entry.t * list Entry.t) :=
  ranked_sections <- sorted_by_relevance sections ;;
  let filtered_sections :=
    filter (fun section =>
              let content_length := len (get (Entry.content section) []) in
              within 50 2000 content_length)
           ranked_sections in
  ranked_subsections <- sorted_by_relevance subsections ;;
  let filtered_subsections :=
    filter (fun subsection =>
              let refined_length := len (get (Entry.refined_text subsection) []) in
              within 30 1000 refined_length)
           ranked_subsections in
  let max_sections := 10%nat in
  let max_subsections := 15%nat in
  Ok (firstn max_sections filtered_sections, firstn max_subsections filtered_subsections).

Definition _create_empty_result (persona job error_msg : str) : Result.t :=
  {| Result.metadata :=
       {| Result.input_documents := [];
          Result.persona := persona;
          Result.job_to_be_done := job;
          Result.total_sections_found := 0;
          Result.total_subsections_found := 0;
          Result.error := Some error_msg;
          Result.algorithm_version := u "3.0_multilingual";
          Result.detected_languages := None;
          Result.multilingual_support := None |};
     Result.extracted_sections := [];
     Result.subsection_analysis := [] |}.

(** The loops of the processor read the wall clock between two units of
    work.  The state threaded through them is the number of readings made
    so far. *)
Section PersonaProcessor.
Variable rt : Runtime.

Definition check_time_limit (n : nat) : bool * nat :=
  (negb (Qlt_bool 300 (elapsed rt n)), S n).

Section ExtractRelevantSections.
Variable content : Content.t.
Variable persona job : str.

Definition content_filename : str :=
  match Content.metadata content with
  | Some metadata => get (Content.filename metadata) (u "Unknown")
  | None => u "Unknown"
  end.

(** The content associated with a heading, and the score of the heading's
    text followed by it. *)
Definition heading_associated_content
           (page_content : Page.t) (heading : TextBlock.t) : str :=
  _find_associated_content heading (Page.body_text page_content)
                           (Content.pages content) (Page.page_number page_content).

Definition heading_relevance_score (page_content : Page.t) (heading : TextBlock.t) : Q :=
  let associated_content := heading_associated_content page_content heading in
  let combined_text := TextBlock.text heading ++ u " " ++ associated_content in
  calculate_semantic_relevance_multilingual rt (Some combined_text) persona job.

(** The section dict of a heading that is admitted. *)
Definition heading_section (page_content : Page.t) (heading : TextBlock.t) : Entry.t :=
  {| Entry.document := Some content_filename;
     Entry.page := Some (Page.page_number page_content);
     Entry.section_title := Some (TextBlock.text heading);
     Entry.content := Some (heading_associated_content page_content heading);
     Entry.relevance_score := Some (round2 (heading_relevance_score page_content heading));
     Entry.font_size := Some (TextBlock.font_size heading);
     Entry.is_bold := Some (TextBlock.is_bold heading);
     Entry.language := Some (get (TextBlock.language heading) (u "en"));
     Entry.refined_text := None;
     Entry.persona_focus := None;
     Entry.job_alignment := None;
     Entry.importance_rank := None;
     Entry.selection_reasoning := None;
     Entry.content_preview := None |}.

(** [for heading in page_content['headings']] *)
Fixpoint headings_loop (page_content : Page.t) (headings : list TextBlock.t)
         (relevant_sections : list Entry.t) (n : nat) : list Entry.t * nat :=
  match headings with
  | [] => (relevant_sections, n)
  | heading :: rest =>
      let (in_time, n) := check_time_limit n in
      if negb in_time then (relevant_sections, n)
      else
        let relevance_score := heading_relevance_score page_content heading in
        let relevant_sections :=
          if Qlt_bool 15 relevance_score
          then relevant_sections ++ [heading_section page_content heading]
          else relevant_sections in
        headings_loop page_content rest relevant_sections n
  end.

(** The score of a body block: that of its own text. *)
Definition body_relevance_score (text_block : TextBlock.t) : Q :=
  calculate_semantic_relevance_multilingual rt (Some (TextBlock.text text_block)) persona job.

(** The section dict of a body block that is admitted. *)
Definition body_section (page_content : Page.t) (text_block : TextBlock.t) : Entry.t :=
  {| Entry.document := Some content_filename;
     Entry.page := Some (Page.page_number page_content);
     Entry.section_title :=
       Some (u "Content from page " ++ str_of_nat (Page.page_number page_content));
     Entry.content := Some (TextBlock.text text_block);
     Entry.relevance_score := Some (round2 (body_relevance_score text_block));
     Entry.font_size := Some (TextBlock.font_size text_block);
     Entry.is_bold := Some (TextBlock.is_bold text_block);
     Entry.language := Some (get (TextBlock.language text_block) (u "en"));
     Entry.refined_text := None;
     Entry.persona_focus := None;
     Entry.job_alignment := None;
     Entry.importance_rank := None;
     Entry.selection_reasoning := None;
     Entry.content_preview := None |}.

(** [for text_block in page_content['body_text']] *)
Fixpoint body_text_loop (page_content : Page.t) (body_text : list TextBlock.t)
         (relevant_sections : list Entry.t) (n : nat) : list Entry.t * nat :=
  match body_text with
  | [] => (relevant_sections, n)
  | text_block :: rest =>
      let (in_time, n) := check_time_limit n in
      if negb in_time then (relevant_sections, n)
      else
        let relevance_score := body_relevance_score text_block in
        let relevant_sections :=
          if Qlt_bool 20 relevance_score
          then relevant_sections ++ [body_section page_content text_block]
          else relevant_sections in
        body_text_loop page_content rest relevant_sections n
  end.

(** [for page_content in content['pages']] *)
Fixpoint pages_loop (pages : list Page.t) (relevant_sections : list Entry.t) (n : nat)
  : list Entry.t * nat :=
  match pages with
  | [] => (relevant_sections, n)
  | page_content :: rest =>
      let (relevant_sections, n) :=
        headings_loop page_content (Page.headings page_content) relevant_sections n in
      let (relevant_sections, n) :=
        body_text_loop page_content (Page.body_text page_content) relevant_sections n in
      pages_loop rest relevant_sections n
  end.

Definition extract_relevant_sections_multilingual (n : nat) : list Entry.t * nat :=
  pages_loop (Content.pages content) [] n.
End ExtractRelevantSections.

(** [for section in sections] of [create_subsection_analysis_advanced] *)
Fixpoint subsections_loop (persona job : str) (sections subsections : list Entry.t)
         (n : nat) : res (list Entry.t * nat) :=
  match sections with
  | [] => Ok (subsections, n)
  | section :: rest =>
      let (in_time, n) := check_time_limit n in
      if negb in_time then Ok (subsections, n)
      else
        let content := get (Entry.content section) [] in
        if too_short 20 (Some content)
        then subsections_loop persona job rest subsections n
        else
          let refined_text := refine_content_for_persona rt content persona job in
          match refined_text with
          | [] => subsections_loop persona job rest subsections n
          | _ =>
              document <- subscript "document" (Entry.document section) ;;
              page <- subscript "page" (Entry.page section) ;;
              section_title <- subscript "section_title" (Entry.section_title section) ;;
              relevance_score <-
                subscript "relevance_score" (Entry.relevance_score section) ;;
              let subsection :=
                {| Entry.document := Some document;
                   Entry.page := Some page;
                   Entry.section_title := Some section_title;
                   Entry.content := None;
                   Entry.relevance_score := Some relevance_score;
                   Entry.font_size := None;
                   Entry.is_bold := None;
                   Entry.language := None;
                   Entry.refined_text := Some refined_text;
                   Entry.persona_focus := Some (_get_persona_focus_areas persona);
                   Entry.job_alignment := Some (_get_job_alignment job);
                   Entry.importance_rank := None;
                   Entry.selection_reasoning := None;
                   Entry.content_preview := None |} in
              subsections_loop persona job rest (subsections ++ [subsection]) n
          end
  end.

Definition create_subsection_analysis_advanced
           (sections : list Entry.t) (persona job : str) (n : nat)
  : res (list Entry.t * nat) :=
  subsections_loop persona job sections [] n.
End PersonaProcessor.

Section ProcessDocuments.
Variable rt : Runtime.
Variable docs_path persona job : str.

(** [for pdf_file in pdf_files] *)
Fixpoint documents_loop (pdf_files : list str)
         (all_sections all_subsections : list Entry.t) (detected_languages : list str)
         (n : nat) : res (list Entry.t * list Entry.t * list str * nat) :=
  match pdf_files with
  | [] => Ok (all_sections, all_subsections, detected_languages, n)
  | pdf_file :: rest =>
      let (in_time, n) := check_time_limit rt n in
      if negb in_time then Ok (all_sections, all_subsections, detected_languages, n)
      else
        let pdf_path := path_join docs_path pdf_file in
        let content := extract_document_content_multilingual rt pdf_path in
        (* content['metadata']['filename'] = pdf_file *)
        metadata <- subscript "metadata" (Content.metadata content) ;;
        let metadata :=
          {| Content.filename := Some pdf_file;
             Content.total_pages := Content.total_pages metadata;
             Content.detected_languages := Content.detected_languages metadata |} in
        let content :=
          {| Content.pages := Content.pages content;
             Content.metadata := Some metadata |} in
        let detected_languages :=
          set_update detected_languages (get (Content.detected_languages metadata) []) in
        let (sections, n) :=
          extract_relevant_sections_multilingual rt content persona job n in
        let all_sections := all_sections ++ sections in
        created <- create_subsection_analysis_advanced rt sections persona job n ;;
        let (subsections, n) := created in
        let all_subsections := all_subsections ++ subsections in
        documents_loop rest all_sections all_subsections detected_languages n
  end.

(** One entry of [extracted_sections]. *)
Definition extracted_section (i : nat) (section : Entry.t) : res Entry.t :=
  let selection_reasoning := generate_selection_reasoning rt section persona job in
  document <- subscript "document" (Entry.document section) ;;
  page <- subscript "page" (Entry.page section) ;;
  section_title <- subscript "section_title" (Entry.section_title section) ;;
  relevance_score <- subscript "relevance_score" (Entry.relevance_score section) ;;
  let content := get (Entry.content section) [] in
  Ok {| Entry.document := Some document;
        Entry.page := Some page;
        Entry.section_title := Some section_title;
        Entry.content := None;
        Entry.relevance_score := Some relevance_score;
        Entry.font_size := None;
        Entry.is_bold := None;
        Entry.language := Some (get (Entry.language section) (u "en"));
        Entry.refined_text := None;
        Entry.persona_focus := None;
        Entry.job_alignment := None;
        Entry.importance_rank := Some (i + 1)%nat;
        Entry.selection_reasoning := Some selection_reasoning;
        Entry.content_preview :=
          Some (if 200 <? len content then firstn 200 content ++ u "..." else content) |}.

(** One entry of [subsection_analysis]. *)
Definition analysed_subsection (subsection : Entry.t) : res Entry.t :=
  let selection_reasoning := generate_selection_reasoning rt subsection persona job in
  document <- subscript "document" (Entry.document subsection) ;;
  page <- subscript "page" (Entry.page subsection) ;;
  section_title <- subscript "section_title" (Entry.section_title subsection) ;;
  refined_text <- subscript "refined_text" (Entry.refined_text subsection) ;;
  relevance_score <- subscript "relevance_score" (Entry.relevance_score subsection) ;;
  persona_focus <- subscript "persona_focus" (Entry.persona_focus subsection) ;;
  job_alignment <- subscript "job_alignment" (Entry.job_alignment subsection) ;;
  Ok {| Entry.document := Some document;
        Entry.page := Some page;
        Entry.section_title := Some section_title;
        Entry.content := None;
        Entry.relevance_score := Some relevance_score;
        Entry.font_size := None;
        Entry.is_bold := None;
        Entry.language := Some (get (Entry.language subsection) (u "en"));
        Entry.refined_text := Some refined_text;
        Entry.persona_focus := Some persona_focus;
        Entry.job_alignment := Some job_alignment;
        Entry.importance_rank := None;
        Entry.selection_reasoning := Some selection_reasoning;
        Entry.content_preview := None |}.

(** The body of the [try] block. *)
Definition process_documents_body (n : nat) : res Result.t :=
  if negb (path_exists rt docs_path)
  then Raise (FileNotFoundError (u "Input directory not found: " ++ docs_path))
  else
  match listdir rt docs_path with
  | inr message => Raise (OSError message)
  | inl names =>
      let pdf_files := filter (fun f => endswith (u ".pdf") (lower f)) names in
      match pdf_files with
      | [] => Ok (_create_empty_result persona job (u "No PDF files found"))
      | _ =>
          processed <- documents_loop pdf_files [] [] [] n ;;
          let '(all_sections, all_subsections, detected_languages, _) := processed in
          ranked <- rank_and_filter_results_advanced all_sections all_subsections ;;
          let (ranked_sections, ranked_subsections) := ranked in
          extracted_sections <-
            mapM (fun entry => extracted_section (fst entry) (snd entry))
                 (combine (seq 0 (List.length ranked_sections)) ranked_sections) ;;
          subsection_analysis <- mapM analysed_subsection ranked_subsections ;;
          Ok {| Result.metadata :=
                  {| Result.input_documents := pdf_files;
                     Result.persona := persona;
                     Result.job_to_be_done := job;
                     Result.total_sections_found := List.length extracted_sections;
                     Result.total_subsections_found := List.length subsection_analysis;
                     Result.error := None;
                     Result.algorithm_version := u "3.0_multilingual";
                     Result.detected_languages := Some detected_languages;
                     Result.multilingual_support := Some true |};
                Result.extracted_sections := extracted_sections;
                Result.subsection_analysis := subsection_analysis |}
      end
  end.

(** [process_documents_multilingual], entered when the clock has been read
    [n] times: an exception of the body is turned into an empty result
    that carries its message. *)
Definition process_documents_multilingual (n : nat) : Result.t :=
  match process_documents_body n with
  | Ok result => result
  | Raise e => _create_empty_result persona job (exn_str e)
  end.
End ProcessDocuments.

(** ** Notions of the specification and concrete scenarios *)

(** The number of characters of a text that are not whitespace. *)
Definition non_whitespace_count (s : str) : nat :=
  List.length (filter (fun c => negb (isspace c)) s).

(** A keyword table as a Python dict holds it: no key twice, and weights
    that are positive integers. *)
Definition distinct_keys (d : dict str Z) : bool :=
  (fix go (keys : list str) : bool :=
     match keys with
     | [] => true
     | k :: keys' => negb (str_in k keys') && go keys'
     end) (dict_keys d).

Definition positive_weights (d : dict str Z) : bool :=
  forallb (fun kv => (0 <? snd kv)%Z) d.

Definition table_ok (d : dict str Z) : bool := distinct_keys d && positive_weights d.

(** The keyword map of a table for a language, the English map standing in
    for a language the table does not have. *)
Definition language_map (table : dict str (dict str Z)) (language : str) : dict str Z :=
  match dict_get str_eqb table language with
  | Some keyword_map => keyword_map
  | None =>
      match dict_get str_eqb table (u "en") with
      | Some keyword_map => keyword_map
      | None => []
      end
  end.

Definition persona_keyword_map (persona language : str) : dict str Z :=
  match dict_get str_eqb PERSONA_KNOWLEDGE persona with
  | Some profile => language_map (p_keywords profile) language
  | None => []
  end.

Definition job_keyword_map (job language : str) : dict str Z :=
  match dict_get str_eqb JOB_PATTERNS job with
  | Some profile => language_map (j_keywords profile) language
  | None => []
  end.

(** [x] may stand before [y] in a list in descending order of key. *)
Definition descending {A : Type} (key : A -> Q) (x y : A) : Prop := key y <= key x.

(** The entry has the key ['relevance_score']. *)
Definition has_key (x : Entry.t) : bool :=
  match Entry.relevance_score x with
  | Some _ => true
  | None => false
  end.

(** A pair of a sort key and the entry it was computed from. *)
Definition decorated {A : Type} (f : A -> Q) (p : Q * A) : Prop := fst p = f (snd p).

(** The entries of a list whose relevance score is [v]. *)
Definition has_score (v : Q) (x : Entry.t) : bool :=
  match Entry.relevance_score x with
  | Some q => Qeq_bool q v
  | None => false
  end.

(** The score of an entry, when it has one. *)
Definition score_of (x : Entry.t) : Q := get (Entry.relevance_score x) 0.

Definition section_length_ok (section : Entry.t) : bool :=
  within 50 2000 (len (get (Entry.content section) [])).

Definition subsection_length_ok (subsection : Entry.t) : bool :=
  within 30 1000 (len (get (Entry.refined_text subsection) [])).

(** The text of the scenario of the specification. *)
Definition methodology_text : str :=
  u "Methodology: This study used a randomized controlled experiment with statistical analysis of variance.".

Definition no_content : Content.t := {| Content.pages := []; Content.metadata := None |}.

(** A run without [langdetect], without [langid] and without a sentence
    model: detection falls back on the character patterns. *)
Definition fallback_runtime : Runtime :=
  {| langdetect := None;
     langid := None;
     sent_tokenize := fun s => [s];
     sentence_model := None;
     elapsed := fun _ => 0;
     float_str := fun _ => [];
     path_exists := fun _ => false;
     listdir := fun _ => inl [];
     extract_document_content_multilingual := fun _ => no_content |}.

(** A run in which [langdetect] answers English, without a sentence model. *)
Definition english_runtime : Runtime :=
  {| langdetect := Some (fun _ => Some (u "en"));
     langid := None;
     sent_tokenize := fun s => [s];
     sentence_model := None;
     elapsed := fun _ => 0;
     float_str := fun _ => [];
     path_exists := fun _ => false;
     listdir := fun _ => inl [];
     extract_document_content_multilingual := fun _ => no_content |}.

(** The score of one sentence of a content, the number of sentences a
    persona is given at most, and the sentences kept for it: the
    highest-scoring ones among those that score more than 20. *)
Definition sentence_score (rt : Runtime) (persona job sentence : str) : Q :=
  calculate_semantic_relevance_multilingual rt (Some sentence) persona job.

Definition sentence_limit (persona : str) : nat :=
  if str_in persona [u "researcher"; u "analyst"] then 4%nat else 3%nat.

Definition selected_sentences (rt : Runtime) (content persona job : str) : list str :=
  firstn (sentence_limit persona)
         (filter (fun sentence => Qlt_bool 20 (sentence_score rt persona job sentence))
                 (sorted_desc (sentence_score rt persona job) (sent_tokenize rt content))).

(** The sections of a document that the two thresholds admit: page by
    page, the headings whose score is greater than 15, then the body blocks
    whose score is greater than 20. *)
Definition admitted_sections (rt : Runtime) (content : Content.t) (persona job : str)
  : list Entry.t :=
  flat_map
    (fun page_content =>
       map (heading_section rt content persona job page_content)
           (filter (fun heading =>
                      if Qlt_le_dec 15 (heading_relevance_score rt content persona job
                                                                page_content heading)
                      then true else false)
                   (Page.headings page_content))
       ++ map (body_section rt content persona job page_content)
              (filter (fun text_block =>
                         if Qlt_le_dec 20 (body_relevance_score rt persona job text_block)
                         then true else false)
                      (Page.body_text page_content)))
    (Content.pages content).

(** A document of one page: a heading and the body block below it. *)
Definition sample_heading : TextBlock.t :=
  {| TextBlock.text := u "Methodology and results";
     TextBlock.font_size := 14;
     TextBlock.is_bold := true;
     TextBlock.font_name := u "Helvetica-Bold";
     TextBlock.bbox := (72, 100, 300, 116);
     TextBlock.language := Some (u "en") |}.

Definition sample_body : TextBlock.t :=
  {| TextBlock.text := methodology_text;
     TextBlock.font_size := 10;
     TextBlock.is_bold := false;
     TextBlock.font_name := u "Helvetica";
     TextBlock.bbox := (72, 130, 500, 142);
     TextBlock.language := Some (u "en") |}.

Definition sample_page : Page.t :=
  {| Page.page_number := 1;
     Page.text_blocks := [sample_heading; sample_body];
     Page.headings := [sample_heading];
     Page.body_text := [sample_body];
     Page.languages := [u "en"] |}.

Definition sample_content : Content.t :=
  {| Content.pages := [sample_page];
     Content.metadata :=
       Some {| Content.filename := Some (u "paper.pdf");
               Content.total_pages := Some 1%nat;
               Content.detected_languages := Some [u "en"] |} |}.

(** A run on a directory that holds that document, tagged as Spanish by the
    extractor, next to a file that is not a PDF. *)
Definition spanish_content : Content.t :=
  {| Content.pages :=
       [{| Page.page_number := 1;
           Page.text_blocks := [sample_heading; sample_body];
           Page.headings :=
             [{| TextBlock.text := TextBlock.text sample_heading;
                 TextBlock.font_size := TextBlock.font_size sample_heading;
                 TextBlock.is_bold := TextBlock.is_bold sample_heading;
                 TextBlock.font_name := TextBlock.font_name sample_heading;
                 TextBlock.bbox := TextBlock.bbox sample_heading;
                 TextBlock.language := Some (u "es") |}];
           Page.body_text := [sample_body];
           Page.languages := [u "es"; u "en"] |}];
     Content.metadata :=
       Some {| Content.filename := None;
               Content.total_pages := Some 1%nat;
               Content.detected_languages := Some [u "es"; u "en"] |} |}.

Definition sample_runtime : Runtime :=
  {| langdetect := Some (fun _ => Some (u "en"));
     langid := None;
     sent_tokenize := fun s => [s];
     sentence_model := None;
     elapsed := fun _ => 0;
     float_str := fun _ => [];
     path_exists := fun _ => true;
     listdir := fun _ => inl [u "paper.pdf"; u "notes.txt"];
     extract_document_content_multilingual := fun _ => spanish_content |}.

(** Two sections and a subsection that pass the length filters. *)
Definition sample_section (title : string) (score : Q) : Entry.t :=
  {| Entry.document := Some (u "paper.pdf");
     Entry.page := Some 1%nat;
     Entry.section_title := Some (u title);
     Entry.content := Some (List.repeat 97%N 60);
     Entry.relevance_score := Some score;
     Entry.font_size := Some 12;
     Entry.is_bold := Some false;
     Entry.language := Some (u "es");
     Entry.refined_text := None;
     Entry.persona_focus := None;
     Entry.job_alignment := None;
     Entry.importance_rank := None;
     Entry.selection_reasoning := None;
     Entry.content_preview := None |}.

Definition sample_subsection (title : string) (score : Q) : Entry.t :=
  {| Entry.document := Some (u "paper.pdf");
     Entry.page := Some 1%nat;
     Entry.section_title := Some (u title);
     Entry.content := None;
     Entry.relevance_score := Some score;
     Entry.font_size := None;
     Entry.is_bold := None;
     Entry.language := None;
     Entry.refined_text := Some (List.repeat 97%N 40);
     Entry.persona_focus := Some [];
     Entry.job_alignment := Some (u "General content");
     Entry.importance_rank := None;
     Entry.selection_reasoning := None;
     Entry.content_preview := None |}.

(** A run that reaches the extraction after the 300 seconds of the budget. *)
Definition late_runtime : Runtime :=
  {| langdetect := Some (fun _ => Some (u "en"));
     langid := None;
     sent_tokenize := fun s => [s];
     sentence_model := None;
     elapsed := fun _ => 301;
     float_str := fun _ => [];
     path_exists := fun _ => false;
     listdir := fun _ => inl [];
     extract_document_content_multilingual := fun _ => no_content |}.

(** ** language_detector.py: the supported languages *)

Definition get_supported_languages : list str := dict_keys LANGUAGE_PATTERNS.

Definition is_language_supported (language : str) : bool :=
  match dict_get str_eqb LANGUAGE_PATTERNS language with
  | Some _ => true
  | None => false
  end.

(** ** document_extractor.py: heading detection *)

(** The regular expressions of [HEADING_PATTERNS].  [Digit] is the class
    [\d]; a class in brackets and [\s] are [Among]. *)
Inductive regex :=
| Nothing
| Eps
| Lit (c : N)
| Among (cls : char_class)
| Digit
| Seq (r1 r2 : regex)
| Alt (r1 r2 : regex)
| Star (r : regex).

(** [r+], [r{n,}] and a literal word. *)
Definition Plus (r : regex) : regex := Seq r (Star r).

Fixpoint AtLeast (n : nat) (r : regex) : regex :=
  match n with
  | O => Star r
  | S n' => Seq r (AtLeast n' r)
  end.

Fixpoint Word (s : str) : regex :=
  match s with
  | [] => Eps
  | c :: s' => Seq (Lit c) (Word s')
  end.

(** A pattern: what follows the leading [^], and whether it ends with [$]. *)
Record pattern := {
  body : regex;
  to_end : bool
}.

Definition upper_case : char_class := [Range 65 90].
Definition upper_case_or_space : char_class := [Range 65 90; Whitespace].
Definition space : char_class := [Whitespace].

Definition HEADING_PATTERNS : list pattern :=
  [ (* ^\d+\.\s+[A-Z] *)
    {| body := Seq (Plus Digit) (Seq (Lit 46) (Seq (Plus (Among space)) (Among upper_case)));
       to_end := false |};
    (* ^\d+\.\d+\s+[A-Z] *)
    {| body := Seq (Plus Digit)
                   (Seq (Lit 46)
                        (Seq (Plus Digit) (Seq (Plus (Among space)) (Among upper_case))));
       to_end := false |};
    (* ^[A-Z][A-Z\s]{3,}$ *)
    {| body := Seq (Among upper_case) (AtLeast 3 (Among upper_case_or_space));
       to_end := true |};
    (* ^Chapter\s+\d+ *)
    {| body := Seq (Word (u "Chapter")) (Seq (Plus (Among space)) (Plus Digit));
       to_end := false |};
    (* ^Section\s+\d+ *)
    {| body := Seq (Word (u "Section")) (Seq (Plus (Among space)) (Plus Digit));
       to_end := false |} ].

Definition HEADING_KEYWORDS : list str :=
  [u "introduction"; u "overview"; u "summary"; u "conclusion"; u "abstract";
   u "background"; u "methodology"; u "results"; u "discussion"; u "references"].

Fixpoint nullable (r : regex) : bool :=
  match r with
  | Nothing => false
  | Eps => true
  | Lit _ => false
  | Among _ => false
  | Digit => false
  | Seq r1 r2 => nullable r1 && nullable r2
  | Alt r1 r2 => nullable r1 || nullable r2
  | Star _ => true
  end.

Section HeadingDetection.
(** The code points of the Unicode category of decimal digits, which the
    class [\d] matches on a [str]. *)
Variable decimal : N -> bool.

(** What is left of [r] to match once [c] has been read. *)
Fixpoint deriv (c : N) (r : regex) : regex :=
  match r with
  | Nothing => Nothing
  | Eps => Nothing
  | Lit x => if (c =? x)%N then Eps else Nothing
  | Among cls => if in_class cls c then Eps else Nothing
  | Digit => if decimal c then Eps else Nothing
  | Seq r1 r2 =>
      if nullable r1
      then Alt (Seq (deriv c r1) r2) (deriv c r2)
      else Seq (deriv c r1) r2
  | Alt r1 r2 => Alt (deriv c r1) (deriv c r2)
  | Star r1 => Seq (deriv c r1) (Star r1)
  end.

(** Some prefix of [s] matches [r]. *)
Fixpoint matches_prefix (r : regex) (s : str) : bool :=
  nullable r ||
  match s with
  | [] => false
  | c :: s' => matches_prefix (deriv c r) s'
  end.

(** [r] matches [s] up to its end, or up to the newline that ends it: the
    two places where [$] holds. *)
Fixpoint matches_to_end (r : regex) (s : str) : bool :=
  match s with
  | [] => nullable r
  | c :: s' =>
      (nullable r && (c =? 10)%N && match s' with [] => true | _ => false end)
      || matches_to_end (deriv c r) s'
  end.

(** [re.match(pattern, text)] is not [None]. *)
Definition re_match (p : pattern) (text : str) : bool :=
  if to_end p then matches_to_end (body p) text else matches_prefix (body p) text.

Definition _is_heading_advanced (text_block : TextBlock.t) : bool :=
  let text := TextBlock.text text_block in
  let font_size := TextBlock.font_size text_block in
  let is_bold := TextBlock.is_bold text_block in
  if (len text <? 3) || (200 <? len text) then false
  else if Qlt_bool 12 font_size && is_bold then true
  else if existsb (fun pattern => re_match pattern text) HEADING_PATTERNS then true
  else
    let text_lower := lower text in
    if existsb (fun keyword => contains keyword text_lower) HEADING_KEYWORDS then true
    else false.
End HeadingDetection.

(** ** document_extractor.py: extraction

    What PyMuPDF hands over for a document: per page, the blocks of
    [page.get_text("dict")], a text block holding lines of spans and an
    image block holding none. *)
Module Fitz.
Record span := {
  text : str;
  size : Q;
  flags : N;
  font : str;
  bbox : Q * Q * Q * Q
}.

Record line := { spans : list span }.

(** [lines] is [None] for a block without the key ["lines"]. *)
Record block := { lines : option (list line) }.

Record page := { blocks : list block }.
End Fitz.

(** [round(x, 1)] *)
Definition round1 (x : Q) : Q := inject_Z (round_half_even (x * 10)) / 10.

Module DocumentExtractor.
Section Extraction.
Variable decimal : N -> bool.
Variable rt : Runtime.

(** The loop over the spans of a line: the text of the line and the spans
    that are not blank. *)
Definition read_spans (line : Fitz.line) : str * list Fitz.span :=
  fold_left
    (fun (acc : str * list Fitz.span) (span : Fitz.span) =>
       let (line_text, line_spans) := acc in
       let text := strip (Fitz.text span) in
       match text with
       | [] => acc
       | _ => (line_text ++ text ++ u " ", line_spans ++ [span])
       end)
    (Fitz.spans line) ([], []).

(** The body of the loop over the lines of a block, on the page under
    construction and the languages detected in the document so far. *)
Definition read_line (state : Page.t * list str) (line : Fitz.line) : Page.t * list str :=
  let (page_content, detected_languages) := state in
  let (line_text, line_spans) := read_spans line in
  match strip line_text, line_spans with
  | _ :: _, primary_span :: _ =>
      let detected_lang := detect_language rt (Some (strip line_text)) in
      let font_size := Fitz.size primary_span in
      let is_bold := negb (N.land (Fitz.flags primary_span) (2 ^ 4) =? 0)%N in
      let text_block :=
        {| TextBlock.text := strip line_text;
           TextBlock.font_size := round1 font_size;
           TextBlock.is_bold := is_bold;
           TextBlock.font_name := Fitz.font primary_span;
           TextBlock.bbox := Fitz.bbox primary_span;
           TextBlock.language := Some detected_lang |} in
      let heading := _is_heading_advanced decimal text_block in
      ({| Page.page_number := Page.page_number page_content;
          Page.text_blocks := Page.text_blocks page_content ++ [text_block];
          Page.headings :=
            if heading then Page.headings page_content ++ [text_block]
            else Page.headings page_content;
          Page.body_text :=
            if heading then Page.body_text page_content
            else Page.body_text page_content ++ [text_block];
          Page.languages := set_update (Page.languages page_content) [detected_lang] |},
       set_update detected_languages [detected_lang])
  | _, _ => state
  end.

Definition read_block (state : Page.t * list str) (block : Fitz.block)
  : Page.t * list str :=
  match Fitz.lines block with
  | Some lines => fold_left read_line lines state
  | None => state
  end.

(** The body of the loop over the pages, [page_num] counting from 0. *)
Definition read_page (detected_languages : list str) (page_num : nat) (page : Fitz.page)
  : Page.t * list str :=
  let page_content :=
    {| Page.page_number := page_num + 1;
       Page.text_blocks := [];
       Page.headings := [];
       Page.body_text := [];
       Page.languages := [] |} in
  fold_left read_block (Fitz.blocks page) (page_content, detected_languages).

Fixpoint read_pages (page_num : nat) (doc : list Fitz.page)
         (pages : list Page.t) (detected_languages : list str)
  : list Page.t * list str :=
  match doc with
  | [] => (pages, detected_languages)
  | page :: rest =>
      let (page_content, detected_languages) := read_page detected_languages page_num page in
      read_pages (S page_num) rest (pages ++ [page_content]) detected_languages
  end.

(** [extract_document_content_multilingual], on what [fitz.open] gives for
    the path: [None] stands for a document whose reading raises, which the
    [except] clause turns into an empty content. *)
Definition extract_document_content_multilingual (doc : option (list Fitz.page))
  : Content.t :=
  match doc with
  | Some doc =>
      let (pages, detected_languages) := read_pages 0 doc [] [] in
      {| Content.pages := pages;
         Content.metadata :=
           Some {| Content.filename := None;
                   Content.total_pages := Some (List.length doc);
                   Content.detected_languages := Some detected_languages |} |}
  | None =>
      {| Content.pages := [];
         Content.metadata :=
           Some {| Content.filename := None;
                   Content.total_pages := None;
                   Content.detected_languages := None |} |}
  end.
End Extraction.
End DocumentExtractor.

(** ** Further notions used by the properties *)

(** The sum of the four components of the score, before it is clamped. *)
Definition raw_relevance (rt : Runtime) (t persona job : str) : Q :=
  let language := detect_language rt (Some t) in
  let keywords := get_keywords_for_language persona job language in
  0 + keyword_component keywords (lower t)
  + similarity_component rt t persona job keywords
  + inject_Z (_calculate_structure_score (lower t) language)
  + inject_Z (_calculate_quality_score rt t language persona).

(** A letter of the Basic Latin alphabet. *)
Definition is_ascii_letter (c : N) : bool :=
  ((65 <=? c) && (c <=? 90) || (97 <=? c) && (c <=? 122))%N.

(** The number of maximal runs of whitespace in a text. *)
Definition whitespace_runs (s : str) : nat := count_runs [Whitespace] false s.

(** The strings a regular expression denotes. *)
Inductive denotes (decimal : N -> bool) : regex -> str -> Prop :=
| denotes_eps : denotes decimal Eps []
| denotes_lit (c : N) : denotes decimal (Lit c) [c]
| denotes_among (cls : char_class) (c : N) :
    in_class cls c = true -> denotes decimal (Among cls) [c]
| denotes_digit (c : N) : decimal c = true -> denotes decimal Digit [c]
| denotes_seq (r1 r2 : regex) (s1 s2 : str) :
    denotes decimal r1 s1 -> denotes decimal r2 s2 -> denotes decimal (Seq r1 r2) (s1 ++ s2)
| denotes_alt_l (r1 r2 : regex) (s : str) :
    denotes decimal r1 s -> denotes decimal (Alt r1 r2) s
| denotes_alt_r (r1 r2 : regex) (s : str) :
    denotes decimal r2 s -> denotes decimal (Alt r1 r2) s
| denotes_star_nil (r : regex) : denotes decimal (Star r) []
| denotes_star_cons (r : regex) (s1 s2 : str) :
    denotes decimal r s1 -> denotes decimal (Star r) s2 ->
    denotes decimal (Star r) (s1 ++ s2).

(** A section dict with the eight keys the extraction gives it. *)
Definition complete_section (section : Entry.t) : Prop :=
  Entry.document section <> None /\
  Entry.page section <> None /\
  Entry.section_title section <> None /\
  Entry.content section <> None /\
  Entry.relevance_score section <> None /\
  Entry.font_size section <> None /\
  Entry.is_bold section <> None /\
  Entry.language section <> None.

(** The subsection dict built from a section whose four subscripted keys
    are present. *)
Definition subsection_of (rt : Runtime) (persona job : str) (section subsection : Entry.t)
  : Prop :=
  Entry.document subsection = Entry.document section /\
  Entry.page subsection = Entry.page section /\
  Entry.section_title subsection = Entry.section_title section /\
  Entry.relevance_score subsection = Entry.relevance_score section /\
  Entry.refined_text subsection =
    Some (refine_content_for_persona rt (get (Entry.content section) []) persona job) /\
  Entry.persona_focus subsection = Some (_get_persona_focus_areas persona) /\
  Entry.job_alignment subsection = Some (_get_job_alignment job) /\
  Entry.language subsection = None.

(** A run whose clock has passed the 300 seconds at every reading. *)
Definition out_of_time (rt : Runtime) : Prop := forall k, 300 < elapsed rt k.

(** A small document as PyMuPDF reads it: a bold title, a blank line and a
    paragraph on the first page, a paragraph on the second. *)
Definition sample_span (s : string) (size : Q) (flags : N) (y : Q) : Fitz.span :=
  {| Fitz.text := u s;
     Fitz.size := size;
     Fitz.flags := flags;
     Fitz.font := u "Helvetica";
     Fitz.bbox := (72, y, 500, y + 12) |}.

Definition sample_document : list Fitz.page :=
  [ {| Fitz.blocks :=
         [ {| Fitz.lines :=
                Some [ {| Fitz.spans := [sample_span " Research " 16 16 100;
                                         sample_span "Methodology" 16 16 100] |};
                       {| Fitz.spans := [sample_span "   " 10 0 120] |} ] |};
           {| Fitz.lines := None |};
           {| Fitz.lines :=
                Some [ {| Fitz.spans :=
                            [sample_span "This study used a randomized controlled experiment."
                                         10 0 140] |} ] |} ] |};
    {| Fitz.blocks :=
         [ {| Fitz.lines :=
                Some [ {| Fitz.spans := [sample_span "The analysis of variance" 10 0 100;
                                         sample_span "is reported below." 10 0 100] |} ] |} ] |} ].

(** The decimal digits of Basic Latin, for the runs on the samples. *)
Definition ascii_digit (c : N) : bool := ((48 <=? c) && (c <=? 57))%N.

(** A run with a sentence model that finds every pair of texts half alike. *)
Definition model_runtime : Runtime :=
  {| langdetect := Some (fun _ => Some (u "en"));
     langid := None;
     sent_tokenize := fun s => [s];
     sentence_model := Some (fun _ _ => Some (1 # 2));
     elapsed := fun _ => 0;
     float_str := fun _ => [];
     path_exists := fun _ => false;
     listdir := fun _ => inl [];
     extract_document_content_multilingual := fun _ => no_content |}.

(** The character classes of the patterns for the languages in Latin
    script hold the lower-case letters and the whitespace; the class for
    Hindi holds, of those, the whitespace only. *)
Definition latin_class (cls : char_class) : Prop :=
  In (Range 97 122) cls /\ In Whitespace cls.

(** What the extraction guarantees of a text block, [languages] being the
    languages recorded for its page: a text that is not empty and is
    trimmed, and the language detected on that text as its tag. *)
Definition block_invariant (rt : Runtime) (languages : list str) (block : TextBlock.t)
  : Prop :=
  TextBlock.text block <> [] /\
  strip (TextBlock.text block) = TextBlock.text block /\
  TextBlock.language block = Some (detect_language rt (Some (TextBlock.text block))) /\
  In (detect_language rt (Some (TextBlock.text block))) languages.

(** What it guarantees of a page, [known] being the languages recorded
    for the document: the headings and the body blocks are the text blocks
    the heading test accepts and rejects, in their order. *)
Definition page_invariant (decimal : N -> bool) (rt : Runtime) (known : list str)
           (page_content : Page.t) : Prop :=
  Page.headings page_content =
    filter (_is_heading_advanced decimal) (Page.text_blocks page_content) /\
  Page.body_text page_content =
    filter (fun block => negb (_is_heading_advanced decimal block))
           (Page.text_blocks page_content) /\
  Forall (block_invariant rt (Page.languages page_content))
         (Page.text_blocks page_content) /\
  incl (Page.languages page_content) known.

(** A body block: a sentence without any heading keyword. *)
Definition sample_paragraph : TextBlock.t :=
  {| TextBlock.text := u "This study used a randomized controlled experiment.";
     TextBlock.font_size := 10;
     TextBlock.is_bold := false;
     TextBlock.font_name := u "Helvetica";
     TextBlock.bbox := (72, 140, 500, 152);
     TextBlock.language := Some (u "en") |}.

(** A block of 3 to 200 characters that is bold and whose recorded font
    size is above 12.  The recorded size is that of the primary span
    rounded to one decimal: a span of 12.04 points is recorded as 12.0,
    which is not above 12. *)
Definition prominent (block : TextBlock.t) : bool :=
  within 3 200 (len (TextBlock.text block))
  && Qlt_bool 12 (TextBlock.font_size block) && TextBlock.is_bold block.

(** A run on the directory of [sample_runtime] that starts after the time
    limit has passed. *)
Definition expired_runtime : Runtime :=
  {| langdetect := Some (fun _ => Some (u "en"));
     langid := None;
     sent_tokenize := fun s => [s];
     sentence_model := None;
     elapsed := fun _ => 301;
     float_str := fun _ => [];
     path_exists := fun _ => true;
     listdir := fun _ => inl [u "paper.pdf"; u "notes.txt"];
     extract_document_content_multilingual := fun _ => spanish_content |}.

(** The four keys of a section that the subsection analysis subscripts. *)
Definition subscriptable (section : Entry.t) : Prop :=
  Entry.document section <> None /\
  Entry.page section <> None /\
  Entry.section_title section <> None /\
  Entry.relevance_score section <> None.

(** The files of a directory listing that the processor reads. *)
Definition pdf_files_of (names : list str) : list str :=
  filter (fun f => endswith (u ".pdf") (lower f)) names.

(** The seven keys of a subsection that the output subscripts. *)
Definition analysable (subsection : Entry.t) : Prop :=
  Entry.document subsection <> None /\
  Entry.page subsection <> None /\
  Entry.section_title subsection <> None /\
  Entry.refined_text subsection <> None /\
  Entry.relevance_score subsection <> None /\
  Entry.persona_focus subsection <> None /\
  Entry.job_alignment subsection <> None.

(** A run on the directory of [sample_runtime] whose files are read by the
    extractor of the repository, each as [sample_document]. *)
Definition reading_runtime : Runtime :=
  {| langdetect := Some (fun _ => Some (u "en"));
     langid := None;
     sent_tokenize := fun s => [s];
     sentence_model := None;
     elapsed := fun _ => 0;
     float_str := fun _ => [];
     path_exists := fun _ => true;
     listdir := fun _ => inl [u "paper.pdf"; u "notes.txt"];
     extract_document_content_multilingual :=
       fun _ =>
         DocumentExtractor.extract_document_content_multilingual
           ascii_digit english_runtime (Some sample_document) |}.

(** A regular expression that no string matches, as far as its shape
    tells: what is left of a pattern once a character it cannot begin
    with has been read. *)
Fixpoint dead (r : regex) : bool :=
  match r with
  | Nothing => true
  | Seq r1 r2 => dead r1 || dead r2
  | Alt r1 r2 => dead r1 && dead r2
  | _ => false
  end.

(** A line in ordinary type: 10 points, not bold. *)
Definition plain_block (s : string) : TextBlock.t :=
  {| TextBlock.text := u s;
     TextBlock.font_size := 10;
     TextBlock.is_bold := false;
     TextBlock.font_name := u "Helvetica";
     TextBlock.bbox := (72, 140, 500, 152);
     TextBlock.language := Some (u "en") |}.

(** The body blocks of a page that lie below a heading. *)
Definition blocks_below (heading : TextBlock.t) (page_content : Page.t)
  : list TextBlock.t :=
  filter (fun text_block =>
            Qlt_bool (TextBlock.bbox_1 heading) (TextBlock.bbox_1 text_block))
         (Page.body_text page_content).

(** The parts of the reasoning of [generate_selection_reasoning]: the score
    as the f-strings print it, the language the section is taken to be in,
    the keywords found in its title or content, and the dict
    [lang_reasons] of the sentences that state the language. *)
Definition reasoning_score_text (rt : Runtime) (section : Entry.t) : str :=
  match Entry.relevance_score section with
  | Some score => float_str rt score
  | None => u "0"
  end.

Definition reasoning_language (section : Entry.t) : str :=
  get (Entry.language section) (u "en").

Definition matched_keywords (section : Entry.t) (persona job : str) : list str :=
  dict_keys
    (filter (fun kw =>
               contains (fst kw) (lower (get (Entry.section_title section) []))
               || contains (fst kw) (lower (get (Entry.content section) [])))
            (get_keywords_for_language persona job (reasoning_language section))).

Definition lang_reasons (score_text : str) : dict str str :=
  [(u "en", u "Content in English with relevance score " ++ score_text);
   (u "es", u "Contenido en espa" ++ [241%N] ++ u "ol con puntuaci" ++ [243%N]
              ++ u "n de relevancia " ++ score_text);
   (u "fr", u "Contenu en fran" ++ [231%N] ++ u "ais avec score de pertinence "
              ++ score_text);
   (u "de", u "Inhalt auf Deutsch mit Relevanzbewertung " ++ score_text);
   (u "hi", [2361%N; 2367%N; 2306%N; 2342%N; 2368%N] ++ u " "
              ++ [2350%N; 2375%N; 2306%N] ++ u " "
              ++ [2360%N; 2366%N; 2350%N; 2327%N; 2381%N; 2352%N; 2368%N] ++ u " "
              ++ [2332%N; 2367%N; 2360%N; 2325%N; 2368%N] ++ u " "
              ++ [2346%N; 2381%N; 2352%N; 2366%N; 2360%N; 2306%N; 2327%N; 2367%N;
                  2325%N; 2340%N; 2366%N] ++ u " "
              ++ [2360%N; 2381%N; 2325%N; 2379%N; 2352%N] ++ u " " ++ score_text
              ++ u " " ++ [2361%N; 2376%N])].

(** [lang_reasons.get(language, lang_reasons['en'])] *)
Definition language_reason (rt : Runtime) (section : Entry.t) : str :=
  let score_text := reasoning_score_text rt section in
  dict_get_default str_eqb (lang_reasons score_text) (reasoning_language section)
                   (dict_get_default str_eqb (lang_reasons score_text) (u "en") []).

(** * Properties *)

(** ** Strings and dicts *)

Lemma str_eqb_eq (a b : str) : str_eqb a b = true <-> a = b.
Proof.
  revert b; induction a as [|x a IH]; intros [|y b]; simpl; split; intro H;
    try reflexivity; try discriminate.
  - apply andb_true_iff in H as [Hxy Hab].
    apply N.eqb_eq in Hxy. apply IH in Hab. congruence.
  - injection H as -> ->. rewrite N.eqb_refl. simpl. now apply IH.
Qed.

Lemma str_eqb_refl (a : str) : str_eqb a a = true.
Proof. now apply str_eqb_eq. Qed.

Lemma str_in_In (x : str) (xs : list str) : str_in x xs = true <-> In x xs.
Proof.
  unfold str_in. rewrite existsb_exists. split.
  - intros (y & Hy & Heq). apply str_eqb_eq in Heq. now subst.
  - intros H. exists x. split; [assumption | apply str_eqb_refl].
Qed.

Section DictFacts.
Variable V : Type.

Lemma dict_get_set (d : dict str V) (k k' : str) (v : V) :
  dict_get str_eqb (dict_set str_eqb d k v) k' =
  if str_eqb k' k then Some v else dict_get str_eqb d k'.
Proof.
  induction d as [|[k0 v0] d IH]; simpl.
  - reflexivity.
  - destruct (str_eqb k k0) eqn:Hk; simpl.
    + apply str_eqb_eq in Hk. subst k0.
      destruct (str_eqb k' k); reflexivity.
    + destruct (str_eqb k' k0) eqn:Hk'.
      * apply str_eqb_eq in Hk'. subst k0.
        destruct (str_eqb k' k) eqn:E; [|reflexivity].
        apply str_eqb_eq in E. subst k'. rewrite str_eqb_refl in Hk. discriminate.
      * exact IH.
Qed.

Lemma dict_get_None (d : dict str V) (k : str) :
  ~ In k (dict_keys d) -> dict_get str_eqb d k = None.
Proof.
  induction d as [|[k0 v0] d IH]; simpl; intros H.
  - reflexivity.
  - destruct (str_eqb k k0) eqn:E.
    + apply str_eqb_eq in E. subst. exfalso. apply H. now left.
    + apply IH. intros Hin. apply H. now right.
Qed.

(** After [d.update(other)], a key of [other] has the value [other] gives
    it, another key keeps the value it has in [d]. *)
Lemma dict_get_update (other d : dict str V) (k : str) :
  NoDup (dict_keys other) ->
  dict_get str_eqb (dict_update str_eqb d other) k =
  match dict_get str_eqb other k with
  | Some v => Some v
  | None => dict_get str_eqb d k
  end.
Proof.
  revert d. induction other as [|[k1 v1] other IH]; intros d Hnd; simpl.
  - reflexivity.
  - inversion Hnd as [|? ? Hnotin Hnd']; subst.
    unfold dict_update in IH |- *. simpl. rewrite (IH _ Hnd').
    rewrite dict_get_set.
    destruct (str_eqb k k1) eqn:E.
    + apply str_eqb_eq in E. subst k1.
      fold (dict_keys other) in Hnotin.
      now rewrite dict_get_None by assumption.
    + reflexivity.
Qed.

Lemma dict_get_keys (d : dict str V) (k : str) :
  dict_get str_eqb d k <> None <-> In k (dict_keys d).
Proof.
  induction d as [|[k0 v0] d IH]; simpl.
  - split; [congruence | contradiction].
  - destruct (str_eqb k k0) eqn:E.
    + apply str_eqb_eq in E. subst. split; [now left | discriminate].
    + rewrite IH. split; [now right|].
      intros [H | H]; [|exact H]. subst. rewrite str_eqb_refl in E. discriminate.
Qed.

Lemma dict_get_In (d : dict str V) (k : str) (v : V) :
  dict_get str_eqb d k = Some v -> In v (dict_values d).
Proof.
  induction d as [|[k0 v0] d IH]; simpl; intros H.
  - discriminate.
  - destruct (str_eqb k k0).
    + injection H as ->. now left.
    + right. now apply IH.
Qed.
End DictFacts.

(** ** The configuration tables *)

Lemma distinct_keys_NoDup (d : dict str Z) :
  distinct_keys d = true -> NoDup (dict_keys d).
Proof.
  unfold distinct_keys. induction (dict_keys d) as [|k keys IH]; intros H.
  - constructor.
  - apply andb_true_iff in H as [Hk Hrest]. constructor.
    + intros Hin. apply str_in_In in Hin. rewrite Hin in Hk. discriminate.
    + now apply IH.
Qed.

Lemma persona_tables_ok :
  Forall (fun profile => Forall (fun t => table_ok t = true) (dict_values (p_keywords profile)))
         (dict_values PERSONA_KNOWLEDGE).
Proof. repeat constructor. Qed.

Lemma job_tables_ok :
  Forall (fun profile => Forall (fun t => table_ok t = true) (dict_values (j_keywords profile)))
         (dict_values JOB_PATTERNS).
Proof. repeat constructor. Qed.

Lemma language_map_ok (table : dict str (dict str Z)) (language : str) :
  Forall (fun t => table_ok t = true) (dict_values table) ->
  table_ok (language_map table language) = true.
Proof.
  intros Hall. rewrite Forall_forall in Hall. unfold language_map.
  destruct (dict_get str_eqb table language) eqn:E1.
  - apply Hall. eapply dict_get_In; eassumption.
  - destruct (dict_get str_eqb table (u "en")) eqn:E2.
    + apply Hall. eapply dict_get_In; eassumption.
    + reflexivity.
Qed.

Lemma persona_keyword_map_ok (persona language : str) :
  table_ok (persona_keyword_map persona language) = true.
Proof.
  unfold persona_keyword_map.
  destruct (dict_get str_eqb PERSONA_KNOWLEDGE persona) eqn:E; [|reflexivity].
  apply language_map_ok.
  pose proof persona_tables_ok as H. rewrite Forall_forall in H.
  apply H. eapply dict_get_In; eassumption.
Qed.

Lemma job_keyword_map_ok (job language : str) :
  table_ok (job_keyword_map job language) = true.
Proof.
  unfold job_keyword_map.
  destruct (dict_get str_eqb JOB_PATTERNS job) eqn:E; [|reflexivity].
  apply language_map_ok.
  pose proof job_tables_ok as H. rewrite Forall_forall in H.
  apply H. eapply dict_get_In; eassumption.
Qed.

(** The code reaches the maps with chained [.get] calls; they are the maps
    of the specification. *)
Lemma keywords_of_language_map (table : dict str (dict str Z)) (language : str) :
  keywords_of table language = language_map table language.
Proof.
  unfold keywords_of, language_map, dict_get_default.
  destruct (dict_get str_eqb table language); reflexivity.
Qed.

Lemma get_keywords_for_language_eq (persona job language : str) :
  get_keywords_for_language persona job language =
  dict_update str_eqb
    (dict_update str_eqb [] (persona_keyword_map persona language))
    (job_keyword_map job language).
Proof.
  unfold get_keywords_for_language, persona_keyword_map, job_keyword_map.
  rewrite !keywords_of_language_map.
  destruct (dict_get str_eqb PERSONA_KNOWLEDGE persona);
    destruct (dict_get str_eqb JOB_PATTERNS job); reflexivity.
Qed.

Lemma dict_set_values (V : Type) (P : V -> Prop) (d : dict str V) (k : str) (v : V) :
  Forall P (dict_values d) -> P v -> Forall P (dict_values (dict_set str_eqb d k v)).
Proof.
  intros Hd Hv. induction d as [|[k0 v0] d IH]; simpl.
  - now repeat constructor.
  - inversion Hd as [|? ? Hv0 Hd']; subst.
    destruct (str_eqb k k0); simpl; constructor; auto.
Qed.

Lemma dict_update_values (V : Type) (P : V -> Prop) (other d : dict str V) :
  Forall P (dict_values d) -> Forall P (dict_values other) ->
  Forall P (dict_values (dict_update str_eqb d other)).
Proof.
  revert d. induction other as [|[k v] other IH]; intros d Hd Ho; [exact Hd|].
  inversion Ho as [|? ? Hv Ho']; subst.
  unfold dict_update in *. simpl. apply IH; [now apply dict_set_values | exact Ho'].
Qed.

Lemma positive_weights_values (d : dict str Z) :
  positive_weights d = true -> Forall (fun w => (0 < w)%Z) (dict_values d).
Proof.
  unfold positive_weights. induction d as [|[k w] d IH]; simpl; intros H; [constructor|].
  apply andb_true_iff in H as [Hw Hd]. constructor; [now apply Z.ltb_lt | now apply IH].
Qed.

Lemma sum_Z_positive (l : list Z) :
  l <> [] -> Forall (fun w => (0 < w)%Z) l -> (0 < sum_Z l)%Z.
Proof.
  unfold sum_Z. intros Hne Hall.
  assert (H : forall a, (a <= fold_left Z.add l a)%Z /\ (l <> [] -> a < fold_left Z.add l a)%Z).
  { clear Hne. induction Hall as [|w l Hw Hl IH]; intros a; simpl.
    - split; [lia | congruence].
    - destruct (IH (a + w)%Z) as [Hle _]. split; [lia | intros _; lia]. }
  now apply H.
Qed.

(** The divisor of the keyword component is positive for every persona,
    job and language. *)
Lemma max_keyword_score_positive (persona job language : str) :
  (0 < max_keyword_score (get_keywords_for_language persona job language))%Z.
Proof.
  assert (Hall : Forall (fun w => (0 < w)%Z)
                        (dict_values (get_keywords_for_language persona job language))).
  { rewrite get_keywords_for_language_eq.
    pose proof (persona_keyword_map_ok persona language) as Hp.
    pose proof (job_keyword_map_ok job language) as Hj.
    apply andb_true_iff in Hp as [_ Hp]. apply andb_true_iff in Hj as [_ Hj].
    apply dict_update_values; [apply dict_update_values; [constructor|]|];
      now apply positive_weights_values. }
  unfold max_keyword_score.
  destruct (get_keywords_for_language persona job language) as [|kw keywords] eqn:E;
    [lia|].
  apply sum_Z_positive; [discriminate | exact Hall].
Qed.

(** C8. The merged keyword table holds, for every key, the weight the job's
    keyword map for the language gives it, and for a key the job's map does
    not have, the weight of the persona's map for the language; each map is
    the English one when the profile has none for the language, and is empty
    for an unknown persona or job.  Its keys are those of the two maps. *)
Theorem merged_keyword_table (persona job language k : str) :
  dict_get str_eqb (get_keywords_for_language persona job language) k =
  match dict_get str_eqb (job_keyword_map job language) k with
  | Some weight => Some weight
  | None => dict_get str_eqb (persona_keyword_map persona language) k
  end /\
  (In k (dict_keys (get_keywords_for_language persona job language)) <->
   In k (dict_keys (persona_keyword_map persona language)) \/
   In k (dict_keys (job_keyword_map job language))).
Proof.
  assert (Hget :
    dict_get str_eqb (get_keywords_for_language persona job language) k =
    match dict_get str_eqb (job_keyword_map job language) k with
    | Some weight => Some weight
    | None => dict_get str_eqb (persona_keyword_map persona language) k
    end).
  { rewrite get_keywords_for_language_eq.
    pose proof (persona_keyword_map_ok persona language) as Hp.
    pose proof (job_keyword_map_ok job language) as Hj.
    apply andb_true_iff in Hp as [Hp _]. apply andb_true_iff in Hj as [Hj _].
    rewrite dict_get_update by now apply distinct_keys_NoDup.
    destruct (dict_get str_eqb (job_keyword_map job language) k); [reflexivity|].
    rewrite dict_get_update by now apply distinct_keys_NoDup.
    simpl. now destruct (dict_get str_eqb (persona_keyword_map persona language) k). }
  split; [exact Hget|].
  rewrite <- !dict_get_keys, Hget.
  destruct (dict_get str_eqb (job_keyword_map job language) k);
    destruct (dict_get str_eqb (persona_keyword_map persona language) k);
    split; try tauto; try congruence; intros _; (now left) || (now right).
Qed.

(** ** The floor for short texts *)

Lemma too_short_spec (n : nat) (text : option str) :
  too_short n text = true <->
  text = None \/ text = Some [] \/ exists t, text = Some t /\ (len (strip t) < n)%nat.
Proof.
  destruct text as [[|c t]|]; simpl.
  - split; auto.
  - rewrite Nat.ltb_lt. split.
    + intros H. right. right. eexists. split; [reflexivity | exact H].
    + intros [H | [H | (t' & H & Hlt)]]; try discriminate.
      injection H as <-. exact Hlt.
  - split; auto.
Qed.

(** C7, as the code has it.  For every text that is absent, empty or whose
    length once leading and trailing whitespace is removed is less than 10,
    the language detector answers "en" and invokes no detection strategy. *)
Theorem detect_language_short_text (rt : Runtime) (text : option str) :
  text = None \/ text = Some [] \/ (exists t, text = Some t /\ (len (strip t) < 10)%nat) ->
  detect_language_log rt text = ([], u "en").
Proof.
  intros H. apply (too_short_spec 10) in H.
  unfold detect_language_log. destruct text as [t|]; [|reflexivity].
  now rewrite H.
Qed.

Lemma detect_language_short_text_witness :
  (len (strip (u "  a b c d  ")) < 10)%nat /\
  detect_language_log english_runtime (Some (u "  a b c d  ")) = ([], u "en").
Proof.
  assert (H : (len (strip (u "  a b c d  ")) < 10)%nat) by (vm_compute; lia).
  split; [exact H|].
  apply detect_language_short_text. right. right.
  exists (u "  a b c d  "). split; [reflexivity | exact H].
Defined.

(** C7, as it is worded.  The text "a b c d e f" has 6 characters that are
    not whitespace, fewer than 10, but its trimmed length is 11: the
    detector runs a strategy on it, and when the character patterns are the
    one that answers, the answer is "hi", not "en". *)
Lemma detect_language_few_non_whitespace_counterexample :
  (non_whitespace_count (u "a b c d e f") < 10)%nat /\
  detect_language_log fallback_runtime (Some (u "a b c d e f")) = ([PatternBased], u "hi") /\
  detect_language_log fallback_runtime (Some (u "a b c d e f")) <> ([], u "en").
Proof.
  split; [vm_compute; lia|]. split; [vm_compute; reflexivity|].
  vm_compute. discriminate.
Qed.

(** ** The relevance score *)

(** C2. Whatever the persona and the job, a text that is absent, empty or
    whose trimmed length is less than 10 has the score 0. *)
Theorem short_text_scores_zero (rt : Runtime) (text : option str) (persona job : str) :
  text = None \/ text = Some [] \/ (exists t, text = Some t /\ (len (strip t) < 10)%nat) ->
  calculate_semantic_relevance_multilingual rt text persona job = 0.
Proof.
  intros H. apply (too_short_spec 10) in H.
  unfold calculate_semantic_relevance_multilingual.
  destruct text as [t|]; [|reflexivity]. now rewrite H.
Qed.

Lemma short_text_scores_zero_witness :
  (len (strip (u "  results ")) < 10)%nat /\
  calculate_semantic_relevance_multilingual
    english_runtime (Some (u "  results ")) (u "researcher") (u "literature_review") = 0.
Proof.
  assert (H : (len (strip (u "  results ")) < 10)%nat) by (vm_compute; lia).
  split; [exact H|].
  apply short_text_scores_zero. right. right.
  exists (u "  results "). split; [reflexivity | exact H].
Defined.

Lemma clamp_bounds (x : Q) : 0 <= Qmin 100 (Qmax 0 x) <= 100.
Proof.
  split.
  - apply Q.min_glb; [discriminate | apply Q.le_max_l].
  - apply Q.le_min_l.
Qed.

(** C1. For every text, persona and job the score lies between 0 and 100:
    it is 0 for a short text, and otherwise the sum of the keyword,
    semantic, structural and quality components, brought back into
    [0, 100]. *)
Theorem relevance_score_bounds (rt : Runtime) (text : option str) (persona job : str) :
  0 <= calculate_semantic_relevance_multilingual rt text persona job <= 100 /\
  calculate_semantic_relevance_multilingual rt text persona job =
  match text with
  | None => 0
  | Some t =>
      if too_short 10 text then 0
      else
        let language := detect_language rt text in
        let keywords := get_keywords_for_language persona job language in
        Qmin 100
          (Qmax 0
             (0 + keyword_component keywords (lower t)
              + similarity_component rt t persona job keywords
              + inject_Z (_calculate_structure_score (lower t) language)
              + inject_Z (_calculate_quality_score rt t language persona)))
  end.
Proof.
  split; [|reflexivity].
  unfold calculate_semantic_relevance_multilingual.
  destruct text as [t|]; [|split; discriminate].
  destruct (too_short 10 (Some t)); [split; discriminate|].
  apply clamp_bounds.
Qed.

(** ** The scenario of the methodology sentence *)

Lemma methodology_quality (rt : Runtime) :
  (7 <= _calculate_quality_score rt methodology_text (u "en") (u "researcher"))%Z.
Proof.
  unfold _calculate_quality_score.
  replace (len methodology_text) with 102%nat by (vm_compute; reflexivity).
  replace (str_in (u "researcher") [u "researcher"; u "developer"; u "analyst"])
    with true by (vm_compute; reflexivity).
  replace (existsb (fun term => contains term (lower methodology_text))
                   (dict_get_default str_eqb TECHNICAL_TERMS (u "en")
                      (dict_get_default str_eqb TECHNICAL_TERMS (u "en") [])))
    with true by (vm_compute; reflexivity).
  destruct ((1 <=? List.length (sent_tokenize rt methodology_text))
            && (List.length (sent_tokenize rt methodology_text) <=? 5)); simpl; lia.
Qed.

(** C9, as the code has it.  For the methodology sentence, the persona
    "researcher" and the job "literature_review", when the detector reports
    "en" for the sentence and the embedding component contributes 0: the
    keyword component is positive, the structural component is 5, for the
    one token "methodology", and the score is greater than 15. *)
Theorem methodology_scenario (rt : Runtime) :
  detect_language rt (Some methodology_text) = u "en" ->
  similarity_component rt methodology_text (u "researcher") (u "literature_review")
    (get_keywords_for_language (u "researcher") (u "literature_review") (u "en")) == 0 ->
  0 < keyword_component
        (get_keywords_for_language (u "researcher") (u "literature_review") (u "en"))
        (lower methodology_text) /\
  contains (u "methodology") (lower methodology_text) = true /\
  _calculate_structure_score (lower methodology_text) (u "en") = 5%Z /\
  15 < calculate_semantic_relevance_multilingual
         rt (Some methodology_text) (u "researcher") (u "literature_review").
Proof.
  intros Hlang Hsim.
  assert (Hkw : keyword_component
                  (get_keywords_for_language (u "researcher") (u "literature_review") (u "en"))
                  (lower methodology_text) == 1320 # 270) by (vm_compute; reflexivity).
  assert (Hst : _calculate_structure_score (lower methodology_text) (u "en") = 5%Z)
    by (vm_compute; reflexivity).
  split; [rewrite Hkw; reflexivity|].
  split; [vm_compute; reflexivity|].
  split; [exact Hst|].
  unfold calculate_semantic_relevance_multilingual.
  replace (too_short 10 (Some methodology_text)) with false by (vm_compute; reflexivity).
  rewrite Hlang, Hst.
  apply Q.min_glb_lt; [reflexivity|].
  apply Q.max_lt_iff. right.
  rewrite Hkw, Hsim.
  pose proof (methodology_quality rt) as Hq.
  apply (Qlt_le_trans _ (0 + (1320 # 270) + 0 + inject_Z 5 + inject_Z 7)); [reflexivity|].
  apply Qplus_le_r. rewrite <- Zle_Qle. exact Hq.
Qed.

Lemma methodology_scenario_witness :
  detect_language english_runtime (Some methodology_text) = u "en" /\
  15 < calculate_semantic_relevance_multilingual
         english_runtime (Some methodology_text) (u "researcher") (u "literature_review").
Proof.
  assert (H : detect_language english_runtime (Some methodology_text) = u "en")
    by (vm_compute; reflexivity).
  split; [exact H|].
  apply (methodology_scenario english_runtime H). reflexivity.
Defined.

(** C9, as it is worded.  In a run without [langdetect], [langid] and
    sentence model the embedding component is 0, the character patterns
    report "hi" for the sentence, the structural component is 0 and the
    score, 3480/270, is below 15. *)
Lemma methodology_scenario_fallback_counterexample :
  similarity_component fallback_runtime methodology_text (u "researcher")
    (u "literature_review")
    (get_keywords_for_language (u "researcher") (u "literature_review") (u "hi")) = 0 /\
  detect_language fallback_runtime (Some methodology_text) = u "hi" /\
  _calculate_structure_score
    (lower methodology_text) (detect_language fallback_runtime (Some methodology_text)) = 0%Z /\
  calculate_semantic_relevance_multilingual
    fallback_runtime (Some methodology_text) (u "researcher") (u "literature_review") < 15.
Proof.
  repeat split; vm_compute; reflexivity.
Qed.

(** ** The stable descending sort *)

Lemma Qlt_bool_iff (x y : Q) : Qlt_bool x y = true <-> x < y.
Proof.
  unfold Qlt_bool. rewrite negb_true_iff. split.
  - intros H. apply Qnot_le_lt. intros Hle. apply Qle_bool_iff in Hle. congruence.
  - intros H. destruct (Qle_bool y x) eqn:E; [|reflexivity].
    apply Qle_bool_iff in E. exfalso. exact (Qlt_not_le _ _ H E).
Qed.

Lemma Qlt_bool_false_iff (x y : Q) : Qlt_bool x y = false <-> y <= x.
Proof.
  unfold Qlt_bool. rewrite negb_false_iff. apply Qle_bool_iff.
Qed.

Lemma firstn_incl (A : Type) (n : nat) (l : list A) (x : A) :
  In x (firstn n l) -> In x l.
Proof.
  revert n. induction l as [|y l IH]; intros [|n]; simpl; try tauto.
  intros [H | H]; [now left | right; eapply IH; eassumption].
Qed.

Section SortingFacts.
Variable A : Type.
Variable key : A -> Q.

Lemma insert_desc_perm (x : A) (l : list A) :
  Permutation (insert_desc key x l) (x :: l).
Proof.
  induction l as [|y l IH]; simpl.
  - apply Permutation_refl.
  - destruct (Qlt_bool (key x) (key y)).
    + apply perm_trans with (y :: x :: l); [now apply perm_skip | apply perm_swap].
    + apply Permutation_refl.
Qed.

Lemma sorted_desc_perm (l : list A) : Permutation (sorted_desc key l) l.
Proof.
  induction l as [|x l IH]; simpl.
  - apply perm_nil.
  - apply perm_trans with (x :: sorted_desc key l);
      [apply insert_desc_perm | now apply perm_skip].
Qed.

Lemma insert_desc_sorted (x : A) (l : list A) :
  StronglySorted (descending key) l -> StronglySorted (descending key) (insert_desc key x l).
Proof.
  induction 1 as [|y l Hl IH Hy]; simpl.
  - repeat constructor.
  - destruct (Qlt_bool (key x) (key y)) eqn:E.
    + constructor; [exact IH|].
      apply Forall_forall. intros z Hz.
      apply (Permutation_in _ (insert_desc_perm x l)) in Hz.
      destruct Hz as [<- | Hz].
      * apply Qlt_bool_iff in E. now apply Qlt_le_weak.
      * rewrite Forall_forall in Hy. now apply Hy.
    + apply Qlt_bool_false_iff in E.
      constructor; [now constructor|].
      constructor; [exact E|].
      apply Forall_forall. intros z Hz. rewrite Forall_forall in Hy.
      unfold descending. apply Qle_trans with (key y); [now apply Hy | exact E].
Qed.

Lemma sorted_desc_sorted (l : list A) : StronglySorted (descending key) (sorted_desc key l).
Proof.
  induction l as [|x l IH]; simpl; [constructor | now apply insert_desc_sorted].
Qed.

(** Stability: the entries of one key keep the order they have in the
    input. *)
Lemma insert_desc_stable (v : Q) (x : A) (l : list A) :
  filter (fun y => Qeq_bool (key y) v) (insert_desc key x l) =
  filter (fun y => Qeq_bool (key y) v) (x :: l).
Proof.
  induction l as [|y l IH]; [reflexivity|].
  simpl insert_desc. destruct (Qlt_bool (key x) (key y)) eqn:E; [|reflexivity].
  simpl in *. rewrite IH.
  destruct (Qeq_bool (key x) v) eqn:Ex; [|reflexivity].
  destruct (Qeq_bool (key y) v) eqn:Ey; [|reflexivity].
  exfalso. apply Qeq_bool_iff in Ex, Ey. apply Qlt_bool_iff in E.
  rewrite Ex, Ey in E. exact (Qlt_irrefl _ E).
Qed.

Lemma sorted_desc_stable (v : Q) (l : list A) :
  filter (fun y => Qeq_bool (key y) v) (sorted_desc key l) =
  filter (fun y => Qeq_bool (key y) v) l.
Proof.
  induction l as [|x l IH]; [reflexivity|].
  simpl sorted_desc. rewrite insert_desc_stable. simpl. now rewrite IH.
Qed.

(** A list that is in descending order already is left as it is. *)
Lemma sorted_desc_fixed (l : list A) :
  StronglySorted (descending key) l -> sorted_desc key l = l.
Proof.
  induction 1 as [|x l Hl IH Hx]; [reflexivity|].
  simpl. rewrite IH. destruct l as [|y l']; [reflexivity|].
  simpl. inversion Hx as [|? ? Hxy _]; subst.
  apply Qlt_bool_false_iff in Hxy. now rewrite Hxy.
Qed.

Lemma filter_sorted (p : A -> bool) (l : list A) :
  StronglySorted (descending key) l -> StronglySorted (descending key) (filter p l).
Proof.
  induction 1 as [|x l Hl IH Hx]; simpl; [constructor|].
  destruct (p x); [|exact IH].
  constructor; [exact IH|].
  apply Forall_forall. intros y Hy. apply filter_In in Hy as [Hy _].
  rewrite Forall_forall in Hx. now apply Hx.
Qed.

Lemma firstn_sorted (n : nat) (l : list A) :
  StronglySorted (descending key) l -> StronglySorted (descending key) (firstn n l).
Proof.
  intros H. revert n. induction H as [|x l Hl IH Hx]; intros [|n]; simpl;
    try constructor.
  - apply IH.
  - apply Forall_forall. intros y Hy. rewrite Forall_forall in Hx.
    apply Hx. eapply firstn_incl; eassumption.
Qed.
End SortingFacts.

(** ** Ranking and filtering *)

Lemma mapM_relevance_key (l : list Entry.t) :
  mapM relevance_key l =
  if forallb has_key l then Ok (map score_of l) else Raise (KeyError "relevance_score").
Proof.
  induction l as [|x l IH]; [reflexivity|].
  simpl. unfold relevance_key at 1, has_key at 1, score_of at 1.
  destruct (Entry.relevance_score x) as [q|]; simpl; [|reflexivity].
  rewrite IH. now destruct (forallb has_key l).
Qed.

Section Decorated.
Variable A : Type.
Variable f : A -> Q.

Lemma insert_decorated (x : A) (ps : list (Q * A)) :
  Forall (decorated f) ps ->
  map snd (insert_desc fst (f x, x) ps) = insert_desc f x (map snd ps).
Proof.
  induction 1 as [|[q y] ps Hy Hps IH]; [reflexivity|].
  simpl. unfold decorated in Hy. simpl in Hy. subst q.
  destruct (Qlt_bool (f x) (f y)); simpl; [now rewrite IH | reflexivity].
Qed.

Lemma sorted_decorated (l : list A) :
  Forall (decorated f) (sorted_desc fst (combine (map f l) l)) /\
  map snd (sorted_desc fst (combine (map f l) l)) = sorted_desc f l.
Proof.
  induction l as [|x l [IHd IH]]; [split; [constructor | reflexivity]|].
  simpl. split.
  - apply Forall_forall. intros p Hp.
    apply (Permutation_in _ (insert_desc_perm fst (f x, x) _)) in Hp.
    destruct Hp as [<- | Hp]; [reflexivity|].
    rewrite Forall_forall in IHd. now apply IHd.
  - rewrite insert_decorated by exact IHd. now rewrite IH.
Qed.
End Decorated.

Lemma sorted_by_relevance_eq (l : list Entry.t) :
  sorted_by_relevance l =
  if forallb has_key l then Ok (sorted_desc score_of l)
  else Raise (KeyError "relevance_score").
Proof.
  unfold sorted_by_relevance. rewrite mapM_relevance_key.
  destruct (forallb has_key l); [|reflexivity].
  simpl. f_equal. apply sorted_decorated.
Qed.

Lemma rank_and_filter_eq (sections subsections : list Entry.t) :
  rank_and_filter_results_advanced sections subsections =
  if forallb has_key sections && forallb has_key subsections
  then Ok (firstn 10 (filter section_length_ok (sorted_desc score_of sections)),
           firstn 15 (filter subsection_length_ok (sorted_desc score_of subsections)))
  else Raise (KeyError "relevance_score").
Proof.
  unfold rank_and_filter_results_advanced. rewrite !sorted_by_relevance_eq.
  destruct (forallb has_key sections); [|reflexivity].
  destruct (forallb has_key subsections); reflexivity.
Qed.

Lemma filter_firstn_prefix (A : Type) (p : A -> bool) (n : nat) (l : list A) :
  exists rest, filter p l = filter p (firstn n l) ++ rest.
Proof.
  exists (filter p (skipn n l)).
  rewrite <- filter_app. now rewrite firstn_skipn.
Qed.

Lemma filter_comm (A : Type) (p q : A -> bool) (l : list A) :
  filter p (filter q l) = filter q (filter p l).
Proof.
  induction l as [|x l IH]; [reflexivity|].
  simpl. destruct (p x) eqn:Ep, (q x) eqn:Eq; simpl; rewrite ?Ep, ?Eq, IH; reflexivity.
Qed.

Lemma filter_all (A : Type) (p : A -> bool) (l : list A) :
  Forall (fun x => p x = true) l -> filter p l = l.
Proof.
  induction 1 as [|x l Hx Hl IH]; [reflexivity|].
  simpl. now rewrite Hx, IH.
Qed.

Lemma has_score_key (v : Q) (l : list Entry.t) :
  forallb has_key l = true ->
  filter (has_score v) l = filter (fun x => Qeq_bool (score_of x) v) l.
Proof.
  intros H. apply filter_ext_in. intros x Hx.
  rewrite forallb_forall in H. specialize (H x Hx).
  unfold has_key in H. unfold has_score, score_of.
  now destruct (Entry.relevance_score x).
Qed.

Lemma forallb_perm (A : Type) (p : A -> bool) (l l' : list A) :
  Permutation l l' -> forallb p l = true -> forallb p l' = true.
Proof.
  intros Hperm H. rewrite forallb_forall in *.
  intros x Hx. apply H. eapply Permutation_in; [apply Permutation_sym|]; eassumption.
Qed.

(** The entries of a given score among the first [n] of a filtered sort
    are, in the order of the input, the first ones of those of the input
    that pass the filter. *)
Lemma ranked_stable (p : Entry.t -> bool) (n : nat) (v : Q) (l : list Entry.t) :
  forallb has_key l = true ->
  exists rest,
    filter (has_score v) (filter p l) =
    filter (has_score v) (firstn n (filter p (sorted_desc score_of l))) ++ rest.
Proof.
  intros Hk.
  destruct (filter_firstn_prefix (has_score v) n (filter p (sorted_desc score_of l)))
    as [rest Hrest].
  exists rest. rewrite <- Hrest.
  rewrite !(filter_comm (has_score v) p). f_equal.
  rewrite (has_score_key v l Hk).
  rewrite has_score_key
    by (eapply forallb_perm; [apply Permutation_sym, sorted_desc_perm | exact Hk]).
  symmetry. apply sorted_desc_stable.
Qed.

Lemma ranked_sorted (p : Entry.t -> bool) (n : nat) (l : list Entry.t) :
  StronglySorted (descending score_of) (firstn n (filter p (sorted_desc score_of l))).
Proof.
  apply firstn_sorted, filter_sorted, sorted_desc_sorted.
Qed.

Lemma forallb_has_key_false (l : list Entry.t) :
  forallb has_key l = false -> exists x, In x l /\ Entry.relevance_score x = None.
Proof.
  induction l as [|x l IH]; simpl; [discriminate|].
  intros H. apply andb_false_iff in H as [H | H].
  - exists x. split; [now left|]. unfold has_key in H.
    now destruct (Entry.relevance_score x).
  - destruct (IH H) as (y & Hy & Hnone). exists y. split; [now right | exact Hnone].
Qed.

(** C4. The ranking either raises [KeyError], when an entry has no
    relevance score, or sorts: the sections it returns are the first 10 of
    those, of the right length, of a list that holds the same entries as
    the input, in descending order of score, and in which the entries of
    any one score stand in the order they have in the input; likewise the
    subsections, with 15.  So the lists returned are in descending order of
    score, and the entries of any one score stand in them in the order of
    the input: they are the first of the input's entries of that score that
    pass the length filter. *)
Theorem ranking_is_stable (sections subsections : list Entry.t) :
  match rank_and_filter_results_advanced sections subsections with
  | Ok (top_sections, top_subsections) =>
      (exists ranked_sections ranked_subsections,
          (Permutation ranked_sections sections /\
           StronglySorted (descending score_of) ranked_sections /\
           forall v, filter (has_score v) ranked_sections =
                     filter (has_score v) sections) /\
          (Permutation ranked_subsections subsections /\
           StronglySorted (descending score_of) ranked_subsections /\
           forall v, filter (has_score v) ranked_subsections =
                     filter (has_score v) subsections) /\
          top_sections = firstn 10 (filter section_length_ok ranked_sections) /\
          top_subsections = firstn 15 (filter subsection_length_ok ranked_subsections)) /\
      StronglySorted (descending score_of) top_sections /\
      StronglySorted (descending score_of) top_subsections /\
      (forall v, exists rest,
          filter (has_score v) (filter section_length_ok sections) =
          filter (has_score v) top_sections ++ rest) /\
      (forall v, exists rest,
          filter (has_score v) (filter subsection_length_ok subsections) =
          filter (has_score v) top_subsections ++ rest)
  | Raise e =>
      e = KeyError "relevance_score" /\
      exists x, In x (sections ++ subsections) /\ Entry.relevance_score x = None
  end.
Proof.
  rewrite rank_and_filter_eq.
  assert (Hsort : forall l,
             forallb has_key l = true ->
             Permutation (sorted_desc score_of l) l /\
             StronglySorted (descending score_of) (sorted_desc score_of l) /\
             forall v, filter (has_score v) (sorted_desc score_of l) =
                       filter (has_score v) l).
  { intros l Hk. split; [apply sorted_desc_perm|]. split; [apply sorted_desc_sorted|].
    intros v. rewrite (has_score_key v l Hk).
    rewrite has_score_key
      by (eapply forallb_perm; [apply Permutation_sym, sorted_desc_perm | exact Hk]).
    apply sorted_desc_stable. }
  destruct (forallb has_key sections) eqn:Hs; cbn [andb].
  - destruct (forallb has_key subsections) eqn:Hss.
    + split.
      { exists (sorted_desc score_of sections), (sorted_desc score_of subsections).
        split; [now apply Hsort|]. split; [now apply Hsort|]. now split. }
      split; [apply ranked_sorted|]. split; [apply ranked_sorted|].
      split; intros v; now apply ranked_stable.
    + split; [reflexivity|].
      destruct (forallb_has_key_false _ Hss) as (x & Hx & Hnone).
      exists x. split; [apply in_or_app; now right | exact Hnone].
  - split; [reflexivity|].
    destruct (forallb_has_key_false _ Hs) as (x & Hx & Hnone).
    exists x. split; [apply in_or_app; now left | exact Hnone].
Qed.

Lemma ranked_fixed (p : Entry.t -> bool) (n : nat) (l : list Entry.t) :
  let top := firstn n (filter p (sorted_desc score_of l)) in
  sorted_desc score_of top = top /\ filter p top = top /\ firstn n top = top.
Proof.
  intros top. repeat split.
  - apply sorted_desc_fixed, ranked_sorted.
  - apply filter_all, Forall_forall. intros x Hx.
    apply firstn_incl in Hx. now apply filter_In in Hx.
  - apply firstn_all2. apply firstn_le_length.
Qed.

Lemma ranked_has_key (p : Entry.t -> bool) (n : nat) (l : list Entry.t) :
  forallb has_key l = true ->
  forallb has_key (firstn n (filter p (sorted_desc score_of l))) = true.
Proof.
  intros H. rewrite forallb_forall in *. intros x Hx.
  apply firstn_incl in Hx. apply filter_In in Hx as [Hx _].
  apply H. eapply Permutation_in; [apply sorted_desc_perm | exact Hx].
Qed.

(** C5. The ranking applied to the lists it returned returns them
    unchanged: on them the sort, the two length filters and the two
    truncations each change nothing. *)
Theorem ranking_is_idempotent
        (sections subsections top_sections top_subsections : list Entry.t) :
  rank_and_filter_results_advanced sections subsections =
    Ok (top_sections, top_subsections) ->
  rank_and_filter_results_advanced top_sections top_subsections =
    Ok (top_sections, top_subsections) /\
  sorted_by_relevance top_sections = Ok top_sections /\
  sorted_by_relevance top_subsections = Ok top_subsections /\
  filter section_length_ok top_sections = top_sections /\
  filter subsection_length_ok top_subsections = top_subsections /\
  firstn 10 top_sections = top_sections /\
  firstn 15 top_subsections = top_subsections.
Proof.
  rewrite rank_and_filter_eq.
  destruct (forallb has_key sections) eqn:Hs; [|discriminate].
  destruct (forallb has_key subsections) eqn:Hss; [|discriminate].
  cbn [andb].
  remember (firstn 10 (filter section_length_ok (sorted_desc score_of sections))) as a eqn:Ea.
  remember (firstn 15 (filter subsection_length_ok (sorted_desc score_of subsections)))
    as b eqn:Eb.
  intros H. injection H as <- <-. subst a b.
  pose proof (ranked_has_key section_length_ok 10 _ Hs) as Ks.
  pose proof (ranked_has_key subsection_length_ok 15 _ Hss) as Kss.
  destruct (ranked_fixed section_length_ok 10 sections) as (S1 & S2 & S3).
  destruct (ranked_fixed subsection_length_ok 15 subsections) as (T1 & T2 & T3).
  rewrite rank_and_filter_eq, !sorted_by_relevance_eq, Ks, Kss. cbn [andb].
  rewrite S1, T1, S2, T2, S3, T3. tauto.
Qed.

Lemma ranking_is_idempotent_witness :
  rank_and_filter_results_advanced
    [sample_section "Background" (41 # 2); sample_section "Methods" 40]
    [sample_subsection "Background" (41 # 2)] =
  Ok ([sample_section "Methods" 40; sample_section "Background" (41 # 2)],
      [sample_subsection "Background" (41 # 2)]) /\
  rank_and_filter_results_advanced
    [sample_section "Methods" 40; sample_section "Background" (41 # 2)]
    [sample_subsection "Background" (41 # 2)] =
  Ok ([sample_section "Methods" 40; sample_section "Background" (41 # 2)],
      [sample_subsection "Background" (41 # 2)]).
Proof.
  assert (H : rank_and_filter_results_advanced
                [sample_section "Background" (41 # 2); sample_section "Methods" 40]
                [sample_subsection "Background" (41 # 2)] =
              Ok ([sample_section "Methods" 40; sample_section "Background" (41 # 2)],
                  [sample_subsection "Background" (41 # 2)]))
    by (vm_compute; reflexivity).
  split; [exact H | exact (proj1 (ranking_is_idempotent _ _ H))].
Defined.

(** ** Content refinement *)

Section RefineFacts.
Variable A B : Type.

Lemma insert_desc_map (key : B -> Q) (g : A -> B) (x : A) (l : list A) :
  insert_desc key (g x) (map g l) = map g (insert_desc (fun y => key (g y)) x l).
Proof.
  induction l as [|y l IH]; [reflexivity|].
  simpl. destruct (Qlt_bool (key (g x)) (key (g y))); simpl; [now rewrite IH | reflexivity].
Qed.

Lemma sorted_desc_map (key : B -> Q) (g : A -> B) (l : list A) :
  sorted_desc key (map g l) = map g (sorted_desc (fun y => key (g y)) l).
Proof.
  induction l as [|x l IH]; [reflexivity|].
  simpl. now rewrite IH, insert_desc_map.
Qed.

Lemma filter_map_comm (q : B -> bool) (g : A -> B) (l : list A) :
  filter q (map g l) = map g (filter (fun x => q (g x)) l).
Proof.
  induction l as [|x l IH]; [reflexivity|].
  simpl. destruct (q (g x)); simpl; now rewrite IH.
Qed.
End RefineFacts.

Section ThresholdFacts.
Variable A : Type.
Variable key : A -> Q.
Variable c : Q.

(** In a list in descending order, the entries above a threshold come
    first: keeping them commutes with taking the first [k] entries. *)
Lemma filter_firstn_sorted (k : nat) (l : list A) :
  StronglySorted (descending key) l ->
  filter (fun x => Qlt_bool c (key x)) (firstn k l) =
  firstn k (filter (fun x => Qlt_bool c (key x)) l).
Proof.
  intros H. revert k. induction H as [|x l Hl IH Hx]; intros [|k]; try reflexivity.
  simpl. destruct (Qlt_bool c (key x)) eqn:E.
  - simpl. now rewrite IH.
  - assert (Hnone : forall l', incl l' l -> filter (fun y => Qlt_bool c (key y)) l' = []).
    { intros l' Hincl. induction l' as [|y l' IH']; [reflexivity|].
      simpl. assert (Hy : In y l) by (apply Hincl; now left).
      rewrite Forall_forall in Hx. specialize (Hx y Hy). unfold descending in Hx.
      apply Qlt_bool_false_iff in E.
      replace (Qlt_bool c (key y)) with false.
      - apply IH'. intros z Hz. apply Hincl. now right.
      - symmetry. apply Qlt_bool_false_iff. now apply Qle_trans with (key x). }
    rewrite (Hnone l) by apply incl_refl.
    rewrite Hnone; [now destruct k|].
    intros z Hz. eapply firstn_incl; eassumption.
Qed.

Lemma sorted_app_dominates (l1 l2 : list A) :
  StronglySorted (descending key) (l1 ++ l2) ->
  forall x y, In x l1 -> In y l2 -> key y <= key x.
Proof.
  induction l1 as [|z l1 IH]; simpl; intros H x y Hx Hy; [contradiction|].
  inversion H as [|? ? Hs Hz]; subst. destruct Hx as [<- | Hx].
  - rewrite Forall_forall in Hz. apply Hz. apply in_or_app. now right.
  - now apply IH.
Qed.
End ThresholdFacts.

Lemma refine_content_eq (rt : Runtime) (content persona job : str) :
  refine_content_for_persona rt content persona job =
  match selected_sentences rt content persona job with
  | [] => firstn 300 content
  | _ :: _ => join (u " ") (selected_sentences rt content persona job)
  end.
Proof.
  unfold refine_content_for_persona.
  set (g := fun sentence : str =>
              (sentence,
               calculate_semantic_relevance_multilingual rt (Some sentence) persona job)).
  assert (Hsel :
    map fst (filter (fun s : str * Q => Qlt_bool 20 (snd s))
                    (firstn (if str_in persona [u "researcher"; u "analyst"]
                             then 4%nat else 3%nat)
                            (sorted_desc snd (map g (sent_tokenize rt content))))) =
    selected_sentences rt content persona job).
  { rewrite (sorted_desc_map snd g), firstn_map, filter_map_comm, map_map.
    unfold g at 1. simpl. rewrite map_id.
    unfold selected_sentences, sentence_limit.
    apply filter_firstn_sorted.
    apply sorted_desc_sorted. }
  rewrite Hsel. now destruct (selected_sentences rt content persona job).
Qed.

Lemma join_nonempty (sep first : str) (rest : list str) :
  first <> [] -> join sep (first :: rest) <> [].
Proof.
  intros H. simpl. destruct rest; [exact H|].
  destruct first; [contradiction | discriminate].
Qed.

Lemma scored_sentence_nonempty (rt : Runtime) (persona job sentence : str) :
  0 < sentence_score rt persona job sentence -> sentence <> [].
Proof.
  intros H ->. unfold sentence_score in H. simpl in H. exact (Qlt_irrefl _ H).
Qed.

Lemma sentence_limit_pos (persona : str) : (0 < sentence_limit persona)%nat.
Proof.
  unfold sentence_limit. destruct (str_in persona _); lia.
Qed.

(** C6. For a content that is not empty, refinement returns a string that
    is not empty.  It is the sentences selected, joined by single spaces,
    and the first 300 characters of the content when none is selected.  The
    selected sentences are at most 4 for the personas researcher and
    analyst and at most 3 for any other; each is a sentence of the content
    that scores more than 20; a sentence scoring more than 20 that is left
    out scores no more than any selected one; and none is selected exactly
    when no sentence scores more than 20. *)
Theorem refined_content_nonempty (rt : Runtime) (content persona job : str) :
  content <> [] ->
  let sentences := sent_tokenize rt content in
  let score := sentence_score rt persona job in
  let selected := selected_sentences rt content persona job in
  refine_content_for_persona rt content persona job <> [] /\
  refine_content_for_persona rt content persona job =
    match selected with
    | [] => firstn 300 content
    | _ :: _ => join (u " ") selected
    end /\
  (List.length selected <= sentence_limit persona)%nat /\
  (persona = u "researcher" \/ persona = u "analyst" -> sentence_limit persona = 4%nat) /\
  (persona <> u "researcher" -> persona <> u "analyst" -> sentence_limit persona = 3%nat) /\
  Forall (fun s => In s sentences /\ 20 < score s) selected /\
  (forall s s', In s' selected -> In s sentences -> 20 < score s -> ~ In s selected ->
                score s <= score s') /\
  (selected = [] <-> forall s, In s sentences -> score s <= 20).
Proof.
  intros Hcontent sentences score selected.
  set (above := filter (fun s => Qlt_bool 20 (score s)) (sorted_desc score sentences)).
  assert (Habove : forall s, In s above <-> In s sentences /\ 20 < score s).
  { intros s. unfold above. rewrite filter_In, Qlt_bool_iff.
    split; intros [Hin Hlt]; (split; [|exact Hlt]).
    - eapply Permutation_in; [apply sorted_desc_perm | exact Hin].
    - eapply Permutation_in; [apply Permutation_sym, sorted_desc_perm | exact Hin]. }
  assert (Hsel : selected = firstn (sentence_limit persona) above) by reflexivity.
  assert (Hall : Forall (fun s => In s sentences /\ 20 < score s) selected).
  { apply Forall_forall. intros s Hs. apply Habove.
    rewrite Hsel in Hs. eapply firstn_incl; eassumption. }
  assert (Heq := refine_content_eq rt content persona job). fold selected in Heq.
  split; [|split; [exact Heq|]].
  - rewrite Heq. destruct selected as [|s rest] eqn:E.
    + destruct content; [contradiction | discriminate].
    + apply join_nonempty. inversion Hall as [|? ? [_ Hs] _]; subst.
      apply (scored_sentence_nonempty rt persona job).
      apply Qlt_trans with 20; [reflexivity | exact Hs].
  - split; [rewrite Hsel; apply firstn_le_length|].
    split.
    { intros [-> | ->]; reflexivity. }
    split.
    { intros H1 H2. unfold sentence_limit.
      destruct (str_in persona [u "researcher"; u "analyst"]) eqn:E; [|reflexivity].
      apply str_in_In in E. destruct E as [E | [E | []]]; congruence. }
    split; [exact Hall|].
    split.
    + intros s s' Hs' Hs Hlt Hnot.
      assert (Hin : In s above) by (apply Habove; now split).
      rewrite <- (firstn_skipn (sentence_limit persona) above) in Hin.
      apply in_app_or in Hin. destruct Hin as [Hin | Hin]; [rewrite <- Hsel in Hin; contradiction|].
      apply (@sorted_app_dominates _ score (firstn (sentence_limit persona) above)
                                   (skipn (sentence_limit persona) above)).
      * rewrite firstn_skipn. unfold above. apply filter_sorted, sorted_desc_sorted.
      * now rewrite <- Hsel.
      * exact Hin.
    + split.
      * intros Hnil s Hs. apply Qnot_lt_le. intros Hlt.
        assert (Hin : In s above) by (apply Habove; now split).
        rewrite Hsel in Hnil. pose proof (sentence_limit_pos persona) as Hpos.
        destruct above as [|a above']; [contradiction|].
        destruct (sentence_limit persona); [lia | discriminate].
      * intros Hnone. rewrite Hsel.
        destruct above as [|a above'] eqn:E; [now destruct (sentence_limit persona)|].
        assert (Ha : In a sentences /\ 20 < score a) by (apply Habove; now left).
        destruct Ha as [Ha Hlt]. exfalso.
        exact (Qlt_not_le _ _ Hlt (Hnone a Ha)).
Qed.

Lemma refined_content_nonempty_witness :
  methodology_text <> [] /\
  refine_content_for_persona
    english_runtime methodology_text (u "researcher") (u "literature_review") <> [].
Proof.
  assert (H : methodology_text <> []) by (intros E; vm_compute in E; discriminate).
  split; [exact H|].
  exact (proj1 (refined_content_nonempty english_runtime (u "researcher")
                                         (u "literature_review") H)).
Defined.

(** ** Section admission *)


Section AdmissionFacts.
Variable rt : Runtime.
Variable content : Content.t.
Variable persona job : str.
Hypothesis in_budget : forall k, elapsed rt k <= 300.




End AdmissionFacts.

(** What holds of every section the loops append holds of all the sections
    they return, whatever the clock says. *)
Section AdmissionInvariant.
Variable rt : Runtime.
Variable content : Content.t.
Variable persona job : str.
Variable P : Entry.t -> Prop.

Hypothesis P_heading :
  forall page_content heading,
    In page_content (Content.pages content) ->
    In heading (Page.headings page_content) ->
    15 < heading_relevance_score rt content persona job page_content heading ->
    P (heading_section rt content persona job page_content heading).

Hypothesis P_body :
  forall page_content text_block,
    In page_content (Content.pages content) ->
    In text_block (Page.body_text page_content) ->
    20 < body_relevance_score rt persona job text_block ->
    P (body_section rt content persona job page_content text_block).

Lemma headings_loop_invariant (page_content : Page.t) (headings : list TextBlock.t)
      (acc : list Entry.t) (n : nat) :
  In page_content (Content.pages content) ->
  incl headings (Page.headings page_content) ->
  Forall P acc ->
  Forall P (fst (headings_loop rt content persona job page_content headings acc n)).
Proof.
  intros Hp. revert acc n.
  induction headings as [|heading rest IH]; intros acc n Hincl Hacc; [exact Hacc|].
  cbn [headings_loop]. destruct (check_time_limit rt n) as [in_time n1].
  destruct in_time; cbn [negb]; [|exact Hacc].
  apply IH; [intros x Hx; apply Hincl; now right|].
  destruct (Qlt_bool 15 (heading_relevance_score rt content persona job page_content heading))
    eqn:E; [|exact Hacc].
  apply Forall_app. split; [exact Hacc|]. constructor; [|constructor].
  apply P_heading; [exact Hp | apply Hincl; now left | now apply Qlt_bool_iff].
Qed.

Lemma body_text_loop_invariant (page_content : Page.t) (body_text : list TextBlock.t)
      (acc : list Entry.t) (n : nat) :
  In page_content (Content.pages content) ->
  incl body_text (Page.body_text page_content) ->
  Forall P acc ->
  Forall P (fst (body_text_loop rt content persona job page_content body_text acc n)).
Proof.
  intros Hp. revert acc n.
  induction body_text as [|text_block rest IH]; intros acc n Hincl Hacc; [exact Hacc|].
  cbn [body_text_loop]. destruct (check_time_limit rt n) as [in_time n1].
  destruct in_time; cbn [negb]; [|exact Hacc].
  apply IH; [intros x Hx; apply Hincl; now right|].
  destruct (Qlt_bool 20 (body_relevance_score rt persona job text_block)) eqn:E;
    [|exact Hacc].
  apply Forall_app. split; [exact Hacc|]. constructor; [|constructor].
  apply P_body; [exact Hp | apply Hincl; now left | now apply Qlt_bool_iff].
Qed.

Lemma pages_loop_invariant (pages : list Page.t) (acc : list Entry.t) (n : nat) :
  incl pages (Content.pages content) ->
  Forall P acc ->
  Forall P (fst (pages_loop rt content persona job pages acc n)).
Proof.
  revert acc n. induction pages as [|page_content rest IH]; intros acc n Hincl Hacc;
    [exact Hacc|].
  cbn [pages_loop].
  assert (Hp : In page_content (Content.pages content)) by (apply Hincl; now left).
  pose proof (@headings_loop_invariant page_content (Page.headings page_content) acc n
                Hp (incl_refl _) Hacc) as Hh.
  destruct (headings_loop rt content persona job page_content
                          (Page.headings page_content) acc n) as [acc1 n1].
  pose proof (@body_text_loop_invariant page_content (Page.body_text page_content) acc1 n1
                Hp (incl_refl _) Hh) as Hb.
  destruct (body_text_loop rt content persona job page_content
                           (Page.body_text page_content) acc1 n1) as [acc2 n2].
  apply IH; [intros x Hx; apply Hincl; now right | exact Hb].
Qed.
End AdmissionInvariant.






(** ** The language of the subsections *)

Lemma mapM_Forall (A B : Type) (f : A -> res B) (P : A -> Prop) (Q : B -> Prop)
      (l : list A) (l' : list B) :
  (forall x y, P x -> f x = Ok y -> Q y) ->
  Forall P l -> mapM f l = Ok l' -> Forall Q l'.
Proof.
  intros Hf Hl. revert l'. induction Hl as [|x l Hx Hl IH]; intros l' H; simpl in H.
  - injection H as <-. constructor.
  - destruct (f x) as [y|e] eqn:Ex; simpl in H; [|discriminate].
    destruct (mapM f l) as [ys|e]; simpl in H; [|discriminate].
    injection H as <-. constructor; [eapply Hf; eassumption | now apply IH].
Qed.

(** The subsection dicts are built without the key ['language']. *)
Lemma subsections_loop_no_language (rt : Runtime) (persona job : str)
      (sections subsections : list Entry.t) (n : nat) :
  Forall (fun subsection => Entry.language subsection = None) subsections ->
  match subsections_loop rt persona job sections subsections n with
  | Ok (created, _) => Forall (fun subsection => Entry.language subsection = None) created
  | Raise _ => True
  end.
Proof.
  revert subsections n. induction sections as [|section rest IH]; intros acc n Hacc.
  - exact Hacc.
  - cbn [subsections_loop]. destruct (check_time_limit rt n) as [in_time n1].
    destruct in_time; cbn [negb]; [|exact Hacc].
    destruct (too_short 20 (Some (get (Entry.content section) []))); [now apply IH|].
    destruct (refine_content_for_persona rt (get (Entry.content section) []) persona job)
      as [|c refined]; [now apply IH|].
    destruct (Entry.document section); [|exact I].
    destruct (Entry.page section); [|exact I].
    destruct (Entry.section_title section); [|exact I].
    destruct (Entry.relevance_score section); [|exact I].
    cbn [subscript bind]. apply IH.
    apply Forall_app. split; [exact Hacc | now repeat constructor].
Qed.

Lemma documents_loop_no_language (rt : Runtime) (docs_path persona job : str)
      (pdf_files : list str) (all_sections all_subsections : list Entry.t)
      (detected_languages : list str) (n : nat) :
  Forall (fun subsection => Entry.language subsection = None) all_subsections ->
  match documents_loop rt docs_path persona job pdf_files all_sections all_subsections
                       detected_languages n with
  | Ok (_, subsections, _, _) =>
      Forall (fun subsection => Entry.language subsection = None) subsections
  | Raise _ => True
  end.
Proof.
  revert all_sections all_subsections detected_languages n.
  induction pdf_files as [|pdf_file rest IH]; intros secs subs langs n Hsubs.
  - exact Hsubs.
  - cbn [documents_loop]. destruct (check_time_limit rt n) as [in_time n1].
    destruct in_time; cbn [negb]; [|exact Hsubs].
    destruct (Content.metadata
                (extract_document_content_multilingual rt (path_join docs_path pdf_file)))
      as [metadata|]; [|exact I].
    cbn [subscript bind].
    destruct (extract_relevant_sections_multilingual rt _ persona job n1)
      as [sections n2].
    pose proof (@subsections_loop_no_language rt persona job sections [] n2 (Forall_nil _))
      as Hcreated.
    unfold create_subsection_analysis_advanced.
    destruct (subsections_loop rt persona job sections [] n2) as [[created n3]|e];
      [|exact I].
    cbn [bind]. apply IH. apply Forall_app. now split.
Qed.

Lemma ranked_incl (sections subsections top_sections top_subsections : list Entry.t) :
  rank_and_filter_results_advanced sections subsections =
    Ok (top_sections, top_subsections) ->
  incl top_sections sections /\ incl top_subsections subsections.
Proof.
  rewrite rank_and_filter_eq.
  destruct (forallb has_key sections && forallb has_key subsections); [|discriminate].
  remember (firstn 10 (filter section_length_ok (sorted_desc score_of sections))) as a eqn:Ea.
  remember (firstn 15 (filter subsection_length_ok (sorted_desc score_of subsections)))
    as b eqn:Eb.
  intros H. injection H as <- <-. subst a b.
  split; intros x Hx; apply firstn_incl in Hx; apply filter_In in Hx as [Hx _];
    (eapply Permutation_in; [apply sorted_desc_perm | exact Hx]).
Qed.

Lemma analysed_subsection_language (rt : Runtime) (persona job : str)
      (subsection entry : Entry.t) :
  Entry.language subsection = None ->
  analysed_subsection rt persona job subsection = Ok entry ->
  Entry.language entry = Some (u "en").
Proof.
  intros Hnone. unfold analysed_subsection.
  destruct (Entry.document subsection); [|discriminate].
  destruct (Entry.page subsection); [|discriminate].
  destruct (Entry.section_title subsection); [|discriminate].
  destruct (Entry.refined_text subsection); [|discriminate].
  destruct (Entry.relevance_score subsection); [|discriminate].
  destruct (Entry.persona_focus subsection); [|discriminate].
  destruct (Entry.job_alignment subsection); [|discriminate].
  cbn [subscript bind]. intros H. injection H as <-.
  cbn [Entry.language]. now rewrite Hnone.
Qed.

(** C10. Every entry of [subsection_analysis] in the result has the language
    "en", whatever the language of the section it comes from: the
    subsection dicts are created without the key ['language'], and the
    output takes "en" for the missing key. *)
Theorem subsection_language_is_en (rt : Runtime) (docs_path persona job : str) (n : nat) :
  Forall (fun entry => Entry.language entry = Some (u "en"))
         (Result.subsection_analysis
            (process_documents_multilingual rt docs_path persona job n)) /\
  (forall sections m,
      match create_subsection_analysis_advanced rt sections persona job m with
      | Ok (subsections, _) =>
          Forall (fun subsection => Entry.language subsection = None) subsections
      | Raise _ => True
      end).
Proof.
  split.
  - unfold process_documents_multilingual, process_documents_body.
    destruct (path_exists rt docs_path); cbn [negb]; [|constructor].
    destruct (listdir rt docs_path) as [names|message]; [|constructor].
    destruct (filter (fun f => endswith (u ".pdf") (lower f)) names) as [|f pdf_files];
      [constructor|].
    pose proof (@documents_loop_no_language rt docs_path persona job (f :: pdf_files)
                                            [] [] [] n (Forall_nil _)) as Hloop.
    destruct (documents_loop rt docs_path persona job (f :: pdf_files) [] [] [] n)
      as [[[[all_sections all_subsections] detected] n']|e]; [|constructor].
    cbn [bind].
    destruct (rank_and_filter_results_advanced all_sections all_subsections)
      as [[ranked_sections ranked_subsections]|e] eqn:Hrank; [|constructor].
    cbn [bind].
    destruct (mapM _ (combine _ ranked_sections)) as [extracted|e]; [|constructor].
    cbn [bind].
    destruct (mapM (analysed_subsection rt persona job) ranked_subsections)
      as [analysed|e] eqn:Hmap; [|constructor].
    cbn [bind Result.subsection_analysis].
    apply (@mapM_Forall _ _ (analysed_subsection rt persona job)
                        (fun subsection => Entry.language subsection = None)
                        (fun entry => Entry.language entry = Some (u "en"))
                        ranked_subsections); [| |exact Hmap].
    + intros x y Hx Hy. eapply analysed_subsection_language; eassumption.
    + apply Forall_forall. intros x Hx.
      apply ranked_incl in Hrank as [_ Hincl].
      rewrite Forall_forall in Hloop. apply Hloop, Hincl, Hx.
  - intros sections m. apply subsections_loop_no_language. constructor.
Qed.

(** The run on the Spanish-tagged document: its section is reported as
    "es", the subsection derived from it as "en". *)
Example spanish_section_english_subsection :
  let result := process_documents_multilingual
                  sample_runtime (u "input") (u "researcher") (u "literature_review") 0 in
  map Entry.language (Result.extracted_sections result) = [Some (u "es")] /\
  map Entry.language (Result.subsection_analysis result) = [Some (u "en")].
Proof. split; vm_compute; reflexivity. Qed.

(** * Further properties *)

(** ** The components of the score *)

Lemma matched_weights_bounds (text_lower : str) (keywords : dict str Z) (a : Z) :
  Forall (fun w => (0 < w)%Z) (dict_values keywords) ->
  (a <= fold_left (fun acc kw => if contains (fst kw) text_lower
                                 then (acc + snd kw)%Z else acc) keywords a
   <= fold_left Z.add (dict_values keywords) a)%Z.
Proof.
  revert a. induction keywords as [|[k w] keywords IH]; intros a Hall; simpl.
  - lia.
  - inversion Hall as [|? ? Hw Hall']; subst. simpl in Hw.
    destruct (contains k text_lower).
    + specialize (IH (a + w)%Z Hall'). lia.
    + specialize (IH a Hall').
      assert (Hmono : forall l x y, (x <= y)%Z ->
                                    (fold_left Z.add l x <= fold_left Z.add l y)%Z).
      { clear. induction l as [|z l IHl]; intros x y Hxy; simpl; [exact Hxy|].
        apply IHl. lia. }
      pose proof (Hmono (dict_values keywords) a (a + w)%Z ltac:(lia)). lia.
Qed.

Lemma merged_weights_positive (persona job language : str) :
  Forall (fun w => (0 < w)%Z)
         (dict_values (get_keywords_for_language persona job language)).
Proof.
  rewrite get_keywords_for_language_eq.
  pose proof (persona_keyword_map_ok persona language) as Hp.
  pose proof (job_keyword_map_ok job language) as Hj.
  apply andb_true_iff in Hp as [_ Hp]. apply andb_true_iff in Hj as [_ Hj].
  apply dict_update_values; [apply dict_update_values; [constructor|]|];
    now apply positive_weights_values.
Qed.

Lemma keyword_component_range (persona job language text_lower : str) :
  0 <= keyword_component (get_keywords_for_language persona job language) text_lower <= 40.
Proof.
  pose proof (max_keyword_score_positive persona job language) as Hpos.
  pose proof (merged_weights_positive persona job language) as Hall.
  unfold keyword_component.
  set (keywords := get_keywords_for_language persona job language) in *.
  set (matched := fold_left _ keywords 0%Z).
  assert (Hm : (0 <= matched <= max_keyword_score keywords)%Z).
  { pose proof (matched_weights_bounds text_lower keywords 0 Hall) as H.
    fold matched in H. unfold max_keyword_score, sum_Z.
    destruct keywords; [simpl in *; lia | exact H]. }
  assert (HposQ : 0 < inject_Z (max_keyword_score keywords))
    by (rewrite <- (Zlt_Qlt 0); exact Hpos).
  split.
  - apply Qmult_le_0_compat; [|discriminate].
    apply Qle_shift_div_l; [exact HposQ|].
    rewrite Qmult_0_l, <- (Zle_Qle 0). lia.
  - setoid_replace 40 with (1 * 40) at 2 by reflexivity.
    apply Qmult_le_compat_r; [|discriminate].
    apply Qle_shift_div_r; [exact HposQ|].
    rewrite Qmult_1_l, <- Zle_Qle. lia.
Qed.

(** The keyword component lies between 0 and 40 for every persona, job,
    language and text, known or not: the weights of the merged table are
    positive, the divisor is never 0, and the weights found in the text
    are part of the whole table. *)
Theorem keyword_component_bounds (persona job language text_lower : str) :
  (0 < max_keyword_score (get_keywords_for_language persona job language))%Z /\
  0 <= keyword_component (get_keywords_for_language persona job language) text_lower <= 40.
Proof.
  split; [apply max_keyword_score_positive | apply keyword_component_range].
Qed.

Lemma structure_score_range (text_lower language : str) :
  (0 <= _calculate_structure_score text_lower language <= 20)%Z /\
  exists k, _calculate_structure_score text_lower language = (5 * k)%Z.
Proof.
  unfold _calculate_structure_score.
  set (tokens := dict_get_default str_eqb SECTION_KEYWORDS language _).
  assert (H : forall a k, (0 <= k)%Z -> a = (5 * k)%Z ->
              exists k', (k <= k')%Z /\
                fold_left (fun acc section => if contains section text_lower
                                              then (acc + 5)%Z else acc) tokens a
                = (5 * k')%Z).
  { induction tokens as [|t tokens IH]; intros a k Hk Ha; simpl.
    - exists k. split; [lia | exact Ha].
    - destruct (contains t text_lower).
      + destruct (IH (a + 5)%Z (k + 1)%Z ltac:(lia) ltac:(lia)) as (k' & Hk' & E).
        exists k'. split; [lia | exact E].
      + now apply IH. }
  destruct (H 0%Z 0%Z ltac:(lia) ltac:(lia)) as (k & Hk & E). rewrite E.
  split; [lia|].
  destruct (Z.le_gt_cases (5 * k) 20).
  - exists k. lia.
  - exists 4%Z. lia.
Qed.

(** The structural component is one of 0, 5, 10, 15 and 20, whatever the
    text and the language. *)
Theorem structure_score_bounds (text_lower language : str) :
  In (_calculate_structure_score text_lower language) [0; 5; 10; 15; 20]%Z.
Proof.
  destruct (structure_score_range text_lower language) as [Hrange [k Hk]].
  rewrite Hk in *. simpl.
  assert (k = 0 \/ k = 1 \/ k = 2 \/ k = 3 \/ k = 4)%Z as Hcases by lia.
  destruct Hcases as [-> | [-> | [-> | [-> | ->]]]]; tauto.
Qed.

Lemma quality_score_range (rt : Runtime) (text language persona : str) :
  (0 <= _calculate_quality_score rt text language persona <= 10)%Z /\
  (str_in persona [u "researcher"; u "developer"; u "analyst"] = false ->
   (_calculate_quality_score rt text language persona <= 8)%Z).
Proof.
  unfold _calculate_quality_score.
  destruct ((50 <=? len text) && (len text <=? 500));
    destruct ((20 <=? len text) && (len text <=? 1000));
    destruct ((1 <=? List.length (sent_tokenize rt text))
              && (List.length (sent_tokenize rt text) <=? 5));
    destruct (str_in persona [u "researcher"; u "developer"; u "analyst"]);
    try destruct (existsb _ _); simpl; split; try lia; intros; try discriminate; lia.
Qed.

(** The quality component lies between 0 and 10, and does not exceed 8 for
    a persona other than researcher, developer and analyst. *)
Theorem quality_score_bounds (rt : Runtime) (text language persona : str) :
  (0 <= _calculate_quality_score rt text language persona <= 10)%Z /\
  (persona <> u "researcher" -> persona <> u "developer" -> persona <> u "analyst" ->
   (_calculate_quality_score rt text language persona <= 8)%Z).
Proof.
  destruct (quality_score_range rt text language persona) as [H1 H2].
  split; [exact H1|]. intros Hr Hd Ha. apply H2.
  destruct (str_in persona _) eqn:E; [|reflexivity].
  apply str_in_In in E. destruct E as [E | [E | [E | []]]]; congruence.
Qed.

Lemma quality_score_bounds_witness :
  u "student" <> u "researcher" /\
  (_calculate_quality_score english_runtime methodology_text (u "en") (u "student") <= 8)%Z.
Proof.
  assert (H1 : u "student" <> u "researcher") by (vm_compute; discriminate).
  assert (H2 : u "student" <> u "developer") by (vm_compute; discriminate).
  assert (H3 : u "student" <> u "analyst") by (vm_compute; discriminate).
  split; [exact H1|].
  exact (proj2 (quality_score_bounds english_runtime methodology_text (u "en")
                                     (u "student")) H1 H2 H3).
Defined.

Lemma too_short_false (n : nat) (t : str) :
  (0 < n)%nat -> (n <= len (strip t))%nat -> too_short n (Some t) = false.
Proof.
  intros Hn H. simpl. destruct t as [|c t]; [simpl in H; lia|].
  apply Nat.ltb_ge. exact H.
Qed.

Lemma score_of_long_text (rt : Runtime) (t persona job : str) :
  (10 <= len (strip t))%nat ->
  calculate_semantic_relevance_multilingual rt (Some t) persona job =
  Qmin 100 (Qmax 0 (raw_relevance rt t persona job)).
Proof.
  intros H. unfold calculate_semantic_relevance_multilingual.
  rewrite too_short_false by (lia || exact H). reflexivity.
Qed.

Lemma raw_relevance_range (rt : Runtime) (t persona job : str) (lo hi : Q) :
  (let language := detect_language rt (Some t) in
   lo <= similarity_component rt t persona job
           (get_keywords_for_language persona job language) <= hi) ->
  lo <= raw_relevance rt t persona job <= hi + 70.
Proof.
  unfold raw_relevance. cbv zeta.
  set (language := detect_language rt (Some t)).
  pose proof (keyword_component_range persona job language (lower t)) as [K0 K1].
  destruct (structure_score_range (lower t) language) as [[S0 S1] _].
  destruct (quality_score_range rt t language persona) as [[Q0 Q1] _].
  rewrite Zle_Qle in S0, S1, Q0, Q1.
  set (k := keyword_component _ _) in *.
  set (m := similarity_component _ _ _ _ _) in *.
  set (s := inject_Z (_calculate_structure_score _ _)) in *.
  set (q := inject_Z (_calculate_quality_score _ _ _ _)) in *.
  change (inject_Z 0) with 0 in *. change (inject_Z 20) with 20 in *.
  change (inject_Z 10) with 10 in *.
  intros [M0 M1]. split.
  - setoid_replace lo with (0 + 0 + lo + 0 + 0) by ring.
    repeat apply Qplus_le_compat; try assumption; apply Qle_refl.
  - setoid_replace (hi + 70) with (0 + 40 + hi + 20 + 10) by ring.
    repeat apply Qplus_le_compat; try assumption; apply Qle_refl.
Qed.

(** Without a sentence model the score of a text of trimmed length 10 or
    more is the plain sum of the keyword, structural and quality
    components: it lies between 0 and 70 and the clamp changes nothing. *)
Theorem score_without_sentence_model (rt : Runtime) (t persona job : str) :
  sentence_model rt = None ->
  (10 <= len (strip t))%nat ->
  calculate_semantic_relevance_multilingual rt (Some t) persona job ==
    raw_relevance rt t persona job /\
  raw_relevance rt t persona job ==
    keyword_component
      (get_keywords_for_language persona job (detect_language rt (Some t))) (lower t)
    + inject_Z (_calculate_structure_score (lower t) (detect_language rt (Some t)))
    + inject_Z (_calculate_quality_score rt t (detect_language rt (Some t)) persona) /\
  0 <= raw_relevance rt t persona job <= 70.
Proof.
  intros Hmodel Hlen.
  assert (Hsim : forall keywords, similarity_component rt t persona job keywords = 0)
    by (intros; unfold similarity_component; now rewrite Hmodel).
  assert (Hrange : 0 <= raw_relevance rt t persona job <= 0 + 70).
  { apply raw_relevance_range. cbv zeta. rewrite Hsim. split; apply Qle_refl. }
  destruct Hrange as [R0 R1].
  split; [|split; [|split; [exact R0 | exact R1]]].
  - rewrite score_of_long_text by exact Hlen.
    rewrite Q.max_r by exact R0.
    apply Q.min_r. apply Qle_trans with (0 + 70); [exact R1 | discriminate].
  - unfold raw_relevance. cbv zeta. rewrite Hsim. ring.
Qed.

Lemma score_without_sentence_model_witness :
  sentence_model english_runtime = None /\
  (10 <= len (strip methodology_text))%nat /\
  calculate_semantic_relevance_multilingual
    english_runtime (Some methodology_text) (u "researcher") (u "literature_review") ==
  raw_relevance english_runtime methodology_text (u "researcher") (u "literature_review").
Proof.
  assert (H : (10 <= len (strip methodology_text))%nat) by (vm_compute; lia).
  split; [reflexivity|]. split; [exact H|].
  exact (proj1 (@score_without_sentence_model
                  english_runtime methodology_text (u "researcher")
                  (u "literature_review") eq_refl H)).
Defined.

(** With a sentence model whose similarities are cosines, between -1 and
    1, the four components sum to at most 100: the upper bound of the
    clamp never acts, and the score is the sum when that is positive and 0
    otherwise. *)
Theorem score_with_cosine_similarity (rt : Runtime) (t persona job : str) :
  (forall model a b similarity,
      sentence_model rt = Some model -> model a b = Some similarity ->
      -(1) <= similarity <= 1) ->
  (10 <= len (strip t))%nat ->
  -(30) <= raw_relevance rt t persona job <= 100 /\
  calculate_semantic_relevance_multilingual rt (Some t) persona job ==
    Qmax 0 (raw_relevance rt t persona job).
Proof.
  intros Hcos Hlen.
  assert (Hsim : forall keywords,
             -(30) <= similarity_component rt t persona job keywords <= 30).
  { intros keywords. unfold similarity_component.
    destruct (sentence_model rt) as [model|] eqn:Hm; [|split; discriminate].
    destruct (model t _) as [similarity|] eqn:Hs; [|split; discriminate].
    destruct (Hcos model _ _ similarity eq_refl Hs) as [L U]. split.
    - setoid_replace (-(30)) with (-(1) * 30) by reflexivity.
      apply Qmult_le_compat_r; [exact L | discriminate].
    - setoid_replace 30 with (1 * 30) at 2 by reflexivity.
      apply Qmult_le_compat_r; [exact U | discriminate]. }
  assert (Hrange : -(30) <= raw_relevance rt t persona job <= 30 + 70)
    by (apply raw_relevance_range; cbv zeta; apply Hsim).
  destruct Hrange as [R0 R1].
  split; [split; [exact R0 | exact R1]|].
  rewrite score_of_long_text by exact Hlen.
  apply Q.min_r. apply Q.max_lub; [discriminate | exact R1].
Qed.

Lemma score_with_cosine_similarity_witness :
  (10 <= len (strip methodology_text))%nat /\
  calculate_semantic_relevance_multilingual
    model_runtime (Some methodology_text) (u "researcher") (u "literature_review") ==
  Qmax 0 (raw_relevance model_runtime methodology_text (u "researcher")
                        (u "literature_review")).
Proof.
  assert (H : (10 <= len (strip methodology_text))%nat) by (vm_compute; lia).
  split; [exact H|].
  refine (proj2 (@score_with_cosine_similarity
                   model_runtime methodology_text (u "researcher")
                   (u "literature_review") _ H)).
  intros model a b similarity Hm Hs. simpl in Hm. injection Hm as <-.
  injection Hs as <-. split; discriminate.
Defined.

(** ** The pattern-based language detection *)

Lemma dict_set_keys (V : Type) (d : dict str V) (k k' : str) (v : V) :
  In k (dict_keys (dict_set str_eqb d k' v)) -> k = k' \/ In k (dict_keys d).
Proof.
  induction d as [|[k0 v0] d IH]; simpl.
  - intros [H | []]. now left.
  - destruct (str_eqb k' k0); simpl; intros [H | H]; auto.
    destruct (IH H); auto.
Qed.

Lemma max_by_value_In (best : str * Q) (d : dict str Q) :
  max_by_value best d = fst best \/ In (max_by_value best d) (dict_keys d).
Proof.
  revert best. induction d as [|kv d IH]; intros best; simpl; [now left|].
  destruct (IH (if Qlt_bool (snd best) (snd kv) then kv else best)) as [H | H];
    [|right; now right].
  rewrite H. destruct (Qlt_bool (snd best) (snd kv)); [right; now left | now left].
Qed.

Lemma lang_scores_keys (text_lower : str) (patterns : dict str char_class)
      (lang_scores : dict str Q) (k : str) :
  In k (dict_keys
          (fold_left
             (fun (lang_scores : dict str Q) (entry : str * char_class) =>
                let (lang, pattern) := entry in
                let matches := findall_count pattern text_lower in
                if 0 <? matches
                then dict_set str_eqb lang_scores lang
                       (inject_Z (Z.of_nat matches) / inject_Z (Z.of_nat (len text_lower)))
                else lang_scores)
             patterns lang_scores)) ->
  In k (dict_keys lang_scores) \/ In k (dict_keys patterns).
Proof.
  revert lang_scores. induction patterns as [|[lang pattern] patterns IH];
    intros lang_scores; simpl; [now left|].
  intros H. apply IH in H. destruct H as [H | H]; [|right; now right].
  destruct (0 <? findall_count pattern text_lower); [|now left].
  apply dict_set_keys in H. destruct H as [-> | H]; [right; now left | now left].
Qed.

(** The pattern-based detection answers with a supported language on
    every text: a language of [LANGUAGE_PATTERNS] that matched, or the
    default "en". *)
Theorem pattern_detection_supported (text : str) :
  is_language_supported (_pattern_based_detection text) = true /\
  In (_pattern_based_detection text) get_supported_languages.
Proof.
  assert (H : In (_pattern_based_detection text) get_supported_languages).
  { unfold _pattern_based_detection. cbv zeta.
    match goal with
    | |- In (match ?scores with [] => _ | _ :: _ => _ end) _ =>
        remember scores as lang_scores eqn:E
    end.
    assert (Hkeys : forall k, In k (dict_keys lang_scores) ->
                              In k (dict_keys LANGUAGE_PATTERNS)).
    { intros k Hk. rewrite E in Hk. apply lang_scores_keys in Hk.
      destruct Hk as [[] | Hk]. exact Hk. }
    clear E. destruct lang_scores as [|first rest]; [simpl; tauto|].
    destruct (max_by_value_In first rest) as [E | E].
    - rewrite E. apply Hkeys. now left.
    - apply Hkeys. now right. }
  split; [|exact H].
  unfold is_language_supported, get_supported_languages in *.
  apply dict_get_keys in H.
  now destruct (dict_get str_eqb LANGUAGE_PATTERNS (_pattern_based_detection text)).
Qed.

Lemma count_runs_all (cls : char_class) (s : str) :
  Forall (fun c => in_class cls c = true) s ->
  count_runs cls true s = 0%nat /\ (s <> [] -> count_runs cls false s = 1%nat).
Proof.
  induction 1 as [|c s Hc Hs [IH _]]; simpl.
  - split; [reflexivity | congruence].
  - rewrite Hc, IH. split; reflexivity.
Qed.

Lemma count_runs_ext (cls cls' : char_class) (s : str) (inside : bool) :
  Forall (fun c => in_class cls c = in_class cls' c) s ->
  count_runs cls inside s = count_runs cls' inside s.
Proof.
  intros H. revert inside. induction H as [|c s Hc Hs IH]; intros inside; simpl.
  - reflexivity.
  - rewrite Hc, !IH. reflexivity.
Qed.

Lemma count_runs_lower (cls : char_class) (s : str) (inside : bool) :
  Forall (fun c => in_class cls (lower_char c) = in_class cls c) s ->
  count_runs cls inside (lower s) = count_runs cls inside s.
Proof.
  intros H. revert inside. induction H as [|c s Hc Hs IH]; intros inside; simpl.
  - reflexivity.
  - rewrite Hc, !IH. reflexivity.
Qed.

Lemma in_class_In (cls : char_class) (item : class_item) (c : N) :
  In item cls -> in_class [item] c = true -> in_class cls c = true.
Proof.
  intros Hin H. unfold in_class in *. apply existsb_exists.
  exists item. split; [exact Hin|]. simpl in H. now rewrite orb_false_r in H.
Qed.

Lemma isspace_range (c : N) : isspace c = true -> (c <= 32 \/ 133 <= c)%N.
Proof.
  unfold isspace. intros H.
  repeat match type of H with
         | _ || _ = true => apply orb_true_iff in H; destruct H as [H | H]
         end;
    repeat match goal with
           | H : _ && _ = true |- _ => apply andb_true_iff in H; destruct H
           | H : (_ <=? _)%N = true |- _ => apply N.leb_le in H
           | H : (_ =? _)%N = true |- _ => apply N.eqb_eq in H
           end; lia.
Qed.

Lemma letter_not_space (c : N) : (65 <= c <= 122)%N -> isspace c = false.
Proof.
  intros H. destruct (isspace c) eqn:E; [|reflexivity].
  apply isspace_range in E. lia.
Qed.

(** A letter of Basic Latin becomes a lower-case letter, a whitespace
    character is kept. *)
Lemma lower_char_letter (c : N) :
  is_ascii_letter c = true ->
  (97 <= lower_char c <= 122)%N /\ isspace c = false.
Proof.
  unfold is_ascii_letter, lower_char. intros H.
  apply orb_true_iff in H. destruct H as [H | H];
    apply andb_true_iff in H; destruct H as [H1 H2];
    apply N.leb_le in H1; apply N.leb_le in H2.
  - replace ((65 <=? c) && (c <=? 90))%N with true
      by (symmetry; apply andb_true_iff; split; apply N.leb_le; lia).
    split; [lia | apply letter_not_space; lia].
  - replace (65 <=? c)%N with true by (symmetry; apply N.leb_le; lia).
    replace (c <=? 90)%N with false by (symmetry; apply N.leb_gt; lia).
    replace (192 <=? c)%N with false by (symmetry; apply N.leb_gt; lia).
    replace (c =? 376)%N with false by (symmetry; apply N.eqb_neq; lia).
    simpl. split; [lia | apply letter_not_space; lia].
Qed.

Lemma lower_char_space (c : N) : isspace c = true -> lower_char c = c.
Proof.
  unfold lower_char, isspace. intros H.
  repeat match type of H with
         | _ || _ = true => apply orb_true_iff in H; destruct H as [H | H]
         end;
    repeat match goal with
           | H : _ && _ = true |- _ => apply andb_true_iff in H; destruct H
           | H : (_ <=? _)%N = true |- _ => apply N.leb_le in H
           | H : (_ =? _)%N = true |- _ => apply N.eqb_eq in H
           end;
    (replace ((65 <=? c) && (c <=? 90))%N with false
      by (symmetry; apply andb_false_iff;
          destruct (N.leb_spec 65 c); [right; apply N.leb_gt; lia | now left]));
    (replace ((192 <=? c) && (c <=? 222) && negb (c =? 215))%N with false
      by (symmetry; apply andb_false_iff; left; apply andb_false_iff;
          destruct (N.leb_spec 192 c); [right; apply N.leb_gt; lia | now left]));
    (replace (c =? 376)%N with false by (symmetry; apply N.eqb_neq; lia));
    reflexivity.
Qed.

Lemma latin_text_lower (text : str) :
  Forall (fun c => is_ascii_letter c = true \/ isspace c = true) text ->
  Forall (fun c => (97 <= c <= 122)%N \/ isspace c = true) (lower text) /\
  whitespace_runs (lower text) = whitespace_runs text.
Proof.
  intros H. split.
  - unfold lower. apply Forall_forall. intros c Hc. apply in_map_iff in Hc.
    destruct Hc as (c0 & <- & Hc0). rewrite Forall_forall in H.
    destruct (H c0 Hc0) as [Hl | Hs].
    + left. now apply lower_char_letter.
    + right. now rewrite lower_char_space.
  - unfold whitespace_runs. apply count_runs_lower.
    eapply Forall_impl; [|exact H]. intros c [Hl | Hs].
    + apply lower_char_letter in Hl as [Hrange Hns].
      unfold in_class. simpl. rewrite Hns, letter_not_space by lia. reflexivity.
    + now rewrite lower_char_space.
Qed.

Lemma latin_class_count (cls : char_class) (s : str) :
  latin_class cls -> s <> [] ->
  Forall (fun c => (97 <= c <= 122)%N \/ isspace c = true) s ->
  findall_count cls s = 1%nat.
Proof.
  intros [Hr Hw] Hne Hs. unfold findall_count. apply count_runs_all; [|exact Hne].
  eapply Forall_impl; [|exact Hs]. intros c [Hc | Hc].
  - apply (in_class_In cls (Range 97 122)); [exact Hr|].
    unfold in_class. simpl. rewrite orb_false_r.
    apply andb_true_iff. split; apply N.leb_le; lia.
  - apply (in_class_In cls Whitespace); [exact Hw|].
    unfold in_class. simpl. now rewrite Hc.
Qed.

Lemma hindi_class_count (s : str) :
  Forall (fun c => (97 <= c <= 122)%N \/ isspace c = true) s ->
  findall_count [Range 2304 2431; Whitespace] s = whitespace_runs s.
Proof.
  intros Hs. unfold findall_count, whitespace_runs. apply count_runs_ext.
  eapply Forall_impl; [|exact Hs]. intros c [Hc | Hc]; unfold in_class; simpl.
  - replace (2304 <=? c)%N with false by (symmetry; apply N.leb_gt; lia). reflexivity.
  - rewrite Hc. now rewrite orb_true_r.
Qed.

(** On a text made of letters of Basic Latin and whitespace only, the
    pattern-based detection answers "hi" as soon as the text has two
    separate runs of whitespace, that is three words, and "en" otherwise:
    the Hindi pattern counts every run of whitespace as a match, the
    patterns of the Latin-script languages count the whole text as one. *)
Theorem pattern_detection_of_latin_text (text : str) :
  text <> [] ->
  Forall (fun c => is_ascii_letter c = true \/ isspace c = true) text ->
  _pattern_based_detection text =
  if (2 <=? whitespace_runs text)%nat then u "hi" else u "en".
Proof.
  intros Hne Htext.
  destruct (latin_text_lower Htext) as [Hlower Hruns].
  assert (Hne' : lower text <> []) by (destruct text; [congruence | discriminate]).
  unfold _pattern_based_detection, LANGUAGE_PATTERNS. cbv zeta. cbn [fold_left].
  rewrite !latin_class_count by
      (try exact Hne'; try exact Hlower; split; simpl; tauto).
  rewrite hindi_class_count by exact Hlower. rewrite Hruns.
  rewrite !latin_class_count by
      (try exact Hne'; try exact Hlower; split; simpl; tauto).
  remember (inject_Z (Z.of_nat (len (lower text)))) as n eqn:En.
  assert (Hn : 0 < n).
  { subst n. rewrite <- (Zlt_Qlt 0). destruct (lower text); [congruence | simpl; lia]. }
  remember (inject_Z (Z.of_nat 1) / n) as q1 eqn:E1.
  remember (whitespace_runs text) as w eqn:Ew.
  assert (Hirr : forall q, Qlt_bool q q = false)
    by (intros q; apply Qlt_bool_false_iff, Qle_refl).
  change (0 <? 1)%nat with true. cbv iota.
  destruct w as [|[|w]].
  - change (0 <? 0)%nat with false. cbv iota.
    cbn. rewrite !Hirr. reflexivity.
  - change (0 <? 1)%nat with true. cbv iota. rewrite <- E1.
    cbn. rewrite !Hirr. reflexivity.
  - change (0 <? S (S w))%nat with true. cbv iota.
    remember (inject_Z (Z.of_nat (S (S w))) / n) as qw eqn:Eq.
    assert (Hlt : q1 < qw).
    { subst q1 qw. unfold Qdiv. apply Qmult_lt_compat_r; [now apply Qinv_lt_0_compat|].
      rewrite <- Zlt_Qlt. lia. }
    assert (Hup : Qlt_bool q1 qw = true) by now apply Qlt_bool_iff.
    assert (Hdown : Qlt_bool qw q1 = false)
      by (apply Qlt_bool_false_iff; now apply Qlt_le_weak).
    cbn. rewrite !Hirr.
    repeat (cbn [fst snd]; first [rewrite Hup | rewrite Hdown]).
    reflexivity.
Qed.

Lemma pattern_detection_of_latin_text_witness :
  u "a b c" <> [] /\
  _pattern_based_detection (u "a b c") =
  if (2 <=? whitespace_runs (u "a b c"))%nat then u "hi" else u "en".
Proof.
  assert (H : u "a b c" <> []) by (vm_compute; discriminate).
  split; [exact H|].
  apply (pattern_detection_of_latin_text H).
  repeat constructor; vm_compute; tauto.
Defined.

(** ** Trimming *)

Lemma lstrip_head (s : str) :
  lstrip s = [] \/ exists c r, lstrip s = c :: r /\ isspace c = false.
Proof.
  induction s as [|c s IH]; simpl; [now left|].
  destruct (isspace c) eqn:E; [exact IH|].
  right. exists c, s. now split.
Qed.

Lemma lstrip_idempotent (s : str) : lstrip (lstrip s) = lstrip s.
Proof.
  destruct (lstrip_head s) as [-> | (c & r & -> & Hc)]; [reflexivity|].
  simpl. now rewrite Hc.
Qed.

Lemma lstrip_keeps_last (l : str) (c : N) :
  isspace c = false -> exists l', lstrip (l ++ [c]) = l' ++ [c].
Proof.
  intros Hc. induction l as [|x l IH]; simpl.
  - rewrite Hc. now exists [].
  - destruct (isspace x); [exact IH|]. now exists (x :: l).
Qed.

Lemma rstrip_idempotent (s : str) : rstrip (rstrip s) = rstrip s.
Proof.
  unfold rstrip. now rewrite rev_involutive, lstrip_idempotent.
Qed.

Lemma rstrip_keeps_head (c : N) (r : str) :
  isspace c = false -> exists r', rstrip (c :: r) = c :: r'.
Proof.
  intros Hc. unfold rstrip. simpl.
  destruct (@lstrip_keeps_last (rev r) c Hc) as [l' ->].
  rewrite rev_app_distr. simpl. now exists (rev l').
Qed.

(** A trimmed text is left as it is by [strip]. *)
Lemma strip_idempotent (s : str) : strip (strip s) = strip s.
Proof.
  unfold strip.
  destruct (lstrip_head s) as [-> | (c & r & -> & Hc)]; [reflexivity|].
  destruct (@rstrip_keeps_head c r Hc) as [r' E].
  rewrite E. simpl. rewrite Hc. rewrite <- E. apply rstrip_idempotent.
Qed.

(** ** The extractor *)

Lemma set_update_one (s : list str) (x : str) :
  In x (set_update s [x]) /\ incl s (set_update s [x]).
Proof.
  unfold set_update. simpl. destruct (str_in x s) eqn:E.
  - split; [now apply str_in_In | apply incl_refl].
  - split; [apply in_or_app; right; now left | now apply incl_appl, incl_refl].
Qed.

Lemma set_update_one_inv (s : list str) (x y : str) :
  In y (set_update s [x]) -> In y s \/ y = x.
Proof.
  unfold set_update. simpl. destruct (str_in x s); [now left|].
  intros H. apply in_app_or in H. destruct H as [H | [<- | []]]; auto.
Qed.

Section ExtractionFacts.
Variable decimal : N -> bool.
Variable rt : Runtime.

Lemma block_invariant_incl (languages languages' : list str) (block : TextBlock.t) :
  incl languages languages' ->
  block_invariant rt languages block -> block_invariant rt languages' block.
Proof.
  intros Hincl (H1 & H2 & H3 & H4). repeat split; auto.
Qed.

Lemma read_line_invariant (number : nat) (page_content : Page.t) (known : list str)
      (line : Fitz.line) :
  Page.page_number page_content = number ->
  page_invariant decimal rt known page_content ->
  let (page_content', known') :=
    DocumentExtractor.read_line decimal rt (page_content, known) line in
  Page.page_number page_content' = number /\
  page_invariant decimal rt known' page_content' /\
  incl known known'.
Proof.
  intros Hnum Hinv. unfold DocumentExtractor.read_line.
  destruct (DocumentExtractor.read_spans line) as [line_text line_spans].
  destruct (strip line_text) as [|c t] eqn:Et;
    [split; [exact Hnum | split; [exact Hinv | apply incl_refl]]|].
  destruct line_spans as [|primary_span rest];
    [split; [exact Hnum | split; [exact Hinv | apply incl_refl]]|].
  destruct Hinv as (Hh & Hb & Hblocks & Hknown).
  assert (Hstrip : strip (c :: t) = c :: t)
    by (pose proof (strip_idempotent line_text) as Hs; rewrite Et in Hs; exact Hs).
  set (lang := detect_language rt (Some (c :: t))).
  set (block := {| TextBlock.text := c :: t;
                   TextBlock.font_size := _ |}).
  destruct (set_update_one (Page.languages page_content) lang) as [Hin Hincl].
  destruct (set_update_one known lang) as [Hin' Hincl'].
  split; [exact Hnum|]. split; [|exact Hincl'].
  unfold page_invariant. cbn [Page.headings Page.body_text Page.text_blocks Page.languages].
  rewrite !filter_app. cbn [filter].
  split; [|split; [|split]].
  - destruct (_is_heading_advanced decimal block); [now rewrite Hh|].
    now rewrite app_nil_r.
  - destruct (_is_heading_advanced decimal block); cbn [negb]; [|now rewrite Hb].
    now rewrite app_nil_r.
  - apply Forall_app. split.
    + eapply Forall_impl; [|exact Hblocks]. intros b. now apply block_invariant_incl.
    + constructor; [|constructor]. unfold block_invariant. cbn [TextBlock.text TextBlock.language].
      repeat split.
      * discriminate.
      * exact Hstrip.
      * exact Hin.
  - intros x Hx. apply set_update_one_inv in Hx.
    destruct Hx as [Hx | ->]; [apply Hincl', Hknown, Hx | exact Hin'].
Qed.

Lemma read_lines_invariant (number : nat) (lines : list Fitz.line)
      (page_content : Page.t) (known : list str) :
  Page.page_number page_content = number ->
  page_invariant decimal rt known page_content ->
  let (page_content', known') :=
    fold_left (DocumentExtractor.read_line decimal rt) lines (page_content, known) in
  Page.page_number page_content' = number /\
  page_invariant decimal rt known' page_content' /\
  incl known known'.
Proof.
  revert page_content known. induction lines as [|line lines IH];
    intros page_content known Hnum Hinv; cbn [fold_left].
  - split; [exact Hnum | split; [exact Hinv | apply incl_refl]].
  - pose proof (@read_line_invariant number page_content known line Hnum Hinv) as H.
    destruct (DocumentExtractor.read_line decimal rt (page_content, known) line)
      as [page1 known1].
    destruct H as (Hnum1 & Hinv1 & Hincl1).
    specialize (IH page1 known1 Hnum1 Hinv1).
    destruct (fold_left _ lines (page1, known1)) as [page2 known2].
    destruct IH as (Hnum2 & Hinv2 & Hincl2).
    split; [exact Hnum2 | split; [exact Hinv2 | eapply incl_tran; eassumption]].
Qed.

Lemma read_blocks_invariant (number : nat) (blocks : list Fitz.block)
      (page_content : Page.t) (known : list str) :
  Page.page_number page_content = number ->
  page_invariant decimal rt known page_content ->
  let (page_content', known') :=
    fold_left (DocumentExtractor.read_block decimal rt) blocks (page_content, known) in
  Page.page_number page_content' = number /\
  page_invariant decimal rt known' page_content' /\
  incl known known'.
Proof.
  revert page_content known. induction blocks as [|block blocks IH];
    intros page_content known Hnum Hinv; cbn [fold_left].
  - split; [exact Hnum | split; [exact Hinv | apply incl_refl]].
  - assert (H : let (page1, known1) :=
                  DocumentExtractor.read_block decimal rt (page_content, known) block in
                Page.page_number page1 = number /\
                page_invariant decimal rt known1 page1 /\ incl known known1).
    { unfold DocumentExtractor.read_block. destruct (Fitz.lines block) as [lines|].
      - now apply read_lines_invariant.
      - split; [exact Hnum | split; [exact Hinv | apply incl_refl]]. }
    destruct (DocumentExtractor.read_block decimal rt (page_content, known) block)
      as [page1 known1].
    destruct H as (Hnum1 & Hinv1 & Hincl1).
    specialize (IH page1 known1 Hnum1 Hinv1).
    destruct (fold_left _ blocks (page1, known1)) as [page2 known2].
    destruct IH as (Hnum2 & Hinv2 & Hincl2).
    split; [exact Hnum2 | split; [exact Hinv2 | eapply incl_tran; eassumption]].
Qed.

Lemma page_invariant_incl (known known' : list str) (page_content : Page.t) :
  incl known known' ->
  page_invariant decimal rt known page_content ->
  page_invariant decimal rt known' page_content.
Proof.
  intros Hincl (H1 & H2 & H3 & H4). repeat split; auto.
  eapply incl_tran; eassumption.
Qed.

Lemma read_pages_invariant (doc : list Fitz.page) (page_num : nat)
      (pages : list Page.t) (known : list str) :
  Forall (page_invariant decimal rt known) pages ->
  let (pages', known') := DocumentExtractor.read_pages decimal rt page_num doc pages known in
  Forall (page_invariant decimal rt known') pages' /\
  map Page.page_number pages' =
    map Page.page_number pages ++ seq (S page_num) (List.length doc) /\
  incl known known'.
Proof.
  revert page_num pages known. induction doc as [|page doc IH];
    intros page_num pages known Hpages; cbn [DocumentExtractor.read_pages List.length seq].
  - rewrite app_nil_r. split; [exact Hpages | split; [reflexivity | apply incl_refl]].
  - unfold DocumentExtractor.read_page.
    set (fresh := {| Page.page_number := page_num + 1; Page.text_blocks := [] |}).
    assert (Hfresh : page_invariant decimal rt known fresh)
      by (repeat split; try constructor; intros x []).
    pose proof (@read_blocks_invariant (page_num + 1) (Fitz.blocks page) fresh known
                                       eq_refl Hfresh) as H.
    destruct (fold_left _ (Fitz.blocks page) (fresh, known)) as [page1 known1].
    destruct H as (Hnum1 & Hinv1 & Hincl1).
    assert (Hpages1 : Forall (page_invariant decimal rt known1) (pages ++ [page1])).
    { apply Forall_app. split; [|constructor; [exact Hinv1 | constructor]].
      eapply Forall_impl; [|exact Hpages]. intros p. now apply page_invariant_incl. }
    specialize (IH (S page_num) (pages ++ [page1]) known1 Hpages1).
    destruct (DocumentExtractor.read_pages decimal rt (S page_num) doc (pages ++ [page1])
                                           known1) as [pages2 known2].
    destruct IH as (Hall & Hnums & Hincl2).
    split; [exact Hall|]. split; [|eapply incl_tran; eassumption].
    rewrite Hnums, map_app, <- app_assoc. simpl. rewrite Hnum1.
    now replace (page_num + 1)%nat with (S page_num) by lia.
Qed.
End ExtractionFacts.

Lemma extracted_content_invariant (decimal : N -> bool) (rt : Runtime)
      (doc : list Fitz.page) :
  let content := DocumentExtractor.extract_document_content_multilingual decimal rt (Some doc) in
  exists known,
    Content.metadata content =
      Some {| Content.filename := None;
              Content.total_pages := Some (List.length doc);
              Content.detected_languages := Some known |} /\
    Forall (page_invariant decimal rt known) (Content.pages content) /\
    map Page.page_number (Content.pages content) = seq 1 (List.length doc).
Proof.
  unfold DocumentExtractor.extract_document_content_multilingual.
  pose proof (@read_pages_invariant decimal rt doc 0 [] [] (Forall_nil _)) as H.
  destruct (DocumentExtractor.read_pages decimal rt 0 doc [] []) as [pages known].
  destruct H as (Hall & Hnums & _). exists known. repeat split; assumption.
Qed.

Lemma filter_partition_length (A : Type) (p : A -> bool) (l : list A) :
  List.length l =
  (List.length (filter p l) + List.length (filter (fun x => negb (p x)) l))%nat.
Proof.
  induction l as [|x l IH]; [reflexivity|].
  simpl. destruct (p x); simpl; lia.
Qed.

(** On every page of an extracted document the headings are the text
    blocks that pass the heading test and the body blocks are the ones
    that fail it, both in the order of the page: a block is in exactly one
    of the two lists. *)
Theorem extracted_blocks_classified (decimal : N -> bool) (rt : Runtime)
        (doc : option (list Fitz.page)) :
  Forall (fun page_content =>
            Page.headings page_content =
              filter (_is_heading_advanced decimal) (Page.text_blocks page_content) /\
            Page.body_text page_content =
              filter (fun block => negb (_is_heading_advanced decimal block))
                     (Page.text_blocks page_content) /\
            List.length (Page.text_blocks page_content) =
              (List.length (Page.headings page_content)
               + List.length (Page.body_text page_content))%nat)
         (Content.pages
            (DocumentExtractor.extract_document_content_multilingual decimal rt doc)).
Proof.
  destruct doc as [doc|]; [|constructor].
  destruct (extracted_content_invariant decimal rt doc) as (known & _ & Hall & _).
  eapply Forall_impl; [|exact Hall].
  intros page_content (Hh & Hb & _). split; [exact Hh|]. split; [exact Hb|].
  rewrite Hh, Hb. apply filter_partition_length.
Qed.

(** Every text block of an extracted document has a text that is not
    empty and is trimmed, and carries as its language the one detected on
    that text; that language is among the languages of its page, and the
    languages of every page are among the detected languages of the
    document. *)
Theorem extracted_blocks_trimmed_and_tagged (decimal : N -> bool) (rt : Runtime)
        (doc : list Fitz.page) :
  let content :=
    DocumentExtractor.extract_document_content_multilingual decimal rt (Some doc) in
  exists detected_languages,
    option_map Content.detected_languages (Content.metadata content) =
      Some (Some detected_languages) /\
    Forall (fun page_content =>
              incl (Page.languages page_content) detected_languages /\
              Forall (fun block =>
                        TextBlock.text block <> [] /\
                        strip (TextBlock.text block) = TextBlock.text block /\
                        TextBlock.language block =
                          Some (detect_language rt (Some (TextBlock.text block))) /\
                        In (detect_language rt (Some (TextBlock.text block)))
                           (Page.languages page_content))
                     (Page.text_blocks page_content))
           (Content.pages content).
Proof.
  destruct (extracted_content_invariant decimal rt doc) as (known & Hmeta & Hall & _).
  cbv zeta. exists known. split; [now rewrite Hmeta|].
  eapply Forall_impl; [|exact Hall].
  intros page_content (_ & _ & Hblocks & Hincl). split; [exact Hincl | exact Hblocks].
Qed.

(** The pages of an extracted document are numbered 1, 2, ... in order, as
    many as the document has, and the metadata records that count as
    [total_pages]. *)
Theorem extracted_pages_numbered (decimal : N -> bool) (rt : Runtime)
        (doc : list Fitz.page) :
  let content :=
    DocumentExtractor.extract_document_content_multilingual decimal rt (Some doc) in
  map Page.page_number (Content.pages content) = seq 1 (List.length doc) /\
  List.length (Content.pages content) = List.length doc /\
  option_map Content.total_pages (Content.metadata content) =
    Some (Some (List.length (Content.pages content))).
Proof.
  destruct (extracted_content_invariant decimal rt doc) as (known & Hmeta & _ & Hnums).
  cbv zeta.
  set (content := DocumentExtractor.extract_document_content_multilingual _ _ _) in *.
  assert (Hlen : List.length (Content.pages content) = List.length doc).
  { rewrite <- (length_map Page.page_number), Hnums. apply length_seq. }
  split; [exact Hnums|]. split; [exact Hlen|].
  rewrite Hmeta, Hlen; reflexivity.
Qed.

(** ** Headings *)

Lemma heading_length (decimal : N -> bool) (block : TextBlock.t) :
  _is_heading_advanced decimal block = true ->
  (3 <= len (TextBlock.text block) <= 200)%nat.
Proof.
  unfold _is_heading_advanced.
  destruct (len (TextBlock.text block) <? 3) eqn:E1; [discriminate|].
  destruct (200 <? len (TextBlock.text block)) eqn:E2; [discriminate|].
  apply Nat.ltb_ge in E1, E2. lia.
Qed.

Lemma heading_by_keyword (decimal : N -> bool) (block : TextBlock.t) (keyword : str) :
  (3 <= len (TextBlock.text block) <= 200)%nat ->
  In keyword HEADING_KEYWORDS ->
  contains keyword (lower (TextBlock.text block)) = true ->
  _is_heading_advanced decimal block = true.
Proof.
  intros Hlen Hin Hcontains. unfold _is_heading_advanced.
  replace (len (TextBlock.text block) <? 3) with false
    by (symmetry; apply Nat.ltb_ge; lia).
  replace (200 <? len (TextBlock.text block)) with false
    by (symmetry; apply Nat.ltb_ge; lia).
  cbn [orb].
  destruct (Qlt_bool 12 (TextBlock.font_size block) && TextBlock.is_bold block);
    [reflexivity|].
  destruct (existsb _ HEADING_PATTERNS); [reflexivity|].
  replace (existsb _ HEADING_KEYWORDS) with true; [reflexivity|].
  symmetry. apply existsb_exists. exists keyword. now split.
Qed.

(** In an extracted document every heading has between 3 and 200
    characters, and every text block of that length that is bold and whose
    recorded font size, the size of its primary span rounded to one
    decimal, is above 12 is among the headings of its page, none among its
    body blocks. *)
Theorem extracted_headings (decimal : N -> bool) (rt : Runtime)
        (doc : option (list Fitz.page)) :
  Forall (fun page_content =>
            Forall (fun heading => (3 <= len (TextBlock.text heading) <= 200)%nat)
                   (Page.headings page_content) /\
            incl (filter prominent (Page.text_blocks page_content))
                 (Page.headings page_content) /\
            filter prominent (Page.body_text page_content) = [])
         (Content.pages
            (DocumentExtractor.extract_document_content_multilingual decimal rt doc)).
Proof.
  destruct doc as [doc|]; [|constructor].
  destruct (extracted_content_invariant decimal rt doc) as (known & _ & Hall & _).
  eapply Forall_impl; [|exact Hall].
  intros page_content (Hh & Hb & _).
  assert (Hprominent : forall block, prominent block = true ->
                                     _is_heading_advanced decimal block = true).
  { intros block H. unfold prominent, within in H.
    apply andb_true_iff in H as [H Hbold]. apply andb_true_iff in H as [H Hsize].
    apply andb_true_iff in H as [H3 H200].
    apply Nat.leb_le in H3, H200. unfold _is_heading_advanced.
    replace (len (TextBlock.text block) <? 3) with false
      by (symmetry; apply Nat.ltb_ge; lia).
    replace (200 <? len (TextBlock.text block)) with false
      by (symmetry; apply Nat.ltb_ge; lia).
    now rewrite Hsize, Hbold. }
  split; [|split].
  - rewrite Hh. apply Forall_forall. intros heading Hin.
    apply filter_In in Hin as [_ Hin]. now apply heading_length in Hin.
  - intros block Hin. apply filter_In in Hin as [Hin Hp].
    rewrite Hh. apply filter_In. split; [exact Hin | now apply Hprominent].
  - rewrite Hb. clear Hh Hb. induction (Page.text_blocks page_content) as [|block blocks IH];
      [reflexivity|].
    simpl. destruct (_is_heading_advanced decimal block) eqn:E; simpl; [exact IH|].
    destruct (prominent block) eqn:Ep; [|exact IH].
    apply Hprominent in Ep. congruence.
Qed.

(** A block of 3 to 200 characters that is not a heading holds none of
    the English section tokens, which are all heading keywords: its
    structural component is 0 when the language is English or has no
    section list of its own. *)
Theorem body_block_has_no_structure (decimal : N -> bool) (block : TextBlock.t)
        (language : str) :
  _is_heading_advanced decimal block = false ->
  (3 <= len (TextBlock.text block) <= 200)%nat ->
  language = u "en" \/ dict_get str_eqb SECTION_KEYWORDS language = None ->
  _calculate_structure_score (lower (TextBlock.text block)) language = 0%Z.
Proof.
  intros Hbody Hlen Hlang.
  assert (Hnone : forall keyword, In keyword HEADING_KEYWORDS ->
                                  contains keyword (lower (TextBlock.text block)) = false).
  { intros keyword Hin.
    destruct (contains keyword (lower (TextBlock.text block))) eqn:E; [|reflexivity].
    rewrite (@heading_by_keyword decimal block keyword Hlen Hin E) in Hbody.
    discriminate. }
  unfold _calculate_structure_score.
  assert (Htokens :
    dict_get_default str_eqb SECTION_KEYWORDS language
      (dict_get_default str_eqb SECTION_KEYWORDS (u "en") []) =
    [u "introduction"; u "methodology"; u "results"; u "discussion"; u "conclusion"]).
  { destruct Hlang as [-> | Hnone']; [reflexivity|].
    unfold dict_get_default at 1. now rewrite Hnone'. }
  rewrite Htokens. cbn [fold_left].
  rewrite !Hnone by (unfold HEADING_KEYWORDS; simpl; tauto).
  reflexivity.
Qed.

Lemma body_block_has_no_structure_witness :
  _is_heading_advanced ascii_digit sample_paragraph = false /\
  _calculate_structure_score (lower (TextBlock.text sample_paragraph)) (u "it") = 0%Z.
Proof.
  assert (H : _is_heading_advanced ascii_digit sample_paragraph = false)
    by (vm_compute; reflexivity).
  split; [exact H|].
  apply (@body_block_has_no_structure ascii_digit sample_paragraph (u "it") H).
  - vm_compute. lia.
  - right. reflexivity.
Defined.

(** ** Section extraction under any clock *)

Lemma relevance_range (rt : Runtime) (text : option str) (persona job : str) :
  0 <= calculate_semantic_relevance_multilingual rt text persona job <= 100.
Proof.
  unfold calculate_semantic_relevance_multilingual.
  destruct text as [t|]; [|split; discriminate].
  destruct (too_short 10 (Some t)); [split; discriminate|].
  apply clamp_bounds.
Qed.

Lemma round_half_even_bounds (x : Q) (lo hi : Z) :
  inject_Z lo <= x -> x <= inject_Z hi -> (lo <= round_half_even x <= hi)%Z.
Proof.
  intros Hlo Hhi.
  assert (Hf : (lo <= Qfloor x)%Z).
  { rewrite <- (Qfloor_Z lo). now apply Qfloor_resp_le. }
  assert (Hg : (Qfloor x <= hi)%Z).
  { rewrite <- (Qfloor_Z hi). now apply Qfloor_resp_le. }
  assert (Hne : 1 # 2 <= x - inject_Z (Qfloor x) -> (Qfloor x < hi)%Z).
  { intros H. destruct (Z.eq_dec (Qfloor x) hi) as [E | E]; [|lia].
    exfalso. rewrite E in H.
    assert (H0 : x - inject_Z hi <= 0).
    { apply (Qplus_le_l _ _ (inject_Z hi)). ring_simplify. exact Hhi. }
    apply (Qle_not_lt _ _ (Qle_trans _ _ _ H H0)). reflexivity. }
  unfold round_half_even.
  destruct (x - inject_Z (Qfloor x) ?= 1 # 2) eqn:C.
  - apply Qeq_alt in C.
    assert (H : 1 # 2 <= x - inject_Z (Qfloor x)) by (rewrite C; apply Qle_refl).
    apply Hne in H. destruct (Z.even (Qfloor x)); lia.
  - lia.
  - apply Qgt_alt in C. apply Qlt_le_weak, Hne in C. lia.
Qed.

Lemma round2_bounds (x : Q) (lo hi : Z) :
  inject_Z lo <= x -> x <= inject_Z hi -> inject_Z lo <= round2 x <= inject_Z hi.
Proof.
  intros Hlo Hhi.
  destruct (@round_half_even_bounds (x * 100) (lo * 100) (hi * 100)) as [H1 H2].
  - rewrite inject_Z_mult. apply Qmult_le_compat_r; [exact Hlo | discriminate].
  - rewrite inject_Z_mult. apply Qmult_le_compat_r; [exact Hhi | discriminate].
  - unfold round2. split.
    + apply Qle_shift_div_l; [reflexivity|].
      rewrite Zle_Qle, inject_Z_mult in H1. exact H1.
    + apply Qle_shift_div_r; [reflexivity|].
      rewrite Zle_Qle, inject_Z_mult in H2. exact H2.
Qed.

(** What every extracted section is known to hold. *)
Lemma extracted_sections_described (rt : Runtime) (content : Content.t)
      (persona job : str) (n : nat) :
  Forall (fun section =>
            complete_section section /\
            Entry.document section = Some (content_filename content) /\
            (exists page_content,
                In page_content (Content.pages content) /\
                Entry.page section = Some (Page.page_number page_content)) /\
            exists score,
              Entry.relevance_score section = Some score /\ 15 <= score <= 100)
         (fst (extract_relevant_sections_multilingual rt content persona job n)).
Proof.
  unfold extract_relevant_sections_multilingual.
  apply pages_loop_invariant; [| |apply incl_refl|constructor].
  - intros page_content heading Hp _ Hs.
    split; [unfold complete_section; cbn; repeat split; discriminate|].
    split; [reflexivity|]. split; [exists page_content; now split|].
    eexists. split; [reflexivity|].
    apply (@round2_bounds _ 15 100); [now apply Qlt_le_weak|].
    apply relevance_range.
  - intros page_content text_block Hp _ Hs.
    split; [unfold complete_section; cbn; repeat split; discriminate|].
    split; [reflexivity|]. split; [exists page_content; now split|].
    eexists. split; [reflexivity|].
    apply (@round2_bounds _ 15 100); [|apply relevance_range].
    apply Qlt_le_weak, Qlt_trans with 20; [reflexivity | exact Hs].
Qed.

(** Whatever the clock reads, the sections extracted from a document are
    among those its two thresholds admit; each has the eight keys of a
    section, the file name of the document, the number of one of its pages,
    and a stored score between 15 and 100. *)
Theorem extracted_sections_sound (rt : Runtime) (content : Content.t)
        (persona job : str) (n : nat) :
  let sections := fst (extract_relevant_sections_multilingual rt content persona job n) in
  incl sections (admitted_sections rt content persona job) /\
  Forall (fun section =>
            complete_section section /\
            Entry.document section = Some (content_filename content) /\
            (exists page_content,
                In page_content (Content.pages content) /\
                Entry.page section = Some (Page.page_number page_content)) /\
            exists score,
              Entry.relevance_score section = Some score /\ 15 <= score <= 100)
         sections.
Proof.
  cbv zeta. split; [|apply extracted_sections_described].
  intros section. revert section. apply Forall_forall.
  unfold extract_relevant_sections_multilingual.
  apply pages_loop_invariant; [| |apply incl_refl|constructor].
  - intros page_content heading Hp Hh Hs. unfold admitted_sections.
    apply in_flat_map. exists page_content. split; [exact Hp|].
    apply in_or_app. left. apply in_map. apply filter_In. split; [exact Hh|].
    destruct (Qlt_le_dec 15 _) as [_ | Hle]; [reflexivity|].
    exfalso. exact (Qlt_not_le _ _ Hs Hle).
  - intros page_content text_block Hp Hb Hs. unfold admitted_sections.
    apply in_flat_map. exists page_content. split; [exact Hp|].
    apply in_or_app. right. apply in_map. apply filter_In. split; [exact Hb|].
    destruct (Qlt_le_dec 20 _) as [_ | Hle]; [reflexivity|].
    exfalso. exact (Qlt_not_le _ _ Hs Hle).
Qed.

(** ** Past the time limit *)

Lemma check_time_limit_expired (rt : Runtime) (n : nat) :
  out_of_time rt -> check_time_limit rt n = (false, S n).
Proof.
  intros H. unfold check_time_limit. f_equal.
  apply negb_false_iff. apply Qlt_bool_iff. apply H.
Qed.

Lemma pages_loop_expired (rt : Runtime) (content : Content.t) (persona job : str)
      (pages : list Page.t) (acc : list Entry.t) (n : nat) :
  out_of_time rt -> fst (pages_loop rt content persona job pages acc n) = acc.
Proof.
  intros H. revert acc n. induction pages as [|page_content rest IH]; intros acc n;
    [reflexivity|].
  cbn [pages_loop].
  assert (Hh : forall headings k,
             fst (headings_loop rt content persona job page_content headings acc k) = acc).
  { intros [|heading headings] k; [reflexivity|].
    cbn [headings_loop]. now rewrite check_time_limit_expired. }
  specialize (Hh (Page.headings page_content) n).
  destruct (headings_loop rt content persona job page_content
                          (Page.headings page_content) acc n) as [acc1 n1].
  cbn [fst] in Hh. subst acc1.
  assert (Hb : forall body_text k,
             fst (body_text_loop rt content persona job page_content body_text acc k) = acc).
  { intros [|text_block body_text] k; [reflexivity|].
    cbn [body_text_loop]. now rewrite check_time_limit_expired. }
  specialize (Hb (Page.body_text page_content) n1).
  destruct (body_text_loop rt content persona job page_content
                           (Page.body_text page_content) acc n1) as [acc2 n2].
  cbn [fst] in Hb. subst acc2. apply IH.
Qed.

Lemma subsections_loop_expired (rt : Runtime) (persona job : str)
      (sections acc : list Entry.t) (n : nat) :
  out_of_time rt ->
  exists n', subsections_loop rt persona job sections acc n = Ok (acc, n').
Proof.
  intros H. destruct sections as [|section rest]; [now exists n|].
  cbn [subsections_loop]. rewrite check_time_limit_expired by exact H.
  now exists (S n).
Qed.

(** Once the clock has passed the 300 seconds, the extraction admits no
    section of any document and the subsection analysis refines none of the
    sections it is given; neither raises. *)
Theorem nothing_selected_out_of_time (rt : Runtime) (content : Content.t)
        (persona job : str) (sections : list Entry.t) (n : nat) :
  out_of_time rt ->
  fst (extract_relevant_sections_multilingual rt content persona job n) = [] /\
  exists n', create_subsection_analysis_advanced rt sections persona job n = Ok ([], n').
Proof.
  intros H. split.
  - unfold extract_relevant_sections_multilingual. now apply pages_loop_expired.
  - unfold create_subsection_analysis_advanced. now apply subsections_loop_expired.
Qed.

Lemma nothing_selected_out_of_time_witness :
  out_of_time late_runtime /\
  fst (extract_relevant_sections_multilingual
         late_runtime sample_content (u "researcher") (u "literature_review") 0) = [] /\
  exists n',
    create_subsection_analysis_advanced
      late_runtime [sample_section "Methods" 50] (u "researcher") (u "literature_review") 0
    = Ok ([], n').
Proof.
  assert (H : out_of_time late_runtime) by (intros k; reflexivity).
  split; [exact H|].
  exact (@nothing_selected_out_of_time late_runtime sample_content (u "researcher")
           (u "literature_review") [sample_section "Methods" 50] 0%nat H).
Defined.

(** A run that starts past the time limit on a directory with PDF files
    reads none of them: its result lists the files, holds no section and no
    subsection, no language, and carries no error. *)
Theorem process_out_of_time (rt : Runtime) (docs_path persona job : str)
        (names : list str) (n : nat) :
  out_of_time rt ->
  path_exists rt docs_path = true ->
  listdir rt docs_path = inl names ->
  pdf_files_of names <> [] ->
  process_documents_multilingual rt docs_path persona job n =
  {| Result.metadata :=
       {| Result.input_documents := pdf_files_of names;
          Result.persona := persona;
          Result.job_to_be_done := job;
          Result.total_sections_found := 0;
          Result.total_subsections_found := 0;
          Result.error := None;
          Result.algorithm_version := u "3.0_multilingual";
          Result.detected_languages := Some [];
          Result.multilingual_support := Some true |};
     Result.extracted_sections := [];
     Result.subsection_analysis := [] |}.
Proof.
  intros H Hexists Hdir Hpdf.
  unfold process_documents_multilingual, process_documents_body.
  rewrite Hexists, Hdir. cbn [negb].
  fold (pdf_files_of names).
  destruct (pdf_files_of names) as [|pdf_file rest]; [contradiction|].
  cbn [documents_loop]. rewrite check_time_limit_expired by exact H.
  reflexivity.
Qed.

Lemma process_out_of_time_witness :
  out_of_time expired_runtime /\
  pdf_files_of [u "paper.pdf"; u "notes.txt"] = [u "paper.pdf"] /\
  Result.error
    (Result.metadata
       (process_documents_multilingual
          expired_runtime (u "input") (u "researcher") (u "literature_review") 0)) = None.
Proof.
  assert (H : out_of_time expired_runtime) by (intros k; reflexivity).
  split; [exact H|]. split; [reflexivity|].
  rewrite (@process_out_of_time expired_runtime (u "input") (u "researcher")
             (u "literature_review") [u "paper.pdf"; u "notes.txt"] 0%nat H
             eq_refl eq_refl);
    [reflexivity | discriminate].
Defined.

(** ** The subsection analysis *)

Lemma too_short_false_inv (n : nat) (t : str) :
  too_short n (Some t) = false -> (n <= len (strip t))%nat.
Proof.
  intros H. destruct (le_lt_dec n (len (strip t))) as [Hle | Hlt]; [exact Hle|].
  assert (E : too_short n (Some t) = true).
  { apply too_short_spec. right. right. exists t. split; [reflexivity | exact Hlt]. }
  congruence.
Qed.

Lemma subsections_loop_described (rt : Runtime) (persona job : str)
      (sections acc : list Entry.t) (n : nat) :
  Forall subscriptable sections ->
  exists created n',
    subsections_loop rt persona job sections acc n = Ok (acc ++ created, n') /\
    (n <= n' <= n + List.length sections)%nat /\
    (List.length created <= List.length sections)%nat /\
    Forall (fun subsection =>
              exists section,
                In section sections /\
                subsection_of rt persona job section subsection /\
                (20 <= len (strip (get (Entry.content section) [])))%nat /\
                Entry.refined_text subsection <> Some [])
           created.
Proof.
  intros Hall. revert acc n.
  induction Hall as [|section rest Hsec Hrest IH]; intros acc n.
  - exists [], n. rewrite app_nil_r. cbn. repeat split; try lia. constructor.
  - assert (Hskip : forall k,
               exists created n',
                 subsections_loop rt persona job rest acc k = Ok (acc ++ created, n') /\
                 (k <= n' <= k + List.length rest)%nat /\
                 (List.length created <= List.length (section :: rest))%nat /\
                 Forall (fun subsection =>
                           exists section0,
                             In section0 (section :: rest) /\
                             subsection_of rt persona job section0 subsection /\
                             (20 <= len (strip (get (Entry.content section0) [])))%nat /\
                             Entry.refined_text subsection <> Some [])
                        created).
    { intros k. destruct (IH acc k) as (created & n' & E & Hn & Hlen & Hc).
      exists created, n'. split; [exact E|]. split; [exact Hn|].
      split; [cbn [List.length]; lia|].
      eapply Forall_impl; [|exact Hc].
      intros sub (s & Hin & Hs). exists s. split; [now right | exact Hs]. }
    cbn [subsections_loop]. unfold check_time_limit.
    destruct (negb (Qlt_bool 300 (elapsed rt n))); cbn [negb].
    + destruct (too_short 20 (Some (get (Entry.content section) []))) eqn:Eshort.
      * destruct (Hskip (S n)) as (created & n' & E & Hn & Hlen & Hc).
        exists created, n'. split; [exact E|]. split; [cbn [List.length]; lia|].
        split; [exact Hlen | exact Hc].
      * destruct (refine_content_for_persona rt (get (Entry.content section) []) persona job)
          as [|c refined] eqn:Eref.
        -- destruct (Hskip (S n)) as (created & n' & E & Hn & Hlen & Hc).
           exists created, n'. split; [exact E|]. split; [cbn [List.length]; lia|].
           split; [exact Hlen | exact Hc].
        -- destruct Hsec as (Hd & Hp & Ht & Hs).
           destruct (Entry.document section) as [document|] eqn:Ed; [|contradiction].
           destruct (Entry.page section) as [page|] eqn:Ep; [|contradiction].
           destruct (Entry.section_title section) as [title|] eqn:Et; [|contradiction].
           destruct (Entry.relevance_score section) as [score|] eqn:Es; [|contradiction].
           cbn [subscript bind].
           match goal with
           | |- context [subsections_loop _ _ _ _ (acc ++ [?sub]) _] => set (subsection := sub)
           end.
           destruct (IH (acc ++ [subsection]) (S n)) as (created & n' & E & Hn & Hlen & Hc).
           exists (subsection :: created), n'.
           split; [rewrite E, <- app_assoc; reflexivity|].
           split; [cbn [List.length]; lia|]. split; [cbn [List.length]; lia|].
           constructor.
           ++ exists section. split; [now left|]. split.
              ** unfold subsection_of, subsection. cbn.
                 rewrite Ed, Ep, Et, Es, Eref. repeat split.
              ** split; [now apply too_short_false_inv|].
                 unfold subsection. cbn. discriminate.
           ++ eapply Forall_impl; [|exact Hc].
              intros sub (s & Hin & Hsub). exists s. split; [now right | exact Hsub].
    + exists [], (S n). rewrite app_nil_r. split; [reflexivity|].
      split; [cbn [List.length]; lia|]. split; [cbn [List.length]; lia | constructor].
Qed.



(** ** What the ranking keeps *)

Lemma filter_perm (A : Type) (p : A -> bool) (l l' : list A) :
  Permutation l l' -> Permutation (filter p l) (filter p l').
Proof.
  induction 1 as [|x l l' H IH|x y l|l l' l'' H1 IH1 H2 IH2]; simpl.
  - constructor.
  - destruct (p x); [now constructor | exact IH].
  - destruct (p x), (p y); try apply Permutation_refl. apply perm_swap.
  - now apply perm_trans with (filter p l').
Qed.

Section TopFacts.
Variable A : Type.
Variable key : A -> Q.

(** The first [k] entries of a list in descending order, and the rest:
    nothing is left when fewer than [k] entries were kept, and what is left
    has keys no higher than those of the entries kept. *)
Lemma top_of_sorted (k : nat) (l : list A) :
  StronglySorted (descending key) l ->
  exists rest,
    l = firstn k l ++ rest /\
    (rest = [] \/ List.length (firstn k l) = k) /\
    Forall (fun y => Forall (fun x => key y <= key x) (firstn k l)) rest.
Proof.
  intros H. exists (skipn k l).
  split; [symmetry; apply firstn_skipn|]. split.
  - destruct (le_lt_dec (List.length l) k) as [Hle | Hlt].
    + left. now apply skipn_all2.
    + right. apply firstn_length_le. lia.
  - rewrite <- (firstn_skipn k l) in H.
    apply Forall_forall. intros y Hy. apply Forall_forall. intros x Hx.
    exact (@sorted_app_dominates A key (firstn k l) (skipn k l) H x y Hx Hy).
Qed.
End TopFacts.

Lemma ranked_top (p : Entry.t -> bool) (k : nat) (l : list Entry.t) :
  let top := firstn k (filter p (sorted_desc score_of l)) in
  (List.length top <= k)%nat /\
  Forall (fun entry => In entry l /\ p entry = true) top /\
  exists rest,
    Permutation (filter p l) (top ++ rest) /\
    (rest = [] \/ List.length top = k) /\
    Forall (fun y => Forall (fun x => score_of y <= score_of x) top) rest.
Proof.
  cbv zeta. split; [apply firstn_le_length|]. split.
  - apply Forall_forall. intros x Hx. apply firstn_incl in Hx.
    apply filter_In in Hx as [Hx Hp]. split; [|exact Hp].
    eapply Permutation_in; [apply sorted_desc_perm | exact Hx].
  - destruct (@top_of_sorted Entry.t score_of k (filter p (sorted_desc score_of l)))
      as (rest & E & Hfull & Hdom); [apply filter_sorted, sorted_desc_sorted|].
    exists rest. split; [|split; assumption].
    rewrite <- E. apply filter_perm, Permutation_sym, sorted_desc_perm.
Qed.

(** The ranking raises only when an entry has no relevance score.  When it
    returns, it returns at most 10 sections and at most 15
    subsections, all taken from its input, the sections with a content of
    50 to 2000 characters and the subsections with a refined text of 30 to
    1000 characters.  The entries of the input that have such a length and
    are left out score no higher than any entry returned, and none is left
    out unless 10 sections, or 15 subsections, are returned. *)
Theorem ranking_keeps_the_best (sections subsections : list Entry.t) :
  match rank_and_filter_results_advanced sections subsections with
  | Ok (top_sections, top_subsections) =>
      ((List.length top_sections <= 10)%nat /\
       Forall (fun section =>
                 In section sections /\
                 (50 <= len (get (Entry.content section) []) <= 2000)%nat)
              top_sections /\
       exists rest,
         Permutation (filter section_length_ok sections) (top_sections ++ rest) /\
         (rest = [] \/ List.length top_sections = 10%nat) /\
         Forall (fun y => Forall (fun x => score_of y <= score_of x) top_sections) rest) /\
      ((List.length top_subsections <= 15)%nat /\
       Forall (fun subsection =>
                 In subsection subsections /\
                 (30 <= len (get (Entry.refined_text subsection) []) <= 1000)%nat)
              top_subsections /\
       exists rest,
         Permutation (filter subsection_length_ok subsections) (top_subsections ++ rest) /\
         (rest = [] \/ List.length top_subsections = 15%nat) /\
         Forall (fun y => Forall (fun x => score_of y <= score_of x) top_subsections) rest)
  | Raise _ =>
      exists entry, In entry (sections ++ subsections) /\ Entry.relevance_score entry = None
  end.
Proof.
  rewrite rank_and_filter_eq.
  destruct (forallb has_key sections && forallb has_key subsections) eqn:Hkeys.
  2:{ apply andb_false_iff in Hkeys as [H | H];
      destruct (forallb_has_key_false _ H) as (x & Hx & Hnone);
      exists x; (split; [apply in_or_app; tauto | exact Hnone]). }
  split.
  - destruct (@ranked_top section_length_ok 10 sections) as (Hlen & Hall & Hrest).
    split; [exact Hlen|]. split; [|exact Hrest].
    eapply Forall_impl; [|exact Hall]. intros x [Hin Hp]. split; [exact Hin|].
    unfold section_length_ok, within in Hp. apply andb_true_iff in Hp as [H1 H2].
    apply Nat.leb_le in H1, H2. now split.
  - destruct (@ranked_top subsection_length_ok 15 subsections) as (Hlen & Hall & Hrest).
    split; [exact Hlen|]. split; [|exact Hrest].
    eapply Forall_impl; [|exact Hall]. intros x [Hin Hp]. split; [exact Hin|].
    unfold subsection_length_ok, within in Hp. apply andb_true_iff in Hp as [H1 H2].
    apply Nat.leb_le in H1, H2. now split.
Qed.

(** ** The run as a whole *)

Lemma mapM_total (A B : Type) (f : A -> res B) (l : list A) :
  Forall (fun x => exists y, f x = Ok y) l -> exists l', mapM f l = Ok l'.
Proof.
  induction 1 as [|x l [y Hy] Hl [l' IH]]; simpl.
  - now exists [].
  - rewrite Hy, IH. simpl. now exists (y :: l').
Qed.

Lemma complete_subscriptable (section : Entry.t) :
  complete_section section -> subscriptable section.
Proof.
  unfold complete_section, subscriptable. tauto.
Qed.

Lemma subscriptable_has_key (l : list Entry.t) :
  Forall (fun entry => Entry.relevance_score entry <> None) l -> forallb has_key l = true.
Proof.
  induction 1 as [|x l Hx Hl IH]; [reflexivity|].
  simpl. rewrite IH. unfold has_key. now destruct (Entry.relevance_score x).
Qed.

Lemma subsection_of_analysable (rt : Runtime) (persona job : str)
      (section subsection : Entry.t) :
  subscriptable section -> subsection_of rt persona job section subsection ->
  analysable subsection.
Proof.
  intros (Hd & Hp & Ht & Hs) (Ed & Ep & Et & Es & Er & Ef & Ea & _).
  unfold analysable. rewrite Ed, Ep, Et, Es, Er, Ef, Ea.
  repeat split; try assumption; discriminate.
Qed.

Lemma documents_loop_described (rt : Runtime) (docs_path persona job : str)
      (pdf_files : list str) (all_sections all_subsections : list Entry.t)
      (detected_languages : list str) (n : nat) :
  Forall complete_section all_sections ->
  Forall analysable all_subsections ->
  match documents_loop rt docs_path persona job pdf_files all_sections all_subsections
                       detected_languages n with
  | Ok (sections, subsections, _, _) =>
      Forall complete_section sections /\ Forall analysable subsections
  | Raise e =>
      e = KeyError "metadata" /\
      exists pdf_file,
        In pdf_file pdf_files /\
        Content.metadata
          (extract_document_content_multilingual rt (path_join docs_path pdf_file)) = None
  end.
Proof.
  revert all_sections all_subsections detected_languages n.
  induction pdf_files as [|pdf_file rest IH]; intros secs subs langs n Hsecs Hsubs.
  - now split.
  - cbn [documents_loop]. destruct (check_time_limit rt n) as [in_time n1].
    destruct in_time; cbn [negb]; [|now split].
    destruct (Content.metadata
                (extract_document_content_multilingual rt (path_join docs_path pdf_file)))
      as [metadata|] eqn:Emeta.
    2:{ cbn [subscript bind]. split; [reflexivity|].
        exists pdf_file. split; [now left | exact Emeta]. }
    cbn [subscript bind].
    match goal with
    | |- context [extract_relevant_sections_multilingual rt ?c persona job n1] =>
        pose proof (@extracted_sections_described rt c persona job n1) as Hx;
        destruct (extract_relevant_sections_multilingual rt c persona job n1)
          as [sections n2]
    end.
    cbn [fst] in Hx.
    assert (Hcomplete : Forall complete_section sections).
    { eapply Forall_impl; [|exact Hx]. intros s Hs. apply Hs. }
    assert (Hsub : Forall subscriptable sections).
    { eapply Forall_impl; [|exact Hcomplete]. apply complete_subscriptable. }
    unfold create_subsection_analysis_advanced.
    destruct (@subsections_loop_described rt persona job sections [] n2 Hsub)
      as (created & n3 & E & _ & _ & Hcreated).
    rewrite E. cbn [bind app].
    specialize (IH (secs ++ sections) (subs ++ created)
                   (set_update langs
                      (get (Content.detected_languages
                              {| Content.filename := Some pdf_file;
                                 Content.total_pages := Content.total_pages metadata;
                                 Content.detected_languages :=
                                   Content.detected_languages metadata |}) []))
                   n3).
    destruct (documents_loop rt docs_path persona job rest (secs ++ sections)
                             (subs ++ created) _ n3) as [[[[s1 s2] s3] s4]|e].
    + apply IH.
      * apply Forall_app. now split.
      * apply Forall_app. split; [exact Hsubs|].
        rewrite Forall_forall in Hcreated, Hsub. apply Forall_forall.
        intros sub Hin. destruct (Hcreated sub Hin) as (s & Hs & Hof & _).
        eapply subsection_of_analysable; [apply Hsub; exact Hs | exact Hof].
    + destruct IH as (He & pdf & Hin & Hnone).
      * apply Forall_app. now split.
      * apply Forall_app. split; [exact Hsubs|].
        rewrite Forall_forall in Hcreated, Hsub. apply Forall_forall.
        intros sub Hin. destruct (Hcreated sub Hin) as (s & Hs & Hof & _).
        eapply subsection_of_analysable; [apply Hsub; exact Hs | exact Hof].
      * split; [exact He|]. exists pdf. split; [now right | exact Hnone].
Qed.

Lemma extracted_section_total (rt : Runtime) (persona job : str) (i : nat)
      (section : Entry.t) :
  subscriptable section -> exists entry, extracted_section rt persona job i section = Ok entry.
Proof.
  intros (Hd & Hp & Ht & Hs). unfold extracted_section.
  destruct (Entry.document section); [|contradiction].
  destruct (Entry.page section); [|contradiction].
  destruct (Entry.section_title section); [|contradiction].
  destruct (Entry.relevance_score section); [|contradiction].
  cbn [subscript bind]. eexists. reflexivity.
Qed.

Lemma analysed_subsection_total (rt : Runtime) (persona job : str) (subsection : Entry.t) :
  analysable subsection ->
  exists entry, analysed_subsection rt persona job subsection = Ok entry.
Proof.
  intros (Hd & Hp & Ht & Hr & Hs & Hf & Ha). unfold analysed_subsection.
  destruct (Entry.document subsection); [|contradiction].
  destruct (Entry.page subsection); [|contradiction].
  destruct (Entry.section_title subsection); [|contradiction].
  destruct (Entry.refined_text subsection); [|contradiction].
  destruct (Entry.relevance_score subsection); [|contradiction].
  destruct (Entry.persona_focus subsection); [|contradiction].
  destruct (Entry.job_alignment subsection); [|contradiction].
  cbn [subscript bind]. eexists. reflexivity.
Qed.

Lemma process_documents_body_described (rt : Runtime) (docs_path persona job : str)
      (names : list str) (n : nat) :
  path_exists rt docs_path = true ->
  listdir rt docs_path = inl names ->
  pdf_files_of names <> [] ->
  match process_documents_body rt docs_path persona job n with
  | Ok result =>
      Result.error (Result.metadata result) = None /\
      Result.input_documents (Result.metadata result) = pdf_files_of names /\
      Result.multilingual_support (Result.metadata result) = Some true
  | Raise e =>
      e = KeyError "metadata" /\
      exists pdf_file,
        In pdf_file (pdf_files_of names) /\
        Content.metadata
          (extract_document_content_multilingual rt (path_join docs_path pdf_file)) = None
  end.
Proof.
  intros Hexists Hdir Hpdf. unfold process_documents_body.
  rewrite Hexists, Hdir. cbn [negb].
  fold (pdf_files_of names).
  destruct (pdf_files_of names) as [|pdf_file rest] eqn:Epdf; [contradiction|].
  pose proof (@documents_loop_described rt docs_path persona job (pdf_file :: rest)
                [] [] [] n (Forall_nil _) (Forall_nil _)) as H.
  destruct (documents_loop rt docs_path persona job (pdf_file :: rest) [] [] [] n)
    as [[[[secs subs] langs] n']|e]; [|exact H].
  destruct H as [Hsecs Hsubs]. cbn [bind].
  rewrite rank_and_filter_eq.
  assert (Ks : forallb has_key secs = true).
  { apply subscriptable_has_key. eapply Forall_impl; [|exact Hsecs].
    intros s Hs. apply Hs. }
  assert (Kss : forallb has_key subs = true).
  { apply subscriptable_has_key. eapply Forall_impl; [|exact Hsubs].
    intros s Hs. apply Hs. }
  rewrite Ks, Kss. cbn [andb bind].
  destruct (@ranked_top section_length_ok 10 secs) as (_ & Htop & _).
  destruct (@ranked_top subsection_length_ok 15 subs) as (_ & Htops & _).
  remember (firstn 10 (filter section_length_ok (sorted_desc score_of secs))) as tops.
  remember (firstn 15 (filter subsection_length_ok (sorted_desc score_of subs))) as topss.
  destruct (@mapM_total _ _ (fun entry => extracted_section rt persona job
                                                             (fst entry) (snd entry))
              (combine (seq 0 (List.length tops)) tops)) as [es Ees].
  { apply Forall_forall. intros [i s] Hin. apply in_combine_r in Hin.
    rewrite Forall_forall in Htop, Hsecs. apply extracted_section_total.
    apply complete_subscriptable, Hsecs, Htop, Hin. }
  destruct (@mapM_total _ _ (analysed_subsection rt persona job) topss) as [ss Ess].
  { apply Forall_forall. intros s Hin. rewrite Forall_forall in Htops, Hsubs.
    apply analysed_subsection_total. apply Hsubs, Htops, Hin. }
  rewrite Ees. cbn [bind]. rewrite Ess. cbn [bind]. repeat split.
Qed.


(** When the documents are read by the extractor of the repository, the
    [try] block of a run raises no [KeyError], whether the documents open
    or not: the content the extractor falls back on keeps the key
    ['metadata'], and every later subscript finds its key. *)
Theorem run_on_extracted_documents (decimal : N -> bool) (rt reader : Runtime)
        (open : str -> option (list Fitz.page)) (docs_path persona job : str)
        (n : nat) (key : string) :
  (forall pdf_path,
      extract_document_content_multilingual rt pdf_path =
      DocumentExtractor.extract_document_content_multilingual decimal reader
                                                              (open pdf_path)) ->
  process_documents_body rt docs_path persona job n <> Raise (KeyError key).
Proof.
  intros Hextract.
  destruct (path_exists rt docs_path) eqn:Hexists.
  2:{ unfold process_documents_body. rewrite Hexists. discriminate. }
  destruct (listdir rt docs_path) as [names|message] eqn:Hdir.
  2:{ unfold process_documents_body. rewrite Hexists, Hdir. discriminate. }
  destruct (pdf_files_of names) as [|pdf_file rest] eqn:Epdf.
  { unfold process_documents_body. rewrite Hexists, Hdir. cbn [negb].
    fold (pdf_files_of names). rewrite Epdf. discriminate. }
  pose proof (@process_documents_body_described rt docs_path persona job names n
                Hexists Hdir) as H.
  rewrite Epdf in H. specialize (H ltac:(discriminate)).
  destruct (process_documents_body rt docs_path persona job n) as [result|e];
    [discriminate|].
  exfalso. destruct H as (_ & pdf & _ & Hnone).
  rewrite Hextract in Hnone.
  destruct (open (path_join docs_path pdf)) as [doc|]; [|discriminate].
  unfold DocumentExtractor.extract_document_content_multilingual in Hnone.
  destruct (DocumentExtractor.read_pages decimal reader 0 doc [] []). discriminate.
Qed.

Lemma run_on_extracted_documents_witness :
  process_documents_body reading_runtime (u "input") (u "researcher")
                         (u "literature_review") 0
  <> Raise (KeyError "relevance_score").
Proof.
  exact (@run_on_extracted_documents ascii_digit reading_runtime english_runtime
           (fun _ => Some sample_document) (u "input") (u "researcher")
           (u "literature_review") 0%nat "relevance_score"%string (fun _ => eq_refl)).
Defined.

(** ** The shape of the result *)

Section SortedKeys.
Variable A B : Type.
Variable key : A -> Q.
Variable key' : B -> Q.

Lemma sorted_same_keys (l : list A) (l' : list B) :
  map key l = map key' l' ->
  StronglySorted (descending key') l' -> StronglySorted (descending key) l.
Proof.
  revert l'. induction l as [|x l IH]; intros [|y l'] E H; try discriminate;
    [constructor|].
  simpl in E. injection E as Ex El. inversion H as [|? ? Hl' Hy]; subst.
  constructor; [now apply IH with l'|].
  apply Forall_forall. intros z Hz. unfold descending.
  apply (in_map key) in Hz. rewrite El in Hz. apply in_map_iff in Hz as (z' & Ez & Hz').
  rewrite Forall_forall in Hy. specialize (Hy z' Hz'). unfold descending in Hy.
  now rewrite <- Ez, Ex.
Qed.
End SortedKeys.

Lemma extracted_sections_shape (rt : Runtime) (persona job : str)
      (sections entries : list Entry.t) (start : nat) :
  mapM (fun entry => extracted_section rt persona job (fst entry) (snd entry))
       (combine (seq start (List.length sections)) sections) = Ok entries ->
  map Entry.importance_rank entries =
    map Some (seq (S start) (List.length sections)) /\
  map score_of entries = map score_of sections /\
  Forall (fun entry =>
            Entry.content entry = None /\
            exists preview,
              Entry.content_preview entry = Some preview /\ (len preview <= 203)%nat)
         entries.
Proof.
  revert entries start. induction sections as [|section rest IH]; intros entries start H.
  - simpl in H. injection H as <-. repeat split. constructor.
  - cbn [List.length seq combine mapM fst snd] in H.
    destruct (extracted_section rt persona job start section) as [entry|e] eqn:E;
      [|discriminate].
    cbn [bind] in H.
    destruct (mapM _ (combine (seq (S start) (List.length rest)) rest)) as [tail|e] eqn:Et;
      [|discriminate].
    cbn [bind] in H. injection H as <-.
    destruct (IH tail (S start) Et) as (Hrank & Hscore & Hall).
    unfold extracted_section in E.
    destruct (Entry.document section); [|discriminate].
    destruct (Entry.page section); [|discriminate].
    destruct (Entry.section_title section); [|discriminate].
    destruct (Entry.relevance_score section) as [score|] eqn:Es; [|discriminate].
    cbn [subscript bind] in E.
    remember (if 200 <? len (get (Entry.content section) [])
              then firstn 200 (get (Entry.content section) []) ++ u "..."
              else get (Entry.content section) []) as preview eqn:Epreview.
    injection E as <-.
    split; [|split].
    + cbn [map List.length seq Entry.importance_rank]. rewrite Hrank.
      f_equal. f_equal. lia.
    + cbn [map]. rewrite Hscore. f_equal. unfold score_of. cbn. now rewrite Es.
    + constructor; [|exact Hall].
      cbn [Entry.content Entry.content_preview]. split; [reflexivity|].
      exists preview. split; [reflexivity|]. subst preview.
      destruct (200 <? len (get (Entry.content section) [])) eqn:L.
      * unfold len. rewrite length_app, length_firstn.
        change (List.length (u "...")) with 3%nat. lia.
      * apply Nat.ltb_ge in L. lia.
Qed.

Lemma analysed_subsections_shape (rt : Runtime) (persona job : str)
      (subsections entries : list Entry.t) :
  mapM (analysed_subsection rt persona job) subsections = Ok entries ->
  map score_of entries = map score_of subsections /\
  map Entry.refined_text entries = map Entry.refined_text subsections /\
  Forall (fun entry =>
            Entry.importance_rank entry = None /\ Entry.refined_text entry <> None)
         entries.
Proof.
  revert entries. induction subsections as [|subsection rest IH]; intros entries H.
  - simpl in H. injection H as <-. repeat split. constructor.
  - cbn [mapM] in H.
    destruct (analysed_subsection rt persona job subsection) as [entry|e] eqn:E;
      [|discriminate].
    cbn [bind] in H.
    destruct (mapM (analysed_subsection rt persona job) rest) as [tail|e] eqn:Et;
      [|discriminate].
    cbn [bind] in H. injection H as <-.
    destruct (IH tail eq_refl) as (Hscore & Hrefined & Hall).
    unfold analysed_subsection in E.
    destruct (Entry.document subsection); [|discriminate].
    destruct (Entry.page subsection); [|discriminate].
    destruct (Entry.section_title subsection); [|discriminate].
    destruct (Entry.refined_text subsection) as [refined|] eqn:Er; [|discriminate].
    destruct (Entry.relevance_score subsection) as [score|] eqn:Es; [|discriminate].
    destruct (Entry.persona_focus subsection); [|discriminate].
    destruct (Entry.job_alignment subsection); [|discriminate].
    cbn [subscript bind] in E. injection E as <-.
    split; [|split].
    + cbn [map]. rewrite Hscore. f_equal. unfold score_of. cbn. now rewrite Es.
    + cbn [map]. rewrite Hrefined. f_equal. cbn. now rewrite Er.
    + constructor; [|exact Hall]. cbn. split; [reflexivity | discriminate].
Qed.

(** Whatever the run meets, its result is well formed: at most 10
    extracted sections and 15 analysed subsections, counted by the two
    totals of the metadata; both lists in descending order of score; the
    sections ranked 1, 2, ... in that order, each with a preview of at most
    203 characters; the subsections with a refined text of 30 to 1000
    characters. *)
Theorem result_well_formed (rt : Runtime) (docs_path persona job : str) (n : nat) :
  let result := process_documents_multilingual rt docs_path persona job n in
  let sections := Result.extracted_sections result in
  let subsections := Result.subsection_analysis result in
  Result.total_sections_found (Result.metadata result) = List.length sections /\
  Result.total_subsections_found (Result.metadata result) = List.length subsections /\
  (List.length sections <= 10)%nat /\
  (List.length subsections <= 15)%nat /\
  StronglySorted (descending score_of) sections /\
  StronglySorted (descending score_of) subsections /\
  map Entry.importance_rank sections = map Some (seq 1 (List.length sections)) /\
  Forall (fun entry =>
            exists preview,
              Entry.content_preview entry = Some preview /\ (len preview <= 203)%nat)
         sections /\
  Forall (fun entry =>
            exists refined,
              Entry.refined_text entry = Some refined /\ (30 <= len refined <= 1000)%nat)
         subsections.
Proof.
  cbv zeta.
  assert (Hempty : forall message,
             let result := _create_empty_result persona job message in
             Result.total_sections_found (Result.metadata result) =
               List.length (Result.extracted_sections result) /\
             Result.total_subsections_found (Result.metadata result) =
               List.length (Result.subsection_analysis result) /\
             (List.length (Result.extracted_sections result) <= 10)%nat /\
             (List.length (Result.subsection_analysis result) <= 15)%nat /\
             StronglySorted (descending score_of) (Result.extracted_sections result) /\
             StronglySorted (descending score_of) (Result.subsection_analysis result) /\
             map Entry.importance_rank (Result.extracted_sections result) =
               map Some (seq 1 (List.length (Result.extracted_sections result))) /\
             Forall (fun entry =>
                       exists preview,
                         Entry.content_preview entry = Some preview /\
                         (len preview <= 203)%nat)
                    (Result.extracted_sections result) /\
             Forall (fun entry =>
                       exists refined,
                         Entry.refined_text entry = Some refined /\
                         (30 <= len refined <= 1000)%nat)
                    (Result.subsection_analysis result)).
  { intros message. cbn. repeat split; try lia; constructor. }
  unfold process_documents_multilingual.
  destruct (process_documents_body rt docs_path persona job n) as [result|e] eqn:E;
    [|apply Hempty].
  unfold process_documents_body in E.
  destruct (negb (path_exists rt docs_path)); [discriminate|].
  destruct (listdir rt docs_path) as [names|message]; [|discriminate].
  destruct (filter _ names) as [|pdf_file rest]; [injection E as <-; apply Hempty|].
  destruct (documents_loop rt docs_path persona job (pdf_file :: rest) [] [] [] n)
    as [[[[secs subs] langs] n']|e]; [|discriminate].
  cbn [bind] in E. rewrite rank_and_filter_eq in E.
  destruct (forallb has_key secs && forallb has_key subs); [|discriminate].
  cbn [bind] in E.
  pose proof (@ranked_sorted section_length_ok 10 secs) as Hsorted.
  pose proof (@ranked_sorted subsection_length_ok 15 subs) as Hsorteds.
  destruct (@ranked_top section_length_ok 10 secs) as (Hlen & _ & _).
  destruct (@ranked_top subsection_length_ok 15 subs) as (Hlens & Hok & _).
  remember (firstn 10 (filter section_length_ok (sorted_desc score_of secs))) as tops.
  remember (firstn 15 (filter subsection_length_ok (sorted_desc score_of subs))) as topss.
  destruct (mapM _ (combine (seq 0 (List.length tops)) tops)) as [es|e] eqn:Ees;
    [|discriminate].
  cbn [bind] in E.
  destruct (mapM (analysed_subsection rt persona job) topss) as [ss|e] eqn:Ess;
    [|discriminate].
  cbn [bind] in E. injection E as <-.
  cbn [Result.metadata Result.extracted_sections Result.subsection_analysis
       Result.total_sections_found Result.total_subsections_found].
  destruct (@extracted_sections_shape rt persona job tops es 0%nat Ees)
    as (Hrank & Hscore & Hpreview).
  destruct (@analysed_subsections_shape rt persona job topss ss Ess)
    as (Hscores & Hrefined & Hsome).
  assert (Les : List.length es = List.length tops).
  { rewrite <- (length_map score_of es), Hscore. apply length_map. }
  assert (Lss : List.length ss = List.length topss).
  { rewrite <- (length_map score_of ss), Hscores. apply length_map. }
  split; [reflexivity|]. split; [reflexivity|].
  split; [lia|]. split; [lia|].
  split; [exact (@sorted_same_keys _ _ score_of score_of es tops Hscore Hsorted)|].
  split; [exact (@sorted_same_keys _ _ score_of score_of ss topss Hscores Hsorteds)|].
  split; [now rewrite Les|].
  split.
  - eapply Forall_impl; [|exact Hpreview]. intros entry (_ & H). exact H.
  - apply Forall_forall. intros entry Hin.
    rewrite Forall_forall in Hsome. destruct (Hsome entry Hin) as [_ Hr].
    apply (in_map Entry.refined_text) in Hin. rewrite Hrefined in Hin.
    apply in_map_iff in Hin as (sub & Esub & Hsub).
    rewrite Forall_forall in Hok. destruct (Hok sub Hsub) as [_ Hp].
    unfold subsection_length_ok, within in Hp. apply andb_true_iff in Hp as [H1 H2].
    apply Nat.leb_le in H1, H2. rewrite Esub in H1, H2.
    destruct (Entry.refined_text entry) as [refined|]; [|contradiction].
    exists refined. split; [reflexivity | now split].
Qed.

(** ** The reasoning attached to an entry *)

Lemma app_nonempty_l (A : Type) (l l' : list A) : l <> [] -> l ++ l' <> [].
Proof.
  destruct l; [contradiction | discriminate].
Qed.

Lemma selection_reasoning_eq (rt : Runtime) (section : Entry.t) (persona job : str) :
  generate_selection_reasoning rt section persona job =
  join (u "; ")
       (match matched_keywords section persona job with
        | [] => []
        | _ :: _ =>
            [u "Contains relevant keywords: "
               ++ join (u ", ") (firstn 3 (matched_keywords section persona job))]
        end
        ++ [language_reason rt section]
        ++ (if 100 <? len (get (Entry.content section) [])
            then [u "Contains substantial content for detailed analysis"]
            else [])
        ++ (if Qlt_bool 50 (get (Entry.relevance_score section) 0)
            then [u "High relevance score (" ++ reasoning_score_text rt section
                    ++ u ") indicates strong semantic alignment"]
            else if Qlt_bool 30 (get (Entry.relevance_score section) 0)
            then [u "Moderate relevance score (" ++ reasoning_score_text rt section
                    ++ u ") shows good content value"]
            else [])).
Proof.
  unfold generate_selection_reasoning, language_reason, matched_keywords,
    reasoning_language, lang_reasons, reasoning_score_text.
  cbv zeta.
  destruct (dict_keys (filter _ (get_keywords_for_language persona job _)));
    destruct (100 <? len (get (Entry.content section) []));
    destruct (Qlt_bool 50 (get (Entry.relevance_score section) 0));
    try destruct (Qlt_bool 30 (get (Entry.relevance_score section) 0));
    reflexivity.
Qed.

Lemma language_reason_nonempty (rt : Runtime) (section : Entry.t) :
  language_reason rt section <> [].
Proof.
  unfold language_reason, lang_reasons, dict_get_default. cbv zeta. cbn [dict_get].
  repeat match goal with
         | |- context [if str_eqb ?a ?b then _ else _] =>
             first [change (str_eqb a b) with true; cbv iota | destruct (str_eqb a b)]
         end;
    apply app_nonempty_l; discriminate.
Qed.

Lemma language_reason_default (rt : Runtime) (section : Entry.t) :
  reasoning_language section = u "en" \/
  ~ In (reasoning_language section) [u "es"; u "fr"; u "de"; u "hi"] ->
  language_reason rt section =
  u "Content in English with relevance score " ++ reasoning_score_text rt section.
Proof.
  intros H. unfold language_reason, lang_reasons, dict_get_default. cbv zeta.
  cbn [dict_get].
  change (str_eqb (u "en") (u "en")) with true. cbv iota.
  destruct (str_eqb (reasoning_language section) (u "en")) eqn:Een; [reflexivity|].
  destruct H as [H | H]; [rewrite H in Een; discriminate Een|].
  assert (Hne : forall l, In l [u "es"; u "fr"; u "de"; u "hi"] ->
                          str_eqb (reasoning_language section) l = false).
  { intros l Hl. destruct (str_eqb (reasoning_language section) l) eqn:E; [|reflexivity].
    apply str_eqb_eq in E. exfalso. apply H. now rewrite E. }
  rewrite !Hne by (cbn [In]; tauto). reflexivity.
Qed.

(** The reasoning of a selection is never empty.  It joins with "; " at
    most one reason about keywords, there exactly when a keyword of the
    persona and the job occurs in the title or the content, and naming the
    first three of them; then the sentence of [lang_reasons] for the
    language of the section, which is always there and is the English
    sentence, followed by the score, for English and for every language
    other than Spanish, French, German and Hindi; then at most two reasons
    about the length of the content and the height of the score, none
    exactly when the content has at most 100 characters and the score is
    at most 30. *)
Theorem selection_reasoning_shape (rt : Runtime) (section : Entry.t) (persona job : str) :
  let keyword_reasons :=
    match matched_keywords section persona job with
    | [] => []
    | _ :: _ =>
        [u "Contains relevant keywords: "
           ++ join (u ", ") (firstn 3 (matched_keywords section persona job))]
    end in
  let other_reasons :=
    (if 100 <? len (get (Entry.content section) [])
     then [u "Contains substantial content for detailed analysis"]
     else [])
    ++ (if Qlt_bool 50 (get (Entry.relevance_score section) 0)
        then [u "High relevance score (" ++ reasoning_score_text rt section
                ++ u ") indicates strong semantic alignment"]
        else if Qlt_bool 30 (get (Entry.relevance_score section) 0)
        then [u "Moderate relevance score (" ++ reasoning_score_text rt section
                ++ u ") shows good content value"]
        else []) in
  generate_selection_reasoning rt section persona job <> [] /\
  generate_selection_reasoning rt section persona job =
    join (u "; ") (keyword_reasons ++ [language_reason rt section] ++ other_reasons) /\
  (List.length keyword_reasons <= 1)%nat /\
  (List.length other_reasons <= 2)%nat /\
  Forall (fun reason => reason <> []) (keyword_reasons ++ other_reasons) /\
  (keyword_reasons = [] <-> matched_keywords section persona job = []) /\
  (other_reasons = [] <->
   (len (get (Entry.content section) []) <= 100)%nat /\
   get (Entry.relevance_score section) 0 <= 30) /\
  language_reason rt section <> [] /\
  In (language_reason rt section)
     (map snd (lang_reasons (reasoning_score_text rt section))) /\
  (reasoning_language section = u "en" \/
   ~ In (reasoning_language section) [u "es"; u "fr"; u "de"; u "hi"] ->
   language_reason rt section =
   u "Content in English with relevance score " ++ reasoning_score_text rt section).
Proof.
  intros keyword_reasons other_reasons.
  pose proof (language_reason_nonempty rt section) as Hlang.
  assert (Hrest :
    language_reason rt section <> [] /\
    In (language_reason rt section)
       (map snd (lang_reasons (reasoning_score_text rt section))) /\
    (reasoning_language section = u "en" \/
     ~ In (reasoning_language section) [u "es"; u "fr"; u "de"; u "hi"] ->
     language_reason rt section =
     u "Content in English with relevance score " ++ reasoning_score_text rt section)).
  { split; [exact Hlang|]. split; [|apply language_reason_default].
    unfold language_reason, dict_get_default. cbv zeta.
    unfold lang_reasons. cbn [dict_get map snd].
    change (str_eqb (u "en") (u "en")) with true. cbv iota.
    repeat match goal with
           | |- context [if str_eqb ?a ?b then _ else _] => destruct (str_eqb a b)
           end; cbn [In]; tauto. }
  rewrite selection_reasoning_eq. fold keyword_reasons. fold other_reasons.
  assert (Hkw : forall first rest,
             u "Contains relevant keywords: " ++ join (u ", ") (firstn 3 (first :: rest))
             <> []) by (intros; apply app_nonempty_l; discriminate).
  assert (Hhigh : u "High relevance score (" ++ reasoning_score_text rt section
                    ++ u ") indicates strong semantic alignment" <> [])
    by (apply app_nonempty_l; discriminate).
  assert (Hmod : u "Moderate relevance score (" ++ reasoning_score_text rt section
                   ++ u ") shows good content value" <> [])
    by (apply app_nonempty_l; discriminate).
  assert (Hsub : u "Contains substantial content for detailed analysis" <> [])
    by discriminate.
  split; [|split; [reflexivity|]].
  { subst keyword_reasons.
    destruct (matched_keywords section persona job) as [|first rest]; cbn [app].
    - now apply join_nonempty.
    - apply join_nonempty. apply Hkw. }
  assert (Hscore : forall b50 b30 : bool,
             b50 = Qlt_bool 50 (get (Entry.relevance_score section) 0) ->
             b30 = Qlt_bool 30 (get (Entry.relevance_score section) 0) ->
             (b50 = false /\ b30 = false <->
              get (Entry.relevance_score section) 0 <= 30)).
  { intros b50 b30 -> ->. split.
    - intros [_ H]. now apply Qlt_bool_false_iff.
    - intros H. split; apply Qlt_bool_false_iff; [|exact H].
      apply Qle_trans with 30; [exact H | discriminate]. }
  specialize (Hscore _ _ eq_refl eq_refl).
  assert (Hlen : (100 <? len (get (Entry.content section) [])) = false <->
                 (len (get (Entry.content section) []) <= 100)%nat)
    by apply Nat.ltb_ge.
  subst keyword_reasons other_reasons.
  destruct (matched_keywords section persona job) as [|first rest];
    destruct (100 <? len (get (Entry.content section) []));
    destruct (Qlt_bool 50 (get (Entry.relevance_score section) 0));
    destruct (Qlt_bool 30 (get (Entry.relevance_score section) 0));
    cbn [app List.length];
    (split; [lia|]); (split; [lia|]);
    (split; [repeat constructor; auto|]);
    (split; [split; intros; first [reflexivity | discriminate]|]);
    (split; [|exact Hrest]);
    (split; [intros H; try discriminate H; tauto
            |intros [H1 H2]; try reflexivity; exfalso;
             first [apply Hlen in H1; discriminate H1
                   |apply Hscore in H2; destruct H2; discriminate]]).
Qed.

Lemma selection_reasoning_shape_witness :
  reasoning_language (sample_subsection "Methods" 50) = u "en" /\
  language_reason english_runtime (sample_subsection "Methods" 50) =
  u "Content in English with relevance score "
    ++ reasoning_score_text english_runtime (sample_subsection "Methods" 50).
Proof.
  split; [reflexivity|].
  apply (@selection_reasoning_shape english_runtime (sample_subsection "Methods" 50)
           (u "researcher") (u "literature_review")).
  left. reflexivity.
Defined.

(** ** The content associated with a heading *)

Lemma extracted_page_number (decimal : N -> bool) (rt : Runtime) (doc : list Fitz.page)
      (i : nat) (page_content : Page.t) :
  nth_error
    (Content.pages
       (DocumentExtractor.extract_document_content_multilingual decimal rt (Some doc))) i
  = Some page_content ->
  Page.page_number page_content = S i.
Proof.
  intros Hi.
  destruct (extracted_content_invariant decimal rt doc) as (known & _ & _ & Hnums).
  set (content := DocumentExtractor.extract_document_content_multilingual _ _ _) in *.
  assert (Hlen : List.length (Content.pages content) = List.length doc).
  { rewrite <- (length_map Page.page_number), Hnums. apply length_seq. }
  pose proof (map_nth_error Page.page_number _ _ Hi) as H. rewrite Hnums in H.
  assert (Hlt : (i < List.length doc)%nat).
  { rewrite <- Hlen. apply nth_error_Some. congruence. }
  rewrite (nth_error_nth' _ 0%nat) in H by (now rewrite length_seq).
  rewrite seq_nth in H by exact Hlt. injection H as H. lia.
Qed.

(** In an extracted document, the content associated with a heading of
    the page at position [i] is made of at most three body blocks, joined
    by a space: the first ones of that page that lie below the heading
    when there are any, and otherwise the first ones of the page that
    follows, at position [i + 1]; after the last page there is none and
    the content is empty. *)
Theorem associated_content_of_heading (decimal : N -> bool) (rt : Runtime)
        (doc : list Fitz.page) (i : nat) (page_content : Page.t) (heading : TextBlock.t) :
  let content :=
    DocumentExtractor.extract_document_content_multilingual decimal rt (Some doc) in
  nth_error (Content.pages content) i = Some page_content ->
  exists blocks,
    heading_associated_content content page_content heading =
      join (u " ") (map TextBlock.text blocks) /\
    (List.length blocks <= 3)%nat /\
    blocks =
      firstn 3
        match blocks_below heading page_content,
              nth_error (Content.pages content) (S i) with
        | [], Some next_page => Page.body_text next_page
        | below, _ => below
        end.
Proof.
  cbv zeta. intros Hi.
  pose proof (extracted_page_number _ _ _ _ Hi) as Hnum.
  set (content := DocumentExtractor.extract_document_content_multilingual _ _ _) in *.
  eexists. split; [|split; [|reflexivity]]; [|apply firstn_le_length].
  unfold heading_associated_content, _find_associated_content. cbv zeta.
  rewrite Hnum. fold (blocks_below heading page_content).
  rewrite <- firstn_map. f_equal. f_equal.
  destruct (blocks_below heading page_content) as [|block below]; [|reflexivity].
  cbn [map]. now destruct (nth_error (Content.pages content) (S i)).
Qed.

Lemma associated_content_of_heading_witness :
  exists page_content blocks,
    nth_error
      (Content.pages
         (DocumentExtractor.extract_document_content_multilingual
            ascii_digit english_runtime (Some sample_document))) 0 = Some page_content /\
    heading_associated_content
      (DocumentExtractor.extract_document_content_multilingual
         ascii_digit english_runtime (Some sample_document))
      page_content sample_heading
    = join (u " ") (map TextBlock.text blocks) /\
    (List.length blocks <= 3)%nat.
Proof.
  destruct (nth_error
              (Content.pages
                 (DocumentExtractor.extract_document_content_multilingual
                    ascii_digit english_runtime (Some sample_document))) 0)
    as [page_content|] eqn:E; [|vm_compute in E; discriminate].
  destruct (@associated_content_of_heading ascii_digit english_runtime sample_document
              0%nat page_content sample_heading E) as (blocks & H1 & H2 & _).
  exists page_content, blocks. split; [reflexivity|]. split; [exact H1 | exact H2].
Defined.

(** ** The heading patterns *)

Section RegexFacts.
Variable decimal : N -> bool.

Lemma nullable_denotes (r : regex) : denotes decimal r [] -> nullable r = true.
Proof.
  intros H. remember [] as s eqn:E. induction H; try discriminate; try reflexivity.
  - apply app_eq_nil in E as [-> ->]. simpl. now rewrite IHdenotes1, IHdenotes2.
  - simpl. now rewrite IHdenotes.
  - simpl. rewrite IHdenotes by exact E. apply orb_true_r.
Qed.

Lemma deriv_denotes (r : regex) (c : N) (s : str) :
  denotes decimal r (c :: s) -> denotes decimal (deriv decimal c r) s.
Proof.
  intros H. remember (c :: s) as cs eqn:E. revert c s E.
  induction H as [|x|cls x Hx|x Hx|r1 r2 s1 s2 H1 IH1 H2 IH2|r1 r2 s0 H0 IH0
                  |r1 r2 s0 H0 IH0|r0|r0 s1 s2 H1 IH1 H2 IH2];
    intros c s E; try discriminate.
  - injection E as -> <-. simpl. rewrite N.eqb_refl. constructor.
  - injection E as -> <-. simpl. rewrite Hx. constructor.
  - injection E as -> <-. simpl. rewrite Hx. constructor.
  - destruct s1 as [|c1 s1'].
    + simpl in E. simpl. rewrite (nullable_denotes H1).
      apply denotes_alt_r. now apply IH2.
    + simpl in E. injection E as -> <-. simpl.
      destruct (nullable r1); [apply denotes_alt_l|];
        (apply denotes_seq; [now apply IH1 | exact H2]).
  - simpl. apply denotes_alt_l. now apply IH0.
  - simpl. apply denotes_alt_r. now apply IH0.
  - destruct s1 as [|c1 s1'].
    + simpl in E. now apply IH2.
    + simpl in E. injection E as -> <-. simpl.
      apply denotes_seq; [now apply IH1 | exact H2].
Qed.

Lemma matches_prefix_complete (r : regex) (matched tail : str) :
  denotes decimal r matched -> matches_prefix decimal r (matched ++ tail) = true.
Proof.
  revert r. induction matched as [|c matched IH]; intros r H.
  - apply nullable_denotes in H. destruct tail; simpl; now rewrite H.
  - simpl. rewrite IH by (now apply deriv_denotes). apply orb_true_r.
Qed.

Lemma matches_to_end_complete (r : regex) (matched tail : str) :
  denotes decimal r matched -> tail = [] \/ tail = [10%N] ->
  matches_to_end decimal r (matched ++ tail) = true.
Proof.
  revert r. induction matched as [|c matched IH]; intros r H Htail.
  - apply nullable_denotes in H. destruct Htail as [-> | ->]; simpl; now rewrite H.
  - simpl. rewrite IH by (try apply deriv_denotes; assumption). apply orb_true_r.
Qed.

Lemma dead_matches (r : regex) (s : str) :
  dead r = true ->
  matches_prefix decimal r s = false /\ matches_to_end decimal r s = false.
Proof.
  assert (Hnull : forall r0, dead r0 = true -> nullable r0 = false).
  { induction r0 as [| | | | |r1 IH1 r2 IH2|r1 IH1 r2 IH2|]; simpl; intros H;
      try discriminate; try reflexivity.
    - apply orb_true_iff in H as [H | H];
        [rewrite (IH1 H); reflexivity | rewrite (IH2 H); apply andb_false_r].
    - apply andb_true_iff in H as [H1 H2]. now rewrite (IH1 H1), (IH2 H2). }
  assert (Hderiv : forall c r0, dead r0 = true -> dead (deriv decimal c r0) = true).
  { intros c. induction r0 as [| | | | |r1 IH1 r2 IH2|r1 IH1 r2 IH2|]; simpl; intros H;
      try discriminate; try reflexivity.
    - apply orb_true_iff in H as [H | H].
      + rewrite (Hnull r1 H). simpl. now rewrite (IH1 H).
      + destruct (nullable r1); simpl; rewrite H, ?(IH2 H), ?orb_true_r; reflexivity.
    - apply andb_true_iff in H as [H1 H2]. now rewrite (IH1 H1), (IH2 H2). }
  revert r. induction s as [|c s IH]; intros r H.
  - simpl. now rewrite (Hnull r H).
  - simpl. rewrite (Hnull r H). simpl.
    destruct (IH (deriv decimal c r) (Hderiv c r H)) as [-> ->]. now split.
Qed.

Lemma denotes_repeated (cls : char_class) (n : nat) (s : str) :
  forallb (in_class cls) s = true -> (n <= len s)%nat ->
  denotes decimal (AtLeast n (Among cls)) s.
Proof.
  revert n. induction s as [|c s IH]; intros n Hs Hn.
  - destruct n; [|simpl in Hn; lia]. constructor.
  - simpl in Hs. apply andb_true_iff in Hs as [Hc Hs].
    destruct n as [|n]; simpl.
    + apply (@denotes_star_cons decimal (Among cls) [c] s); [now constructor|].
      apply (IH 0%nat Hs). lia.
    + apply (@denotes_seq decimal (Among cls) (AtLeast n (Among cls)) [c] s);
        [now constructor|].
      apply IH; [exact Hs | simpl in Hn; unfold len in *; lia].
Qed.
End RegexFacts.

Lemma heading_by_pattern (decimal : N -> bool) (block : TextBlock.t) (p : pattern) :
  (3 <= len (TextBlock.text block) <= 200)%nat ->
  In p HEADING_PATTERNS ->
  re_match decimal p (TextBlock.text block) = true ->
  _is_heading_advanced decimal block = true.
Proof.
  intros [H3 H200] Hp Hm. unfold _is_heading_advanced.
  replace (len (TextBlock.text block) <? 3) with false
    by (symmetry; apply Nat.ltb_ge; lia).
  replace (200 <? len (TextBlock.text block)) with false
    by (symmetry; apply Nat.ltb_ge; lia).
  cbn [orb]. destruct (Qlt_bool 12 (TextBlock.font_size block) && TextBlock.is_bold block);
    [reflexivity|].
  replace (existsb (fun pattern => re_match decimal pattern (TextBlock.text block))
                   HEADING_PATTERNS) with true; [reflexivity|].
  symmetry. apply existsb_exists. exists p. now split.
Qed.

(** A text block of 3 to 200 characters is a heading, whatever its type,
    as soon as its text begins with a string that one of the heading
    patterns denotes, and, for the pattern that ends with [$], holds
    nothing more than that string and a final newline. *)
Theorem pattern_headings (decimal : N -> bool) (block : TextBlock.t) (p : pattern)
        (matched tail : str) :
  (3 <= len (TextBlock.text block) <= 200)%nat ->
  In p HEADING_PATTERNS ->
  TextBlock.text block = matched ++ tail ->
  denotes decimal (body p) matched ->
  (to_end p = true -> tail = [] \/ tail = [10%N]) ->
  _is_heading_advanced decimal block = true.
Proof.
  intros Hlen Hp Htext Hden Htail.
  apply (@heading_by_pattern decimal block p Hlen Hp).
  unfold re_match. rewrite Htext. destruct (to_end p).
  - apply matches_to_end_complete; [exact Hden | now apply Htail].
  - now apply matches_prefix_complete.
Qed.

Lemma pattern_headings_witness :
  _is_heading_advanced ascii_digit (plain_block "2.1 Sampling procedure") = true.
Proof.
  apply (@pattern_headings ascii_digit (plain_block "2.1 Sampling procedure")
           {| body := Seq (Plus Digit)
                          (Seq (Lit 46)
                               (Seq (Plus Digit)
                                    (Seq (Plus (Among space)) (Among upper_case))));
              to_end := false |}
           (u "2.1 S") (u "ampling procedure")).
  - vm_compute. lia.
  - right. left. reflexivity.
  - reflexivity.
  - cbn [body].
    apply (@denotes_seq ascii_digit _ _ (u "2") (u ".1 S"));
      [apply (@denotes_seq ascii_digit _ _ (u "2") []); [now constructor | constructor]|].
    apply (@denotes_seq ascii_digit _ _ (u ".") (u "1 S")); [constructor|].
    apply (@denotes_seq ascii_digit _ _ (u "1") (u " S"));
      [apply (@denotes_seq ascii_digit _ _ (u "1") []); [now constructor | constructor]|].
    apply (@denotes_seq ascii_digit _ _ (u " ") (u "S"));
      [apply (@denotes_seq ascii_digit _ _ (u " ") []); [now constructor | constructor]|].
    now constructor.
  - discriminate.
Defined.

(** A line of capitals is a heading, whatever its type: a text of at most
    200 characters that begins with a letter from A to Z followed by three
    or more characters that are such letters or whitespace. *)
Theorem capitals_are_headings (decimal : N -> bool) (block : TextBlock.t)
        (c : N) (rest : str) :
  TextBlock.text block = c :: rest ->
  in_class upper_case c = true ->
  forallb (in_class upper_case_or_space) rest = true ->
  (3 <= len rest < 200)%nat ->
  _is_heading_advanced decimal block = true.
Proof.
  intros Htext Hc Hrest [H3 H200].
  assert (Hlen : (3 <= len (TextBlock.text block) <= 200)%nat).
  { rewrite Htext. unfold len in *. cbn [List.length]. lia. }
  apply (@heading_by_pattern decimal block
           {| body := Seq (Among upper_case) (AtLeast 3 (Among upper_case_or_space));
              to_end := true |} Hlen).
  - right. right. left. reflexivity.
  - unfold re_match. cbn [to_end body]. rewrite Htext.
    rewrite <- (app_nil_r (c :: rest)).
    apply matches_to_end_complete; [|now left].
    apply (@denotes_seq decimal _ _ [c] rest); [now constructor|].
    now apply denotes_repeated.
Qed.

Lemma capitals_are_headings_witness :
  _is_heading_advanced ascii_digit (plain_block "RESEARCH METHODS") = true.
Proof.
  apply (@capitals_are_headings ascii_digit (plain_block "RESEARCH METHODS")
           82%N (u "ESEARCH METHODS")).
  - reflexivity.
  - reflexivity.
  - reflexivity.
  - vm_compute. lia.
Defined.

(** A line in ordinary type, not both bold and above 12 points, that holds
    no heading keyword and begins with neither a decimal digit nor a
    letter from A to Z is not a heading: no pattern can begin with its
    first character. *)
Theorem plain_lines_are_body (decimal : N -> bool) (block : TextBlock.t)
        (c : N) (rest : str) :
  TextBlock.text block = c :: rest ->
  decimal c = false ->
  in_class upper_case c = false ->
  Qlt_bool 12 (TextBlock.font_size block) && TextBlock.is_bold block = false ->
  existsb (fun keyword => contains keyword (lower (TextBlock.text block)))
          HEADING_KEYWORDS = false ->
  _is_heading_advanced decimal block = false.
Proof.
  intros Htext Hd Hu Htype Hkw. unfold _is_heading_advanced.
  destruct ((len (TextBlock.text block) <? 3) || (200 <? len (TextBlock.text block)));
    [reflexivity|].
  rewrite Htype, Hkw.
  replace (existsb (fun pattern => re_match decimal pattern (TextBlock.text block))
                   HEADING_PATTERNS) with false; [reflexivity|].
  symmetry. rewrite Htext.
  assert (H67 : (c =? 67)%N = false).
  { destruct (N.eqb_spec c 67) as [-> |]; [discriminate Hu | reflexivity]. }
  assert (H83 : (c =? 83)%N = false).
  { destruct (N.eqb_spec c 83) as [-> |]; [discriminate Hu | reflexivity]. }
  unfold HEADING_PATTERNS, re_match.
  let chapter := eval vm_compute in (Word (u "Chapter")) in
  change (Word (u "Chapter")) with chapter.
  let section := eval vm_compute in (Word (u "Section")) in
  change (Word (u "Section")) with section.
  cbn [existsb to_end body matches_prefix matches_to_end nullable Plus AtLeast andb orb].
  cbn [deriv nullable Plus AtLeast Word andb orb].
  rewrite ?Hd, ?Hu, ?H67, ?H83.
  repeat match goal with
         | |- context [matches_prefix decimal ?r rest] =>
             rewrite (proj1 (@dead_matches decimal r rest ltac:(reflexivity)))
         | |- context [matches_to_end decimal ?r rest] =>
             rewrite (proj2 (@dead_matches decimal r rest ltac:(reflexivity)))
         end.
  reflexivity.
Qed.

Lemma plain_lines_are_body_witness :
  _is_heading_advanced ascii_digit (plain_block "the sample was drawn at random.") = false.
Proof.
  apply (@plain_lines_are_body ascii_digit (plain_block "the sample was drawn at random.")
           116%N (u "he sample was drawn at random.")); reflexivity.
Defined.
